(** * terraform-plan-reviewer: the diffing and prediction core of
      [lib/PlanReviewer.js], embedded in Rocq.

    The JavaScript values the reviewer handles come out of [JSON.parse]; they
    are modelled by the inductive type [value].  An object is the list of its
    own properties in enumeration order ([Object.keys] order), an array the
    list of its elements.  Throwing code returns a [result]; code that also
    writes (the console, the tally, the [after_unknown] map) threads a store.

    Modelling boundaries, stated once:
    - a number is carried by the text JavaScript prints for it (["128"],
      ["0.5"], ["1e+21"]): the program prints and compares numbers and does
      no arithmetic on them;
    - a string is a sequence of code units, written with [ascii];
    - reading a property looks at the own properties first and then at the
      prototype: [Object.prototype] for an object, and before it
      [Array.prototype], [String.prototype], [Number.prototype] or
      [Boolean.prototype] for an array, a string, a number or a boolean,
      with the methods ECMAScript 2023 gives them.  An inherited method is a
      [VFun]; it is opaque, the program never calls one and reads no
      property of one but [module] (line 388), which no built-in has.  The
      prototype object that [__proto__] reads has no enumerable property
      and is written as the empty object (the empty array for
      [Array.prototype]);
    - the top of the plan document and the entries of [resource_changes] are
      typed records laid out as Terraform's JSON plan format gives them; the
      attribute maps, the configuration tree and the planned-values tree stay
      dynamic [value]s, because the code inspects their shape at run time;
    - the npm libraries [deepmerge] and [deep-eql], [JSON.parse] on attribute
      strings and regular expressions built from names with syntax characters
      are parameters of the model. *)

From Stdlib Require Import String Ascii List Arith NArith Lia Bool.
From Stdlib Require Import DecimalString Permutation.
Import ListNotations.
Open Scope string_scope.

(* ================================================================== *)
(** * JavaScript values and built-ins *)
(* ================================================================== *)

Module JS.

#[local] Set Warnings "-register-all".

(** [VNum text] is the number that prints as [text].  [VFun path] is the
    built-in function found at [path] (["Object"],
    ["Object.prototype.toString"]); no other function reaches the program,
    whose data are JSON. *)
Inductive value : Type :=
| VUndef
| VNull
| VBool (b : bool)
| VNum (text : string)
| VStr (s : string)
| VArr (xs : list value)
| VObj (o : list (string * value))
| VFun (path : string).

Definition obj := list (string * value).

(** Exceptions.  [TypeError] and [ReferenceError] are raised by the runtime,
    [Error] by a [throw new Error(msg)] of the source. *)
Inductive error : Type :=
| TypeError
| ReferenceError (name : string)
| SyntaxError
| Error (msg : string).

Inductive result (A : Type) : Type :=
| Ok (a : A)
| Throw (e : error).
Arguments Ok {A} a.
Arguments Throw {A} e.

Definition bind {A B} (m : result A) (k : A -> result B) : result B :=
  match m with
  | Ok a => k a
  | Throw e => Throw e
  end.

Notation "x <- m ;; k" := (bind m (fun x => k))
  (at level 61, m at next level, right associativity).

(** ** Decimal property names *)

Definition string_of_nat (n : nat) : string :=
  NilZero.string_of_uint (Nat.to_uint n).

(** [array_index k]: [k] is a canonical array index (["0"], ["17"], not
    ["017"]), below 2^32 - 1. *)
Definition array_index (k : string) : option N :=
  match NilZero.uint_of_string k with
  | Some d =>
      let n := N.of_uint d in
      if (NilZero.string_of_uint (N.to_uint n) =? k) && (n <? 4294967295)%N
      then Some n else None
  | None => None
  end.

(** ** Property access *)

(** The value of the own property [k] of an object. *)
Fixpoint lookup (k : string) (o : obj) : value :=
  match o with
  | [] => VUndef
  | (k', v) :: o' => if k' =? k then v else lookup k o'
  end.

Fixpoint has_key (k : string) (o : obj) : bool :=
  match o with
  | [] => false
  | (k', _) :: o' => (k' =? k) || has_key k o'
  end.

Fixpoint chars (s : string) : list value :=
  match s with
  | EmptyString => []
  | String c s' => VStr (String c EmptyString) :: chars s'
  end.

(** The own properties of an array (and of a string, through [chars]):
    its elements and [length]. *)
Definition index_or_length (xs : list value) (k : string) : option value :=
  match array_index k with
  | Some i =>
      if (i <? N.of_nat (length xs))%N then Some (nth (N.to_nat i) xs VUndef)
      else None
  | None => if k =? "length" then Some (VNum (string_of_nat (length xs)))
            else None
  end.

(** ** Inherited properties *)

(** The methods of [Object.prototype]. *)
Definition objectMethods : list string :=
  ["hasOwnProperty"; "isPrototypeOf"; "propertyIsEnumerable";
   "toLocaleString"; "toString"; "valueOf"; "__defineGetter__";
   "__defineSetter__"; "__lookupGetter__"; "__lookupSetter__"].

Definition arrayMethods : list string :=
  ["at"; "concat"; "copyWithin"; "entries"; "every"; "fill"; "filter";
   "find"; "findIndex"; "findLast"; "findLastIndex"; "flat"; "flatMap";
   "forEach"; "includes"; "indexOf"; "join"; "keys"; "lastIndexOf"; "map";
   "pop"; "push"; "reduce"; "reduceRight"; "reverse"; "shift"; "slice";
   "some"; "sort"; "splice"; "toLocaleString"; "toReversed"; "toSorted";
   "toSpliced"; "toString"; "unshift"; "values"; "with"].

Definition stringMethods : list string :=
  ["anchor"; "at"; "big"; "blink"; "bold"; "charAt"; "charCodeAt";
   "codePointAt"; "concat"; "endsWith"; "fixed"; "fontcolor"; "fontsize";
   "includes"; "indexOf"; "italics"; "lastIndexOf"; "link"; "localeCompare";
   "match"; "matchAll"; "normalize"; "padEnd"; "padStart"; "repeat";
   "replace"; "replaceAll"; "search"; "slice"; "small"; "split";
   "startsWith"; "strike"; "sub"; "substr"; "substring"; "sup";
   "toLocaleLowerCase"; "toLocaleUpperCase"; "toLowerCase"; "toString";
   "toUpperCase"; "trim"; "trimEnd"; "trimLeft"; "trimRight"; "trimStart";
   "valueOf"].

Definition numberMethods : list string :=
  ["toExponential"; "toFixed"; "toLocaleString"; "toPrecision"; "toString";
   "valueOf"].

Definition booleanMethods : list string := ["toString"; "valueOf"].

(** What a value whose prototype is [<constructor>.prototype] finds under a
    name that is no own property of it: the accessor [__proto__] gives the
    prototype, [constructor] the constructor, a method name the method of
    the nearest prototype that has it, any other name [undefined]. *)
Definition inherited (constructor : string) (methods : list string)
    (prototype : value) (k : string) : value :=
  if k =? "__proto__" then prototype
  else if k =? "constructor" then VFun constructor
  else if existsb (String.eqb k) methods then
    VFun (constructor ++ ".prototype." ++ k)
  else if existsb (String.eqb k) objectMethods then
    VFun ("Object.prototype." ++ k)
  else VUndef.

(** [get v k] is [v[k]] (and [v.k]): an own property, or else the inherited
    one; reading a property of [undefined] or [null] throws. *)
Definition get (v : value) (k : string) : result value :=
  match v with
  | VUndef | VNull => Throw TypeError
  | VBool _ => Ok (inherited "Boolean" booleanMethods (VObj []) k)
  | VNum _ => Ok (inherited "Number" numberMethods (VObj []) k)
  | VStr s =>
      Ok (match index_or_length (chars s) k with
          | Some x => x
          | None => inherited "String" stringMethods (VObj []) k
          end)
  | VArr xs =>
      Ok (match index_or_length xs k with
          | Some x => x
          | None => inherited "Array" arrayMethods (VArr []) k
          end)
  | VObj o =>
      Ok (if has_key k o then lookup k o
          else inherited "Object" [] (VObj []) k)
  | VFun _ => Ok VUndef
  end.

Definition keys (o : obj) : list string := map fst o.

(** [Object.keys]. *)
Definition Object_keys (v : value) : result (list string) :=
  match v with
  | VUndef | VNull => Throw TypeError
  | VBool _ | VNum _ | VFun _ => Ok []
  | VStr s => Ok (map string_of_nat (seq 0 (String.length s)))
  | VArr xs => Ok (map string_of_nat (seq 0 (length xs)))
  | VObj o => Ok (keys o)
  end.

(** ** Property writes on a plain object *)

Fixpoint replace_prop (k : string) (v : value) (o : obj) : obj :=
  match o with
  | [] => []
  | (k', v') :: o' =>
      if k' =? k then (k', v) :: o' else (k', v') :: replace_prop k v o'
  end.

(** A new array-index key goes among the index keys, in ascending order. *)
Fixpoint insert_index (n : N) (k : string) (v : value) (o : obj) : obj :=
  match o with
  | [] => [(k, v)]
  | (k', v') :: o' =>
      match array_index k' with
      | Some n' =>
          if (n <? n')%N then (k, v) :: (k', v') :: o'
          else (k', v') :: insert_index n k v o'
      | None => (k, v) :: (k', v') :: o'
      end
  end.

(** [o[k] = v] where no inherited setter takes the assignment: an own
    property keeps its place; a new one is enumerated after the older string
    keys. *)
Definition set_prop (k : string) (v : value) (o : obj) : obj :=
  if has_key k o then replace_prop k v o
  else match array_index k with
       | Some n => insert_index n k v o
       | None => (o ++ [(k, v)])%list
       end.

Fixpoint remove_prop (k : string) (o : obj) : obj :=
  match o with
  | [] => []
  | (k', v) :: o' =>
      if k' =? k then remove_prop k o' else (k', v) :: remove_prop k o'
  end.

(** [delete v.k]. *)
Definition delete (v : value) (k : string) : result value :=
  match v with
  | VUndef | VNull => Throw TypeError
  | VObj o => Ok (VObj (remove_prop k o))
  | _ => Ok v
  end.

(** ** Type tests *)

Inductive jstype : Type :=
| TUndefined | TObject | TBoolean | TNumber | TString | TFunction.

Definition typeof (v : value) : jstype :=
  match v with
  | VUndef => TUndefined
  | VNull | VArr _ | VObj _ => TObject
  | VBool _ => TBoolean
  | VNum _ => TNumber
  | VStr _ => TString
  | VFun _ => TFunction
  end.

Definition jstype_eqb (a b : jstype) : bool :=
  match a, b with
  | TUndefined, TUndefined | TObject, TObject | TBoolean, TBoolean
  | TNumber, TNumber | TString, TString | TFunction, TFunction => true
  | _, _ => false
  end.

Definition Array_isArray (v : value) : bool :=
  match v with VArr _ => true | _ => false end.

Definition is_undefined (v : value) : bool :=
  match v with VUndef => true | _ => false end.

Definition is_null (v : value) : bool :=
  match v with VNull => true | _ => false end.

(** [v == null]. *)
Definition is_nullish (v : value) : bool := is_undefined v || is_null v.

(** [v === s] for a string [s]. *)
Definition is_string (s : string) (v : value) : bool :=
  match v with VStr s' => s' =? s | _ => false end.

(** [v === b] for a boolean [b]. *)
Definition is_bool (b : bool) (v : value) : bool :=
  match v with VBool b' => Bool.eqb b' b | _ => false end.

(** ** Strings *)

Fixpoint starts_with (p s : string) : bool :=
  match p, s with
  | EmptyString, _ => true
  | String a p', String b s' => Ascii.eqb a b && starts_with p' s'
  | String _ _, EmptyString => false
  end.

(** [s.indexOf(p) > -1]. *)
Fixpoint occurs (p s : string) : bool :=
  starts_with p s ||
  match s with
  | EmptyString => false
  | String _ s' => occurs p s'
  end.

Fixpoint drop (n : nat) (s : string) : string :=
  match n, s with
  | O, _ => s
  | S n', String _ s' => drop n' s'
  | S _, EmptyString => EmptyString
  end.

(** [s.split(sep)] for a one-character separator. *)
Fixpoint split (sep : ascii) (s : string) : list string :=
  match s with
  | EmptyString => [EmptyString]
  | String c s' =>
      if Ascii.eqb c sep then EmptyString :: split sep s'
      else match split sep s' with
           | t :: ts => String c t :: ts
           | [] => [String c EmptyString]
           end
  end.

(** ** Conversion to string *)

(** [ToString], as a template literal and [String.prototype.replace] apply
    it.  An array is joined with commas, [undefined] and [null] elements
    giving the empty text.  An object is converted by its [toString]: the
    inherited one gives ["[object Object]"]; an own property of that name
    hides it and, being data, cannot be called, and neither it nor
    [valueOf] yields a primitive, which is a [TypeError]. *)
Fixpoint ToString (v : value) : result string :=
  match v with
  | VUndef => Ok "undefined"
  | VNull => Ok "null"
  | VBool true => Ok "true"
  | VBool false => Ok "false"
  | VNum text => Ok text
  | VStr s => Ok s
  | VArr xs =>
      (fix join (l : list value) : result string :=
         match l with
         | [] => Ok EmptyString
         | x :: l' =>
             s <- match x with
                  | VUndef | VNull => Ok EmptyString
                  | _ => ToString x
                  end ;;
             match l' with
             | [] => Ok s
             | _ :: _ => rest <- join l' ;; Ok (s ++ "," ++ rest)
             end
         end) xs
  | VObj o =>
      if has_key "toString" o then Throw TypeError else Ok "[object Object]"
  | VFun path =>
      Ok ("function " ++ last (split "." path) EmptyString
          ++ "() { [native code] }")
  end.

End JS.
Import JS.

(* ================================================================== *)
(** * The plan document *)
(* ================================================================== *)

Module Data.

(** [resource.change] of one entry of [resource_changes]. *)
Record Change : Type := {
  actions : list string;
  before : value;
  after : value;
  after_unknown : value
}.

(** One entry of [resource_changes]. *)
Record Resource : Type := {
  address : string;
  mode : string;
  type : string;
  name : string;
  change : Change
}.

(** The parsed plan.  [resource_changes] is [None] when the document has no
    such array ([Array.isArray] fails). *)
Record Plan : Type := {
  resource_changes : option (list Resource);
  configuration : value;
  planned_values : value
}.

(** The shared tally of [process]. *)
Record ChangeCount : Type := {
  count_read : nat;
  count_create : nat;
  count_update : nat;
  count_delete : nat;
  count_unknown : nat
}.

(** What [getResourceChangeInfo] returns when it is not [null]. *)
Record ChangeInfo : Type := {
  symbols : list string;
  changes : list string
}.

(** One record of the diff set. *)
Record Diff : Type := {
  oldValue : value;
  newValue : value
}.

(** What [getConfigResourceWrapper] returns. *)
Record ConfigResourceWrapper : Type := {
  resource : value;
  moduleName : string
}.

End Data.
Import Data.

(* ================================================================== *)
(** * class PlanReviewer: constants and the pure lookups *)
(* ================================================================== *)

Module PlanReviewer.

Definition NO_CHANGES_OUTPUT := "No changes. Infrastructure is up-to-date.".
Definition KNOWN_AFTER_APPLY := "(known after apply)".

Definition ESC : string := String (ascii_of_nat 27) EmptyString.

Module CHANGE_MARKERS.
Definition READ := "<=".
Definition CREATE := "+".
Definition DELETE := "-".
Definition UPDATE := "~".
Definition UNKNOWN := "?".
End CHANGE_MARKERS.

Module CHANGES.
Definition READ := "read".
Definition CREATE := "create".
Definition UPDATE := "update".
Definition DELETE := "delete".
Definition UNKNOWN := "unknown".
End CHANGES.

Module COLOR.
Definition RED := ESC ++ "[31m".
Definition GREEN := ESC ++ "[32m".
Definition YELLOW := ESC ++ "[33m".
Definition RESET := ESC ++ "[0m".
Definition BLUE := ESC ++ "[34m".
End COLOR.

(** ** getMatchingAddress (lines 358-366) *)

Fixpoint findAddress (address : string) (items : list value) : result value :=
  match items with
  | [] => Ok VNull
  | item :: rest =>
      a <- get item "address" ;;
      if is_string address a then Ok item else findAddress address rest
  end.

Definition getMatchingAddress (address : string) (items : value) : result value :=
  match items with
  | VArr xs => findAddress address xs
  | _ => Throw (Error "items not array data type as expected.")
  end.

(** ** getPlannedValuesModuleResource (lines 294-321) *)

(** The [for] loop over [child_modules] (lines 308-316).  [Some r]: the loop
    returned [r]; [None]: it ended, or left by [break]. *)
Fixpoint searchChildModules (relativeAddress moduleName : string)
    (child_modules : list value) : result (option value) :=
  match child_modules with
  | [] => Ok None
  | childModule :: rest =>
      a <- get childModule "address" ;;
      if is_string ("module." ++ moduleName) a then
        rs <- get childModule "resources" ;;
        r <- getMatchingAddress
               ("module." ++ moduleName ++ "." ++ relativeAddress) rs ;;
        if negb (is_null r) then Ok (Some r) else Ok None
      else searchChildModules relativeAddress moduleName rest
  end.

(** Line 319 names [fullAddress], which no scope of the method (or of the
    module) declares: evaluating the first argument throws a
    [ReferenceError] before [getMatchingAddress] is entered. *)
Definition getPlannedValuesModuleResource (relativeAddress moduleName : string)
    (fullJson : Plan) : result value :=
  if moduleName =? "root_module" then
    root <- get (planned_values fullJson) "root_module" ;;
    rs <- get root "resources" ;;
    getMatchingAddress relativeAddress rs
  else
    root <- get (planned_values fullJson) "root_module" ;;
    cms <- get root "child_modules" ;;
    found <- match cms with
             | VArr xs => searchChildModules relativeAddress moduleName xs
             | _ => Ok None
             end ;;
    match found with
    | Some r => Ok r
    | None => Throw (ReferenceError "fullAddress")
    end.

(** ** getConfigResourceWrapper (lines 377-399) *)

Definition getConfigResourceWrapper (fullAddress : string) (fullJson : Plan)
    : result ConfigResourceWrapper :=
  let addressTokens := split "." fullAddress in
  let tokenCount := length addressTokens in
  found <-
    (if (tokenCount <=? 2)%nat then
       root <- get (configuration fullJson) "root_module" ;;
       rs <- get root "resources" ;;
       configResource <- getMatchingAddress fullAddress rs ;;
       Ok (configResource, "root_module")
     else
       let token i := nth (tokenCount - i) addressTokens EmptyString in
       root <- get (configuration fullJson) "root_module" ;;
       calls <- get root "module_calls" ;;
       call <- get calls (token 3%nat) ;;
       m <- get call "module" ;;
       rs <- get m "resources" ;;
       configResource <- getMatchingAddress (token 2%nat ++ "." ++ token 1%nat) rs ;;
       Ok (configResource, token 3%nat)) ;;
  let '(configResource, moduleName) := found in
  if is_undefined configResource then
    Throw (Error ("Couldn't find change address [" ++ fullAddress
                  ++ "] in plan JSON."))
  else Ok {| resource := configResource; moduleName := moduleName |}.

(** ** getResourceChangeInfo (lines 408-447) *)

Inductive kind : Type := KRead | KCreate | KUpdate | KDelete | KUnknown.

(** The [switch] on one action. *)
Definition classify (action : string) : kind :=
  if action =? CHANGES.READ then KRead
  else if action =? CHANGES.CREATE then KCreate
  else if action =? CHANGES.UPDATE then KUpdate
  else if action =? CHANGES.DELETE then KDelete
  else KUnknown.

Definition symbol_of (k : kind) : string :=
  match k with
  | KRead => COLOR.BLUE ++ CHANGE_MARKERS.READ ++ COLOR.RESET
  | KCreate => COLOR.GREEN ++ CHANGE_MARKERS.CREATE ++ COLOR.RESET
  | KUpdate => COLOR.YELLOW ++ CHANGE_MARKERS.UPDATE ++ COLOR.RESET
  | KDelete => COLOR.RED ++ CHANGE_MARKERS.DELETE ++ COLOR.RESET
  | KUnknown => COLOR.RED ++ CHANGE_MARKERS.UNKNOWN ++ COLOR.RESET
  end.

Definition change_of (k : kind) : string :=
  match k with
  | KRead => CHANGES.READ
  | KCreate => CHANGES.CREATE
  | KUpdate => CHANGES.UPDATE
  | KDelete => CHANGES.DELETE
  | KUnknown => CHANGES.UNKNOWN
  end.

(** [changeCount.<kind>++]. *)
Definition increment (k : kind) (c : ChangeCount) : ChangeCount :=
  match k with
  | KRead =>
      {| count_read := S (count_read c); count_create := count_create c;
         count_update := count_update c; count_delete := count_delete c;
         count_unknown := count_unknown c |}
  | KCreate =>
      {| count_read := count_read c; count_create := S (count_create c);
         count_update := count_update c; count_delete := count_delete c;
         count_unknown := count_unknown c |}
  | KUpdate =>
      {| count_read := count_read c; count_create := count_create c;
         count_update := S (count_update c); count_delete := count_delete c;
         count_unknown := count_unknown c |}
  | KDelete =>
      {| count_read := count_read c; count_create := count_create c;
         count_update := count_update c; count_delete := S (count_delete c);
         count_unknown := count_unknown c |}
  | KUnknown =>
      {| count_read := count_read c; count_create := count_create c;
         count_update := count_update c; count_delete := count_delete c;
         count_unknown := S (count_unknown c) |}
  end.

(** The [for] loop (lines 417-445): the two arrays grow by [push], the tally
    is updated in place. *)
Fixpoint classifyActions (actions : list string) (info : ChangeInfo)
    (changeCount : ChangeCount) : ChangeInfo * ChangeCount :=
  match actions with
  | [] => (info, changeCount)
  | action :: rest =>
      let k := classify action in
      classifyActions rest
        {| symbols := symbols info ++ [symbol_of k];
           changes := changes info ++ [change_of k] |}
        (increment k changeCount)
  end.

(** [None] is the [null] of line 415.  The tally is passed by reference; the
    second component is the tally after the call. *)
Definition getResourceChangeInfo (actions : list string)
    (changeCount : ChangeCount) : option ChangeInfo * ChangeCount :=
  match actions with
  | [a] =>
      if a =? "no-op" then (None, changeCount)
      else let '(i, c) := classifyActions actions
                            {| symbols := []; changes := [] |} changeCount in
           (Some i, c)
  | _ => let '(i, c) := classifyActions actions
                          {| symbols := []; changes := [] |} changeCount in
         (Some i, c)
  end.


(** ** Stateful code: a store with exceptions *)

(** What one [console.log] call prints.  Lines whose text the model computes
    are [Text]; the others carry the data the source formats. *)
Inductive line : Type :=
| Text (s : string)
| UnexpectedCondition (key : string) (newValue afterValue : value)
| AttributeLine (marker : option string) (attribute : string)
    (old : option value) (new : value)
| PredictedNoChange (marker : option string) (attribute : string)
| CompareError
| ErrorLine (e : error)
| StackLine (e : error).

Definition M (S A : Type) : Type := S -> result A * S.

Definition ret {S A} (a : A) : M S A := fun s => (Ok a, s).

Definition mbind {S A B} (m : M S A) (k : A -> M S B) : M S B :=
  fun s => match m s with
           | (Ok a, s') => k a s'
           | (Throw e, s') => (Throw e, s')
           end.

Definition lift {S A} (r : result A) : M S A := fun s => (r, s).

Definition reads {S A} (f : S -> A) : M S A := fun s => (Ok (f s), s).

Definition modify {S} (f : S -> S) : M S unit := fun s => (Ok tt, f s).

Notation "x <~ m ;; k" := (mbind m (fun x => k))
  (at level 61, m at next level, right associativity).
Notation "m ;;; k" := (mbind m (fun _ => k))
  (at level 61, right associativity).

Fixpoint mapM {A B} (f : A -> result B) (l : list A) : result (list B) :=
  match l with
  | [] => Ok []
  | a :: l' => b <- f a ;; bs <- mapM f l' ;; Ok (b :: bs)
  end.

(** ** isObject, isEmptyObject (lines 620-633) *)

Definition isObject (x : value) : bool :=
  jstype_eqb (typeof x) TObject && negb (Array_isArray x).

(** [Object.keys(null)] throws: [isObject(null)] holds. *)
Definition isEmptyObject (x : value) : result bool :=
  if isObject x then
    ks <- Object_keys x ;; Ok (length ks =? 0)%nat
  else Ok false.

(** ** getAttributeDiffs (lines 460-611) *)

(** The objects the three map arguments refer to, and the console. *)
Record store : Type := {
  newState : value;
  oldState : value;
  afterState : value;
  console : list line
}.

Definition set_afterState (a : value) (s : store) : store :=
  {| newState := newState s; oldState := oldState s; afterState := a;
     console := console s |}.

Definition log {S} (put : line -> S -> S) (l : line) : M S unit :=
  modify (put l).

Definition store_log (l : line) (s : store) : store :=
  {| newState := newState s; oldState := oldState s;
     afterState := afterState s; console := (console s ++ [l])%list |}.

Section Merge.

(** [deepmerge(target, source)] of npm. *)
Variable DEEPMERGE : value -> value -> result value.

(** Lines 498-501. *)
Definition dropDerived (resource : Resource) : M store unit :=
  if (mode resource =? "data") && (type resource =? "template_file") then
    a <~ reads afterState ;;
    a1 <~ lift (delete a "id") ;;
    modify (set_afterState a1) ;;;
    a2 <~ lift (delete a1 "rendered") ;;
    modify (set_afterState a2)
  else ret tt.

(** [(x === null || x === undefined) ? [] : Object.keys(x)] (lines 503-504). *)
Definition keysOrEmpty (x : value) : result (list string) :=
  if is_null x || is_undefined x then Ok [] else Object_keys x.

(** [diffs[key] = null] (lines 510, 514, 518).  [diffs] is made by [{}] and
    inherits the accessor [__proto__] of [Object.prototype] ([setter]): the
    first assignment to that name runs the setter, which takes the prototype
    away and adds no property; after it no setter is inherited and the name
    is assigned like any other. *)
Definition assignNull (key : string) (diffs : obj * bool) : obj * bool :=
  let '(own, setter) := diffs in
  if (key =? "__proto__") && setter then (own, false)
  else (set_prop key VNull own, setter).

(** Lines 508-519: the loop over the keys of one source. *)
Definition addKeys (ks : list string) (diffs : obj * bool) : obj * bool :=
  fold_left (fun d key => assignNull key d) ks diffs.

(** Lines 503-522: the combined keys, [Object.keys(diffs)]. *)
Definition combinedKeys : M store (list string) :=
  o <~ reads oldState ;;
  oldKeys <~ lift (keysOrEmpty o) ;;
  n <~ reads newState ;;
  newKeys <~ lift (keysOrEmpty n) ;;
  a <~ reads afterState ;;
  afterKeys <~ lift (Object_keys a) ;;
  ret (keys (fst (addKeys afterKeys
                    (addKeys newKeys (addKeys oldKeys ([], true)))))).

(** Lines 527-536. *)
Definition resolveOld (o : value) (key : string) : result value :=
  if is_nullish o then Ok VNull
  else
    v <- get o key ;;
    if is_undefined v || is_null v then Ok VNull
    else e <- isEmptyObject v ;; if e then Ok VNull else Ok v.

(** Lines 538-547: the first test is [newState === null], so an
    [undefined] map reaches [newState[key]]. *)
Definition resolveNew (n : value) (key : string) : result value :=
  if is_null n then Ok VNull
  else
    v <- get n key ;;
    if is_undefined v || is_null v then Ok VNull
    else e <- isEmptyObject v ;; if e then Ok VNull else Ok v.

Definition isScalar (v : value) : bool :=
  match typeof v with
  | TString | TNumber | TBoolean => true
  | _ => false
  end.

(** Lines 576-594: the item pushed for index [j]. *)
Definition combineItem (newArr afterArr : list value) (j : nat) : result value :=
  let newItem := if is_undefined (nth j newArr VUndef) then VObj []
                 else nth j newArr VUndef in
  let afterItem := if is_undefined (nth j afterArr VUndef) then VObj []
                   else nth j afterArr VUndef in
  if isScalar afterItem then
    if is_bool false afterItem && negb (is_null newItem) then Ok newItem
    else Ok afterItem
  else DEEPMERGE newItem afterItem.

(** Lines 574-595. *)
Definition combineItems (newArr afterArr : list value) : result (list value) :=
  mapM (combineItem newArr afterArr)
       (seq 0 (Nat.max (length afterArr) (length newArr))).

(** Lines 552-607: the new value of [key] after the marker [a] is merged
    into [newValue].  The template literal of line 605 converts the two
    values to strings before anything is printed. *)
Definition mergeUnknown (key : string) (newValue a : value) : M store value :=
  if is_undefined a || is_null a then ret newValue
  else
    e <~ lift (isEmptyObject a) ;;
    if e then ret newValue
    else if is_bool true a then ret (VStr KNOWN_AFTER_APPLY)
    else if is_bool false a then ret newValue
    else if is_null newValue then ret a
    else match a, newValue with
         | VArr afterArr, VArr newArr =>
             items <~ lift (combineItems newArr afterArr) ;;
             ret (VArr items)
         | _, _ =>
             if isObject a && isObject newValue then
               lift (DEEPMERGE newValue a)
             else
               lift (ToString newValue) ;;;
               lift (ToString a) ;;;
               log store_log (UnexpectedCondition key newValue a) ;;;
               ret newValue
         end.

(** Lines 523-608: one turn of the loop over the combined keys. *)
Definition diffFor (key : string) : M store Diff :=
  o <~ reads oldState ;;
  old <~ lift (resolveOld o key) ;;
  n <~ reads newState ;;
  new <~ lift (resolveNew n key) ;;
  a <~ reads afterState ;;
  marker <~ lift (get a key) ;;
  new' <~ mergeUnknown key new marker ;;
  ret {| oldValue := old; newValue := new' |}.

Fixpoint diffsFor (allKeys : list string) : M store (list (string * Diff)) :=
  match allKeys with
  | [] => ret []
  | key :: rest =>
      d <~ diffFor key ;;
      ds <~ diffsFor rest ;;
      ret ((key, d) :: ds)
  end.

Definition getAttributeDiffsM (resource : Resource)
    : M store (list (string * Diff)) :=
  dropDerived resource ;;;
  allKeys <~ combinedKeys ;;
  diffsFor allKeys.

(** The call [getAttributeDiffs(newState, oldState, afterState, resource)]:
    its completion, and the store it leaves (the three maps, and what it
    printed). *)
Definition getAttributeDiffs (newState oldState afterState : value)
    (resource : Resource) : result (list (string * Diff)) * store :=
  getAttributeDiffsM resource
    {| newState := newState; oldState := oldState;
       afterState := afterState; console := [] |}.

End Merge.

(** ** Template rendering (lines 275-281) *)

(** The syntax characters of a regular expression. *)
Definition isSyntaxChar (c : ascii) : bool :=
  existsb (Ascii.eqb c)
    ["^"; "$"; "\"; "."; "*"; "+"; "?"; "("; ")"; "["; "]"; "{"; "}"; "|"]%char.

Fixpoint plainName (k : string) : bool :=
  match k with
  | EmptyString => true
  | String c k' => negb (isSyntaxChar c) && plainName k'
  end.

(** [GetSubstitution] for a match without capture groups: [$$], [$&],
    [$`] and [$'] are expanded, every other character is copied. *)
Fixpoint expand (matched before after : string) (replacement : string) : string :=
  match replacement with
  | EmptyString => EmptyString
  | String c rest =>
      if Ascii.eqb c "$" then
        match rest with
        | String d rest' =>
            if Ascii.eqb d "$" then
              String "$" (expand matched before after rest')
            else if Ascii.eqb d "&" then
              matched ++ expand matched before after rest'
            else if Ascii.eqb d "`" then
              before ++ expand matched before after rest'
            else if Ascii.eqb d "'" then
              after ++ expand matched before after rest'
            else String c (expand matched before after rest)
        | EmptyString => String c EmptyString
        end
      else String c (expand matched before after rest)
  end.

(** [subject.replace(/pat/gm, replacement)] for a literal, non-empty [pat]:
    the matches are the leftmost occurrences that do not overlap.  [before]
    is the part of the subject already scanned; [skip] counts the characters
    of the current match still to pass over. *)
Fixpoint replaceFrom (pat replacement : string) (before : string) (skip : nat)
    (s : string) : string :=
  match s with
  | EmptyString => EmptyString
  | String c s' =>
      let before' := before ++ String c EmptyString in
      match skip with
      | S k => replaceFrom pat replacement before' k s'
      | O =>
          if starts_with pat s then
            expand pat before (drop (String.length pat) s) replacement
            ++ replaceFrom pat replacement before' (String.length pat - 1) s'
          else String c (replaceFrom pat replacement before' 0 s')
      end
  end.

Definition replaceAll (pat replacement subject : string) : string :=
  replaceFrom pat replacement EmptyString 0 subject.

Definition placeholder (varKey : string) : string := "${" ++ varKey ++ "}".

Section Predict.

(** [subject.replace(new RegExp(source, "gm"), replacement)] for a source
    that is not a literal: the constructor may throw a [SyntaxError]. *)
Variable regexReplace : string -> string -> string -> result string.

(** Lines 278-279.  A name without syntax characters makes the pattern
    [\$\{name\}] match the text [${name}] and nothing else.  The constructor
    runs first: its [SyntaxError], which the parameter shows on any subject,
    comes before the [TypeError] of converting the value. *)
Definition replaceVar (varKey : string) (template : string) (v : value)
    : result string :=
  if plainName varKey then
    replacement <- ToString v ;;
    Ok (replaceAll (placeholder varKey) replacement template)
  else
    match ToString v with
    | Ok replacement =>
        regexReplace ("\$\{" ++ varKey ++ "\}") template replacement
    | Throw e =>
        _ <- regexReplace ("\$\{" ++ varKey ++ "\}") EmptyString EmptyString ;;
        Throw e
    end.

(** Lines 276-280. *)
Fixpoint renderVars (varKeys : list string) (templateVars : value)
    (template : string) : result string :=
  match varKeys with
  | [] => Ok template
  | varKey :: rest =>
      v <- get templateVars varKey ;;
      template' <- replaceVar varKey template v ;;
      renderVars rest templateVars template'
  end.

(** Lines 275-281. *)
Definition render (template : string) (templateVars : value) : result string :=
  varKeys <- Object_keys templateVars ;;
  renderVars varKeys templateVars template.

(** ** getPredictedNewValue (lines 227-283) *)

Definition eligibleType (t : string) : bool :=
  existsb (String.eqb t) ["aws_iam_role_policy"; "aws_sfn_state_machine"].

(** The [switch] of lines 246-255. *)
Definition dynamicAttributeOf (t : string) : result string :=
  if t =? "aws_iam_role_policy" then Ok "policy"
  else if t =? "aws_sfn_state_machine" then Ok "definition"
  else Throw (Error ("Unexpected resource type: [" ++ t ++ "]")).

(** The last disjunct of line 261, on a reference that is a string. *)
Definition namesTemplateFile (reference : string) : bool :=
  starts_with "data.template_file." reference
  || occurs ".data.template_file." reference.

Definition isObjectType (v : value) : bool := jstype_eqb (typeof v) TObject.

(** Lines 257-263: [Ok None] is the [return null]; [Ok (Some a)] the
    template address.  A single reference that is not a string has no
    [startsWith] method. *)
Definition templateReference (configResource : value) (dynamicAttribute : string)
    : result (option string) :=
  expressions <- get configResource "expressions" ;;
  if negb (isObjectType expressions) then Ok None
  else
    expression <- get expressions dynamicAttribute ;;
    if negb (isObjectType expression) then Ok None
    else
      references <- get expression "references" ;;
      match references with
      | VArr [VStr reference] =>
          if namesTemplateFile reference then Ok (Some reference) else Ok None
      | VArr [_] => Throw TypeError
      | _ => Ok None
      end.

Definition getPredictedNewValue (diff : Diff) (resource : Resource)
    (fullJson : Plan) : result value :=
  if negb (is_string KNOWN_AFTER_APPLY (newValue diff))
     || negb (eligibleType (type resource))
  then Ok VNull
  else
    configResourceWrapper <- getConfigResourceWrapper (address resource) fullJson ;;
    let configResource := Data.resource configResourceWrapper in
    dynamicAttribute <- dynamicAttributeOf (type resource) ;;
    reference <- templateReference configResource dynamicAttribute ;;
    match reference with
    | None => Ok VNull
    | Some templateAddress =>
        templateResource <-
          getPlannedValuesModuleResource templateAddress
            (moduleName configResourceWrapper) fullJson ;;
        if is_nullish templateResource then
          Throw (Error ("Couldn't find template resource [" ++ templateAddress
                        ++ "] in fullJson"))
        else
          values <- get templateResource "values" ;;
          template <- get values "template" ;;
          templateVars <- get values "vars" ;;
          match template with
          | VStr t =>
              if isObjectType templateVars then
                rendered <- render t templateVars ;;
                Ok (VStr rendered)
              else Ok VNull
          | _ => Ok VNull
          end
    end.

End Predict.

(** ** shouldSkipDiffKnownAfter, shouldSkipAlways (lines 331-349) *)

Definition shouldSkipDiffKnownAfter (resource : Resource) (diff : Diff)
    (attribute : string) : bool :=
  if negb (is_string KNOWN_AFTER_APPLY (newValue diff)) then false
  else if (type resource =? "aws_lambda_function")
          && existsb (String.eqb attribute) ["last_modified"; "qualified_arn"]
  then true
  else false.

Definition shouldSkipAlways (resource : Resource) (attribute : string) : bool :=
  if (type resource =? "aws_lambda_function")
     && existsb (String.eqb attribute) ["source_code_hash"]
  then true
  else false.

(** ** process (lines 45-215) *)

Definition QUOTE : string := String (ascii_of_nat 34) EmptyString.
Definition NEWLINE : string := String (ascii_of_nat 10) EmptyString.
Definition TAB : string := String (ascii_of_nat 9) EmptyString.
Definition CLOSE_RESOURCE : string := "}" ++ NEWLINE ++ NEWLINE.

Definition isSpace (c : ascii) : bool :=
  existsb (Nat.eqb (nat_of_ascii c)) [9; 10; 11; 12; 13; 32]%nat.

Fixpoint trimStart (s : string) : string :=
  match s with
  | String c s' => if isSpace c then trimStart s' else s
  | EmptyString => EmptyString
  end.

Fixpoint rev_string (s acc : string) : string :=
  match s with
  | EmptyString => acc
  | String c s' => rev_string s' (String c acc)
  end.

Definition trim (s : string) : string :=
  rev_string (trimStart (rev_string (trimStart s) EmptyString)) EmptyString.

Fixpoint spaces (n : nat) : string :=
  match n with
  | O => EmptyString
  | S n' => String " " (spaces n')
  end.

Definition padStart (n : nat) (s : string) : string :=
  spaces (n - String.length s) ++ s.

(** The console and the tally of one run. *)
Record run : Type := {
  output : list line;
  changeCount : ChangeCount
}.

Definition run_log (l : line) (r : run) : run :=
  {| output := (output r ++ [l])%list; changeCount := changeCount r |}.

Definition set_changeCount (c : ChangeCount) (r : run) : run :=
  {| output := output r; changeCount := c |}.

Definition say (l : line) : M run unit := log run_log l.

(** [try { body } catch (error) { handler(error) }]. *)
Definition try_catch {S A} (body : M S A) (handler : error -> M S A) : M S A :=
  fun s => match body s with
           | (Ok a, s') => (Ok a, s')
           | (Throw e, s') => handler e s'
           end.

(** [a !== b] at line 118.  Two objects or arrays never are one object
    there: the old value comes out of [before], the new one out of [after],
    out of [after_unknown] or out of a merge.  Two inherited functions are
    one object when they are the same built-in. *)
Definition differ (a b : value) : bool :=
  match a, b with
  | VUndef, VUndef | VNull, VNull => false
  | VBool x, VBool y => negb (Bool.eqb x y)
  | VNum x, VNum y => negb (x =? y)
  | VStr x, VStr y => negb (x =? y)
  | VFun x, VFun y => negb (x =? y)
  | _, _ => true
  end.

Section Process.

Variable DEEPMERGE : value -> value -> result value.
Variable regexReplace : string -> string -> string -> result string.
(** [deep-eql] of npm. *)
Variable DEEPEQUAL : value -> value -> bool.
(** [JSON.parse] of an attribute value. *)
Variable JSON_parse : value -> result value.

(** Lines 111-120: the marker that opens the attribute's line; [None] when
    no branch assigns [line]. *)
Definition attributeMarker (diff : Diff) : option string :=
  if negb (is_null (oldValue diff)) && is_null (newValue diff) then
    Some (COLOR.RED ++ CHANGE_MARKERS.DELETE ++ COLOR.RESET)
  else if is_null (oldValue diff) && negb (is_null (newValue diff)) then
    Some (COLOR.GREEN ++ CHANGE_MARKERS.CREATE ++ COLOR.RESET)
  else if differ (oldValue diff) (newValue diff) then
    Some (COLOR.YELLOW ++ CHANGE_MARKERS.UPDATE ++ COLOR.RESET)
  else None.

(** The condition of line 136; it is evaluated inside the inner [try]. *)
Definition predictsNoChange (diff : Diff) (predictedNewValue : value)
    : result bool :=
  if is_string KNOWN_AFTER_APPLY predictedNewValue then Ok true
  else
    old <- JSON_parse (oldValue diff) ;;
    predicted <- JSON_parse predictedNewValue ;;
    Ok (DEEPEQUAL old predicted).

(** Lines 99-195: one attribute of one resource. *)
Definition processAttribute (json : Plan) (resource : Resource)
    (attribute : string) (diff : Diff) : M run unit :=
  if shouldSkipDiffKnownAfter resource diff attribute
     || shouldSkipAlways resource attribute then ret tt
  else if DEEPEQUAL (oldValue diff) (newValue diff) then ret tt
  else
    let marker := attributeMarker diff in
    if negb (is_null (oldValue diff)) then
      predictedNewValue <~
        lift (getPredictedNewValue regexReplace diff resource json) ;;
      skip <~
        (if is_string KNOWN_AFTER_APPLY (newValue diff)
            && negb (is_null predictedNewValue)
         then
           try_catch
             (same <~ lift (predictsNoChange diff predictedNewValue) ;;
              if same then
                say (PredictedNoChange marker attribute) ;;; ret true
              else ret false)
             (fun _ => say CompareError ;;; ret false)
         else ret false) ;;
      if skip then ret tt
      else say (AttributeLine marker attribute (Some (oldValue diff))
                  (newValue diff))
    else say (AttributeLine marker attribute None (newValue diff)).

Fixpoint processAttributes (json : Plan) (resource : Resource)
    (diffs : list (string * Diff)) : M run unit :=
  match diffs with
  | [] => ret tt
  | (attribute, diff) :: rest =>
      processAttribute json resource attribute diff ;;;
      processAttributes json resource rest
  end.

(** The header of a resource (lines 69-76). *)
Definition header (changeInfo : ChangeInfo) (resource : Resource) : string :=
  let line := padStart 11 (trim (String.concat EmptyString (symbols changeInfo))) in
  let line := if negb (mode resource =? "managed")
              then line ++ " " ++ mode resource else line in
  line ++ " " ++ QUOTE ++ type resource ++ QUOTE ++ " " ++ QUOTE
       ++ name resource ++ QUOTE ++ "  {".

Definition onlyChange (k : string) (changeInfo : ChangeInfo) : bool :=
  match changes changeInfo with
  | [c] => c =? k
  | _ => false
  end.

(** The call of line 97: what [getAttributeDiffs] printed goes to the
    console; a throw goes on to the caller.  The marker map the call leaves
    in the plan is not read again by [process]. *)
Definition callGetAttributeDiffs (resource : Resource)
    : M run (list (string * Diff)) :=
  let c := change resource in
  let '(r, st) := getAttributeDiffs DEEPMERGE (after c) (before c)
                    (after_unknown c) resource in
  modify (fun s => {| output := (output s ++ console st)%list;
                      changeCount := changeCount s |}) ;;;
  lift r.

(** Lines 65-196: one turn of the loop over [resource_changes]. *)
Definition processResource (json : Plan) (resource : Resource) : M run unit :=
  count <~ reads changeCount ;;
  let '(changeInfo, count') :=
    getResourceChangeInfo (actions (change resource)) count in
  modify (set_changeCount count') ;;;
  match changeInfo with
  | None => ret tt
  | Some changeInfo =>
      say (Text (header changeInfo resource)) ;;;
      if onlyChange CHANGES.DELETE changeInfo then say (Text CLOSE_RESOURCE)
      else if onlyChange CHANGES.READ changeInfo then say (Text CLOSE_RESOURCE)
      else
        diffs <~ callGetAttributeDiffs resource ;;
        processAttributes json resource diffs ;;;
        say (Text CLOSE_RESOURCE)
  end.

Fixpoint processResources (json : Plan) (resources : list Resource)
    : M run unit :=
  match resources with
  | [] => ret tt
  | resource :: rest =>
      processResource json resource ;;;
      processResources json rest
  end.

(** Lines 200-204. *)
Definition changeSummary (c : ChangeCount) : string :=
  "  Plan: " ++ COLOR.GREEN ++ string_of_nat (count_create c) ++ COLOR.RESET
  ++ " to add" ++ ", " ++ COLOR.YELLOW ++ string_of_nat (count_update c)
  ++ COLOR.RESET ++ " to change" ++ ", " ++ COLOR.RED
  ++ string_of_nat (count_delete c) ++ COLOR.RESET ++ " to destroy.".

Definition zeroCount : ChangeCount :=
  {| count_read := 0; count_create := 0; count_update := 0;
     count_delete := 0; count_unknown := 0 |}.

(** The body of the outer [try] (lines 47-208).  [loaded] is what lines
    47-48 complete with: the parsed plan, or the exception of a missing or
    unparsable file. *)
Definition processBody (loaded : result Plan) : M run unit :=
  json <~ lift loaded ;;
  match resource_changes json with
  | Some resources =>
      say (Text NEWLINE) ;;;
      modify (set_changeCount zeroCount) ;;;
      processResources json resources ;;;
      count <~ reads changeCount ;;
      say (Text (changeSummary count)) ;;;
      say (Text (NEWLINE ++ NEWLINE))
  | None =>
      say (Text (COLOR.GREEN ++ NO_CHANGES_OUTPUT ++ COLOR.RESET))
  end.

(** [process(planFile)]: the completion of the method and everything it
    printed. *)
Definition process (loaded : result Plan) : result unit * list line :=
  let '(r, s) :=
    try_catch (processBody loaded)
      (fun error => say (ErrorLine error) ;;; say (StackLine error))
      {| output := []; changeCount := zeroCount |} in
  (r, output s).

End Process.
End PlanReviewer.
Import PlanReviewer.

(* ================================================================== *)
(** * Sample instances of the library parameters *)
(* ================================================================== *)

(** Instances used to run the model on concrete plans. *)
Module Sample.

(** Agrees with [deepmerge] on flat objects (the source's properties are
    written over the target's) and on arrays (concatenation); any other
    pair yields the source. *)
Definition merge (target source : value) : result value :=
  match target, source with
  | VObj t, VObj s =>
      Ok (VObj (fold_left (fun d k => set_prop k (lookup k s) d) (keys s) t))
  | VArr t, VArr s => Ok (VArr (t ++ s))
  | _, _ => Ok source
  end.

(** No regular expression is built from a name with syntax characters in
    the sample plans. *)
Definition regex (source subject replacement : string) : result string :=
  Throw SyntaxError.

(** Agrees with [deep-eql] on strings, numbers, booleans, [null] and
    [undefined]; two objects or arrays are reported different. *)
Definition equal (a b : value) : bool := negb (differ a b).

(** [JSON.parse] of the two texts the sample plans hold. *)
Definition parse (v : value) : result value :=
  match v with
  | VStr "{}" => Ok (VObj [])
  | VStr "[]" => Ok (VArr [])
  | _ => Throw SyntaxError
  end.

End Sample.

(* ================================================================== *)
(** * Vocabulary of the statements *)
(* ================================================================== *)

(** The tally after a list of actions, one increment per action. *)
Definition tallied (actions : list string) (c : ChangeCount) : ChangeCount :=
  fold_left (fun c a => increment (classify a) c) actions c.

(** The four kinds the classifier knows by name. *)
Definition knownAction (a : string) : bool :=
  existsb (String.eqb a) ["read"; "create"; "update"; "delete"].

(** How many actions of the list are the action [name]. *)
Definition countOf (name : string) (actions : list string) : nat :=
  length (filter (fun a => a =? name) actions).

(** How many actions of the list are none of the four known kinds. *)
Definition countUnknown (actions : list string) : nat :=
  length (filter (fun a => negb (knownAction a)) actions).

(** ** Sample plans for the lookups *)

(** A template resource recorded in the root module under its fully
    qualified address. *)
Definition templateInRoot : value :=
  VObj [("address", VStr "module.app.data.template_file.policy");
        ("values", VObj [("template", VStr "{}"); ("vars", VObj [])])].

(** Planned values without child modules. *)
Definition plannedNoChildModules : Plan :=
  {| resource_changes := None;
     configuration := VUndef;
     planned_values :=
       VObj [("root_module", VObj [("resources", VArr [templateInRoot])])] |}.

(** Planned values whose child module [module.app] does not hold the
    template resource. *)
Definition plannedEmptyChildModule : Plan :=
  {| resource_changes := None;
     configuration := VUndef;
     planned_values :=
       VObj [("root_module",
              VObj [("resources", VArr [templateInRoot]);
                    ("child_modules",
                     VArr [VObj [("address", VStr "module.app");
                                 ("resources", VArr [])]])])] |}.

(** A configuration whose root module declares one resource, not the one
    asked for. *)
Definition configOtherResource : Plan :=
  {| resource_changes := None;
     configuration :=
       VObj [("root_module",
              VObj [("resources",
                     VArr [VObj [("address", VStr "aws_s3_bucket.logs")]])])];
     planned_values := VUndef |}.

(** ** Vocabulary of the predictor *)

(** The text begins with [p]. *)
Definition beginsWith (p s : string) : Prop := exists rest, s = p ++ rest.

(** The text holds [p] somewhere. *)
Definition contains (p s : string) : Prop := exists a b, s = a ++ p ++ b.

(** The declaration [configResource] carries, for [attribute], an expression
    whose [references] are the addresses [refs]. *)
Definition declaresReferences (configResource : value) (attribute : string)
    (refs : list string) : Prop :=
  exists expressions expression,
    get configResource "expressions" = Ok expressions
    /\ isObjectType expressions = true
    /\ get expressions attribute = Ok expression
    /\ isObjectType expression = true
    /\ get expression "references" = Ok (VArr (map VStr refs)).

(** The declaration has, for [attribute], no expression with a list of
    references: it has no [expressions] object, the attribute has no
    expression object, or the expression has no [references] array. *)
Definition declaresNoReferenceList (configResource : value)
    (attribute : string) : Prop :=
  (exists expressions,
      get configResource "expressions" = Ok expressions
      /\ isObjectType expressions = false)
  \/ (exists expressions expression,
        get configResource "expressions" = Ok expressions
        /\ isObjectType expressions = true
        /\ get expressions attribute = Ok expression
        /\ isObjectType expression = false)
  \/ (exists expressions expression references,
        get configResource "expressions" = Ok expressions
        /\ isObjectType expressions = true
        /\ get expressions attribute = Ok expression
        /\ isObjectType expression = true
        /\ get expression "references" = Ok references
        /\ Array_isArray references = false).

(** The eligibility table: resource type, attribute that holds the rendered
    template. *)
Definition eligible (resourceType attribute : string) : Prop :=
  (resourceType = "aws_iam_role_policy" /\ attribute = "policy")
  \/ (resourceType = "aws_sfn_state_machine" /\ attribute = "definition").

(** A role policy whose [policy] is known only after apply. *)
Definition rolePolicy : Resource :=
  {| address := "aws_iam_role_policy.p";
     mode := "managed";
     type := "aws_iam_role_policy";
     name := "p";
     change := {| actions := ["update"];
                  before := VObj [("policy", VStr "{}")];
                  after := VObj [];
                  after_unknown := VObj [("policy", VBool true)] |} |}.

(** Its declaration, with the references of the [policy] expression. *)
Definition rolePolicyConfig (references : list value) : value :=
  VObj [("address", VStr "aws_iam_role_policy.p");
        ("expressions",
         VObj [("policy", VObj [("references", VArr references)])])].

Definition unknownPolicy : Diff :=
  {| oldValue := VStr "{}"; newValue := VStr KNOWN_AFTER_APPLY |}.

(** A plan whose [policy] expression has the given references; the planned
    values hold no resource. *)
Definition planWithReferences (references : list value) : Plan :=
  {| resource_changes := Some [rolePolicy];
     configuration :=
       VObj [("root_module",
              VObj [("resources", VArr [rolePolicyConfig references])])];
     planned_values := VObj [("root_module", VObj [("resources", VArr [])])] |}.

(** The address of a [template_file] data source, by its tokens:
    [data.template_file.<name>], behind any number of [module.<name>]
    prefixes. *)
Fixpoint isTemplateAddress (tokens : list string) : bool :=
  match tokens with
  | [d; t; _] => (d =? "data") && (t =? "template_file")
  | m :: _ :: rest => (m =? "module") && isTemplateAddress rest
  | _ => false
  end.

(** The reference names a [data.template_file] resource. *)
Definition namesTemplateResource (reference : string) : bool :=
  isTemplateAddress (split "." reference).

(** ** Vocabulary of the sequence merge *)

(** The names of the members of [Object.prototype]: a plain object that has
    no own property of such a name gives the inherited member when it is
    read under it. *)
Definition objectPrototypeNames : list string :=
  ["__proto__"; "constructor"; "hasOwnProperty"; "isPrototypeOf";
   "propertyIsEnumerable"; "toLocaleString"; "toString"; "valueOf";
   "__defineGetter__"; "__defineSetter__"; "__lookupGetter__";
   "__lookupSetter__"].

(** A string, a number or a boolean. *)
Definition scalar (v : value) : Prop :=
  (exists s, v = VStr s) \/ (exists text, v = VNum text)
  \/ (exists b, v = VBool b).

(** A leaf value: a scalar or [null]. *)
Definition leaf (v : value) : Prop := scalar v \/ v = VNull.

(** [v] holds the leaf [l] under the keys [path], each of them an own
    property of a plain object and none of them the name of a member of
    [Object.prototype]. *)
Fixpoint leafAt (path : list string) (v l : value) : Prop :=
  match path with
  | [] => v = l /\ leaf l
  | k :: rest =>
      exists o, v = VObj o /\ has_key k o = true
                /\ ~ In k objectPrototypeNames
                /\ leafAt rest (lookup k o) l
  end.

(** The precedence [deepmerge] gives its second argument: every leaf the
    source holds under a path of keys is in the result under that path. *)
Definition sourceLeavesWin (merge : value -> value -> result value) : Prop :=
  forall target source merged,
    merge target source = Ok merged ->
    forall k path l,
      leafAt (k :: path) source l -> leafAt (k :: path) merged l.

(** The element of a sequence at index [j], a missing one counting as the
    empty structure. *)
Definition itemAt (xs : list value) (j : nat) : value :=
  if is_undefined (nth j xs VUndef) then VObj [] else nth j xs VUndef.

Definition emptyStore : store :=
  {| newState := VNull; oldState := VNull; afterState := VObj [];
     console := [] |}.

(** ** Vocabulary of the diff builder *)

(** The keys a state map contributes: none when the map is [null] or
    [undefined] (lines 503-505). *)
Definition mapKeys (v : value) : list string :=
  match keysOrEmpty v with
  | Ok ks => ks
  | Throw _ => []
  end.

(** The special case of lines 498-501 applies to this resource. *)
Definition isTemplateFile (resource : Resource) : bool :=
  (mode resource =? "data") && (type resource =? "template_file").

(** The unknown-marker map once [id] and [rendered] are deleted from it for
    a template-file data source. *)
Definition dropped (resource : Resource) (afterState : value) : value :=
  if isTemplateFile resource then
    match afterState with
    | VObj o => VObj (remove_prop "rendered" (remove_prop "id" o))
    | _ => afterState
    end
  else afterState.

(** The three maps of two stores are the same. *)
Definition sameMaps (s s' : store) : Prop :=
  newState s' = newState s
  /\ oldState s' = oldState s
  /\ afterState s' = afterState s.

(** A template-file data source whose [id] and [rendered] are unknown. *)
Definition templateFile : Resource :=
  {| address := "data.template_file.policy";
     mode := "data";
     type := "template_file";
     name := "policy";
     change := {| actions := ["read"];
                  before := VNull;
                  after := VObj [("template", VStr "{}")];
                  after_unknown := VObj [("id", VBool true);
                                         ("rendered", VBool true)] |} |}.

(** A managed resource. *)
Definition bucket : Resource :=
  {| address := "aws_s3_bucket.logs";
     mode := "managed";
     type := "aws_s3_bucket";
     name := "logs";
     change := {| actions := ["update"];
                  before := VObj [("acl", VStr "private")];
                  after := VObj [("acl", VStr "public-read")];
                  after_unknown := VObj [("arn", VBool true)] |} |}.

(** The value can be converted to a string. *)
Definition printable (v : value) : Prop := exists s, ToString v = Ok s.

(** Every value read from the map can be converted to a string. *)
Definition printableMap (m : value) : Prop :=
  forall k v, get m k = Ok v -> printable v.

(** A computation that leaves the three maps as they are, whatever its
    completion. *)
Definition keeps {A} (m : M store A) : Prop :=
  forall st, sameMaps st (snd (m st)).

(** ** Vocabulary of the rendering *)

(** The rendering C6 describes, for string-valued variables: one pass over
    the template; at a placeholder of a variable of the map the variable's
    value is copied out and the scan resumes behind the placeholder; the
    copied value is not scanned, and any other text is kept. *)
Fixpoint findVar (vars : list (string * string)) (s : string)
    : option (string * string) :=
  match vars with
  | [] => None
  | (k, v) :: rest =>
      if starts_with (placeholder k) s then Some (k, v) else findVar rest s
  end.

Fixpoint renderOnePass (vars : list (string * string)) (skip : nat)
    (s : string) : string :=
  match s with
  | EmptyString => EmptyString
  | String c s' =>
      match skip with
      | S n => renderOnePass vars n s'
      | O =>
          match findVar vars s with
          | Some (k, v) =>
              v ++ renderOnePass vars (String.length (placeholder k) - 1) s'
          | None => String c (renderOnePass vars 0 s')
          end
      end
  end.

(** The replacement holds none of the patterns [$$], [$&], [$`], [$']. *)
Fixpoint noPattern (replacement : string) : bool :=
  match replacement with
  | EmptyString => true
  | String c rest =>
      (if Ascii.eqb c "$" then
         match rest with
         | String d _ =>
             negb (existsb (Ascii.eqb d) ["$"; "&"; "`"; "'"]%char)
         | EmptyString => true
         end
       else true)
      && noPattern rest
  end.

(** No occurrence of [pat] starts in the first [n] positions of [s]. *)
Definition noMatchBefore (pat : string) (n : nat) (s : string) : Prop :=
  forall i, i < n -> starts_with pat (drop i s) = false.

(** ** Vocabulary and sample plans of [process] *)

(** The run when the loop over [resource_changes] starts (lines 51-58). *)
Definition startRun : run :=
  {| output := [Text NEWLINE]; changeCount := zeroCount |}.

(** The [policy] expression of the role policy references a template; the
    planned values hold the resources [planned]. *)
Definition planWithTemplate (planned : list value) (resources : list Resource)
    : Plan :=
  {| resource_changes := Some resources;
     configuration :=
       VObj [("root_module",
              VObj [("resources",
                     VArr [rolePolicyConfig [VStr "data.template_file.t"]])])];
     planned_values :=
       VObj [("root_module", VObj [("resources", VArr planned)])] |}.

(** A template whose rendering is not JSON text. *)
Definition plainTextTemplate : value :=
  VObj [("address", VStr "data.template_file.t");
        ("values", VObj [("template", VStr "allow ${who}");
                         ("vars", VObj [("who", VStr "app")])])].

(** The run after the header of [resource] and what [getAttributeDiffs]
    printed for it ([console]) were added to the run [s], the tally being
    [count]. *)
Definition afterDiffs (s : run) (changeInfo : ChangeInfo) (resource : Resource)
    (console : list line) (count : ChangeCount) : run :=
  {| output := (output s ++ [Text (header changeInfo resource)] ++ console)%list;
     changeCount := count |}.

(** The attribute reaches the predictor: it is not skipped, its two values
    differ for [deep-eql], and it has an old value (lines 108-133). *)
Definition reachesPredictor (DEEPEQUAL : value -> value -> bool)
    (resource : Resource) (attribute : string) (diff : Diff) : Prop :=
  shouldSkipDiffKnownAfter resource diff attribute
  || shouldSkipAlways resource attribute = false
  /\ DEEPEQUAL (oldValue diff) (newValue diff) = false
  /\ is_null (oldValue diff) = false.

(** An update whose [after_unknown] map is missing. *)
Definition noMarkers : Resource :=
  {| address := "aws_s3_bucket.bare";
     mode := "managed";
     type := "aws_s3_bucket";
     name := "bare";
     change := {| actions := ["update"];
                  before := VObj [("acl", VStr "private")];
                  after := VObj [("acl", VStr "public-read")];
                  after_unknown := VNull |} |}.

(** The header [process] prints for a resource that is updated. *)
Definition updateHeader (resource : Resource) : line :=
  Text (header {| symbols := [symbol_of KUpdate]; changes := ["update"] |}
          resource).

(** The error of line 268 for the template [data.template_file.t]. *)
Definition templateNotFound : error :=
  Error "Couldn't find template resource [data.template_file.t] in fullJson".


(** ** Vocabulary of the further properties *)

(** The item carries an address, and it is not [address]. *)
Definition otherAddress (address : string) (item : value) : Prop :=
  exists a, get item "address" = Ok a /\ is_string address a = false.

(** [r] is the first resource with the address [module.<name>.<relative
    address>] in the resource list of the first child module of the planned
    values whose address is [module.<name>]. *)
Definition inChildModule (relativeAddress moduleName : string)
    (fullJson : Plan) (r : value) : Prop :=
  exists root before childModule after pre post,
    get (planned_values fullJson) "root_module" = Ok root
    /\ get root "child_modules"
       = Ok (VArr (before ++ childModule :: after)%list)
    /\ Forall (otherAddress ("module." ++ moduleName)) before
    /\ get childModule "address" = Ok (VStr ("module." ++ moduleName))
    /\ get childModule "resources" = Ok (VArr (pre ++ r :: post)%list)
    /\ Forall (otherAddress ("module." ++ moduleName ++ "."
                             ++ relativeAddress)) pre.

(** The root module's declarations, one of them at [aws_s3_bucket.logs]. *)
Definition bucketDeclaration : value :=
  VObj [("address", VStr "aws_s3_bucket.logs")].

(** A configuration with a module call [app] that declares
    [aws_s3_bucket.logs]. *)
Definition configWithModule : Plan :=
  {| resource_changes := None;
     configuration :=
       VObj [("root_module",
              VObj [("resources", VArr []);
                    ("module_calls",
                     VObj [("app",
                            VObj [("module",
                                   VObj [("resources",
                                          VArr [bucketDeclaration])])])])])];
     planned_values := VUndef |}.

(** Planned values whose child module [module.app] holds the template. *)
Definition plannedInChildModule : Plan :=
  {| resource_changes := None;
     configuration := VUndef;
     planned_values :=
       VObj [("root_module",
              VObj [("resources", VArr []);
                    ("child_modules",
                     VArr [VObj [("address", VStr "module.app");
                                 ("resources", VArr [templateInRoot])]])])] |}.


(** The null-collapsing of lines 527-547: a missing value, [null] and the
    empty object all count as [null]. *)
Definition collapse (v : value) : value :=
  match v with
  | VUndef | VNull | VObj [] => VNull
  | _ => v
  end.

(** A marker that asks for no merge: absent, [null], [false] or the empty
    object. *)
Definition noMerge (a : value) : Prop :=
  a = VUndef \/ a = VNull \/ a = VBool false \/ a = VObj [].

(** A Lambda function whose [layers] are unknown as a list. *)
Definition lambda : Resource :=
  {| address := "aws_lambda_function.f";
     mode := "managed";
     type := "aws_lambda_function";
     name := "f";
     change := {| actions := ["update"];
                  before := VObj [("memory_size", VNum "128");
                                  ("tags", VObj []);
                                  ("source_code_hash", VStr "abc")];
                  after := VObj [("memory_size", VNum "256");
                                 ("tags", VObj []);
                                 ("source_code_hash", VStr "def")];
                  after_unknown := VObj [("last_modified", VBool true);
                                         ("tags", VObj []);
                                         ("memory_size", VBool false);
                                         ("layers", VArr [VBool true])] |} |}.

(** The diff set [getAttributeDiffs] returns for [lambda]. *)
Definition lambdaDiffs : list (string * Diff) :=
  [("memory_size", {| oldValue := VNum "128"; newValue := VNum "256" |});
   ("tags", {| oldValue := VNull; newValue := VNull |});
   ("source_code_hash", {| oldValue := VStr "abc"; newValue := VStr "def" |});
   ("last_modified",
    {| oldValue := VNull; newValue := VStr KNOWN_AFTER_APPLY |});
   ("layers", {| oldValue := VNull; newValue := VArr [VBool true] |})].

(** The text holds no [$]. *)
Fixpoint noDollar (s : string) : bool :=
  match s with
  | EmptyString => true
  | String c s' => negb (Ascii.eqb c "$") && noDollar s'
  end.

(** A computation of [process] that leaves the tally alone and only adds
    lines to the console, each of them satisfying [P], whatever its
    completion. *)
Definition appends {A} (P : line -> Prop) (m : M run A) : Prop :=
  forall s,
    changeCount (snd (m s)) = changeCount s
    /\ exists lines,
         output (snd (m s)) = (output s ++ lines)%list /\ Forall P lines.

(** The lines [process] may print for one attribute: the attribute's own
    line, the "predicting no change" line, or the diagnostic of a failed
    comparison. *)
Definition attributeLineOf (attribute : string) (diff : Diff) (l : line)
    : Prop :=
  l = CompareError
  \/ (exists marker, l = PredictedNoChange marker attribute)
  \/ (exists marker old, l = AttributeLine marker attribute old (newValue diff)).

(** The action list is the single action "no-op". *)
Definition isNoOp (actions : list string) : bool :=
  match actions with
  | [a] => a =? "no-op"
  | _ => false
  end.

(** The actions of the resources [process] reports, in order: those of every
    resource whose action list is not the single "no-op". *)
Definition reportedActions (resources : list Resource) : list string :=
  flat_map (fun r => if isNoOp (actions (change r)) then []
                     else actions (change r)) resources.

(** A plan with the resource changes [resources] and nothing else. *)
Definition planOf (resources : list Resource) : Plan :=
  {| resource_changes := Some resources;
     configuration := VUndef;
     planned_values := VUndef |}.

(** A resource that is deleted; its maps are missing. *)
Definition deleted : Resource :=
  {| address := "aws_s3_bucket.old";
     mode := "managed";
     type := "aws_s3_bucket";
     name := "old";
     change := {| actions := ["delete"];
                  before := VUndef;
                  after := VUndef;
                  after_unknown := VUndef |} |}.

(** A resource without pending change. *)
Definition unchanged : Resource :=
  {| address := "aws_s3_bucket.kept";
     mode := "managed";
     type := "aws_s3_bucket";
     name := "kept";
     change := {| actions := ["no-op"];
                  before := VObj [("acl", VStr "private")];
                  after := VObj [("acl", VStr "private")];
                  after_unknown := VObj [] |} |}.

(* ================================================================== *)
(** * Change Classifier *)
(* ================================================================== *)

Section Classifier.

Lemma classifyActions_spec (actions : list string) :
  forall info c,
    classifyActions actions info c =
    ({| symbols := (symbols info ++ map (fun a => symbol_of (classify a)) actions)%list;
        changes := (changes info ++ map (fun a => change_of (classify a)) actions)%list |},
     tallied actions c).
Proof.
  induction actions as [|a rest IH]; intros info c; simpl.
  - rewrite !app_nil_r. destruct info; reflexivity.
  - rewrite IH. simpl. rewrite <- !app_assoc. reflexivity.
Qed.

Lemma tallied_counts (actions : list string) :
  forall c,
    count_read (tallied actions c) = count_read c + countOf "read" actions
    /\ count_create (tallied actions c) = count_create c + countOf "create" actions
    /\ count_update (tallied actions c) = count_update c + countOf "update" actions
    /\ count_delete (tallied actions c) = count_delete c + countOf "delete" actions
    /\ count_unknown (tallied actions c) = count_unknown c + countUnknown actions.
Proof.
  unfold countOf, countUnknown.
  induction actions as [|a rest IH]; intros c; cbn [tallied fold_left filter].
  - cbn. repeat split; lia.
  - specialize (IH (increment (classify a) c)). unfold tallied in IH.
    unfold classify, knownAction, CHANGES.READ, CHANGES.CREATE,
      CHANGES.UPDATE, CHANGES.DELETE in *.
    cbn [existsb] in *.
    destruct (String.eqb_spec a "read") as [->|];
      [cbn in *; lia|].
    destruct (String.eqb_spec a "create") as [->|];
      [cbn in *; lia|].
    destruct (String.eqb_spec a "update") as [->|];
      [cbn in *; lia|].
    destruct (String.eqb_spec a "delete") as [->|];
      [cbn in *; lia|].
    cbn in *. lia.
Qed.

Lemma classify_known (a : string) :
  knownAction a = true -> change_of (classify a) = a.
Proof.
  unfold knownAction, classify, CHANGES.READ, CHANGES.CREATE,
    CHANGES.UPDATE, CHANGES.DELETE. simpl.
  destruct (String.eqb_spec a "read"); [subst; reflexivity|].
  destruct (String.eqb_spec a "create"); [subst; reflexivity|].
  destruct (String.eqb_spec a "update"); [subst; reflexivity|].
  destruct (String.eqb_spec a "delete"); [subst; reflexivity|].
  discriminate.
Qed.

Lemma classify_unknown (a : string) :
  knownAction a = false -> classify a = KUnknown.
Proof.
  unfold knownAction, classify, CHANGES.READ, CHANGES.CREATE,
    CHANGES.UPDATE, CHANGES.DELETE. simpl.
  destruct (a =? "read"); [discriminate|].
  destruct (a =? "create"); [discriminate|].
  destruct (a =? "update"); [discriminate|].
  destruct (a =? "delete"); [discriminate|].
  reflexivity.
Qed.

Lemma getResourceChangeInfo_cases (actions : list string) (c : ChangeCount) :
  (actions = ["no-op"] /\ getResourceChangeInfo actions c = (None, c))
  \/ (actions <> ["no-op"]
      /\ getResourceChangeInfo actions c =
         (Some {| symbols := map (fun a => symbol_of (classify a)) actions;
                  changes := map (fun a => change_of (classify a)) actions |},
          tallied actions c)).
Proof.
  unfold getResourceChangeInfo.
  destruct actions as [|a [|b rest]].
  - right. split; [discriminate|]. reflexivity.
  - destruct (String.eqb_spec a "no-op") as [->|Hne].
    + left. split; reflexivity.
    + right. split; [congruence|].
      rewrite classifyActions_spec. reflexivity.
  - right. split; [discriminate|].
    rewrite classifyActions_spec. reflexivity.
Qed.

End Classifier.

(** C8.  [getResourceChangeInfo] returns [null] exactly when the action list
    is the single action "no-op", and then leaves the tally alone.  Otherwise
    it returns one symbol and one change kind per action, in order: a known
    action (read, create, update, delete) is reported under its own name,
    any other one as "unknown" with the symbol "?"; and each counter of the
    tally has grown by the number of actions of its kind.  The function is
    total: no action makes it throw. *)
Theorem getResourceChangeInfo_classifies :
  forall (actions : list string) (c : ChangeCount),
    let r := getResourceChangeInfo actions c in
    (fst r = None <-> actions = ["no-op"])
    /\ (fst r = None -> snd r = c)
    /\ (forall info, fst r = Some info ->
          length (symbols info) = length actions
          /\ length (changes info) = length actions
          /\ (forall i a, nth_error actions i = Some a ->
                nth_error (symbols info) i = Some (symbol_of (classify a))
                /\ nth_error (changes info) i
                   = Some (if knownAction a then a else CHANGES.UNKNOWN)
                /\ (knownAction a = false ->
                    symbol_of (classify a)
                    = COLOR.RED ++ CHANGE_MARKERS.UNKNOWN ++ COLOR.RESET))
          /\ count_read (snd r) = count_read c + countOf "read" actions
          /\ count_create (snd r) = count_create c + countOf "create" actions
          /\ count_update (snd r) = count_update c + countOf "update" actions
          /\ count_delete (snd r) = count_delete c + countOf "delete" actions
          /\ count_unknown (snd r) = count_unknown c + countUnknown actions).
Proof.
  intros actions c r. subst r.
  destruct (getResourceChangeInfo_cases actions c) as [[Ha E]|[Ha E]];
    rewrite E; simpl.
  - split; [split; auto|]. split; [reflexivity|]. intros info H. discriminate.
  - split; [split; [discriminate | intros H; contradiction]|].
    split; [discriminate|].
    intros info H. injection H as <-. simpl.
    rewrite !length_map. split; [reflexivity|]. split; [reflexivity|].
    split.
    + intros i a Hi.
      rewrite !nth_error_map, Hi. simpl. split; [reflexivity|].
      destruct (knownAction a) eqn:K.
      * rewrite (classify_known a K). split; [reflexivity | discriminate].
      * rewrite (classify_unknown a K). split; reflexivity.
    + apply tallied_counts.
Qed.

(** The classifier at ["create"; "no-op"; "destroy"]. *)
Lemma getResourceChangeInfo_classifies_witness :
  fst (getResourceChangeInfo ["create"; "no-op"; "destroy"] zeroCount)
  = Some {| symbols := [COLOR.GREEN ++ "+" ++ COLOR.RESET;
                        COLOR.RED ++ "?" ++ COLOR.RESET;
                        COLOR.RED ++ "?" ++ COLOR.RESET];
            changes := ["create"; "unknown"; "unknown"] |}
  /\ count_unknown (snd (getResourceChangeInfo ["create"; "no-op"; "destroy"] zeroCount))
     = 0 + countUnknown ["create"; "no-op"; "destroy"].
Proof.
  split; [reflexivity|].
  pose proof (getResourceChangeInfo_classifies
                ["create"; "no-op"; "destroy"] zeroCount) as H.
  cbv zeta in H.
  destruct H as (_ & _ & H).
  specialize (H _ eq_refl).
  destruct H as (_ & _ & _ & _ & _ & _ & _ & H). exact H.
Defined.

(* ================================================================== *)
(** * Address Resolver and Config Graph Accessor *)
(* ================================================================== *)

Section Lookups.

Lemma findAddress_not_undefined (address : string) (items : list value) :
  forall r, findAddress address items = Ok r ->
            r = VNull \/ In r items.
Proof.
  induction items as [|item rest IH]; simpl; intros r H.
  - left. congruence.
  - destruct (get item "address") as [a|e]; simpl in H; [|discriminate].
    destruct (is_string address a).
    + right. left. congruence.
    + destruct (IH r H); auto.
Qed.

Lemma findAddress_found (address : string) (items : list value) :
  forall r, findAddress address items = Ok r -> r <> VNull ->
            In r items /\ get r "address" = Ok (VStr address).
Proof.
  induction items as [|item rest IH]; simpl; intros r H Hr.
  - congruence.
  - destruct (get item "address") as [a|e] eqn:G; simpl in H; [|discriminate].
    destruct (is_string address a) eqn:E.
    + injection H as <-. split; [left; reflexivity|].
      destruct a; simpl in E; try discriminate.
      apply String.eqb_eq in E. subst. exact G.
    + destruct (IH r H Hr). split; [right|]; assumption.
Qed.

(** For a named child module the method either returns a resource it found
    in that child module, or throws: it never reaches the root module's
    list, and never returns [null]. *)
Lemma getPlannedValuesModuleResource_child (relativeAddress moduleName : string)
    (fullJson : Plan) (r : value) :
  (moduleName =? "root_module") = false ->
  getPlannedValuesModuleResource relativeAddress moduleName fullJson = Ok r ->
  r <> VNull
  /\ get r "address"
     = Ok (VStr ("module." ++ moduleName ++ "." ++ relativeAddress)).
Proof.
  unfold getPlannedValuesModuleResource. intros -> H.
  destruct (get (planned_values fullJson) "root_module") as [root|];
    cbn [bind] in H; [|discriminate].
  destruct (get root "child_modules") as [cms|]; cbn [bind] in H; [|discriminate].
  assert (S : forall xs found,
             searchChildModules relativeAddress moduleName xs = Ok (Some found) ->
             found <> VNull
             /\ get found "address"
                = Ok (VStr ("module." ++ moduleName ++ "." ++ relativeAddress))).
  { induction xs as [|cm rest IH]; cbn [searchChildModules]; intros found F;
      [discriminate|].
    destruct (get cm "address") as [a|]; cbn [bind] in F; [|discriminate].
    destruct (is_string ("module." ++ moduleName) a).
    - destruct (get cm "resources") as [rs|]; cbn [bind] in F; [|discriminate].
      destruct (getMatchingAddress _ rs) as [x|] eqn:G; cbn [bind] in F;
        [|discriminate].
      destruct (is_null x) eqn:N; cbn [negb] in F; [discriminate|].
      injection F as <-.
      assert (x <> VNull) by (intros ->; discriminate).
      split; [assumption|].
      destruct rs; cbn [getMatchingAddress] in G; try discriminate.
      apply (findAddress_found _ _ _ G); assumption.
    - apply IH; assumption. }
  destruct cms; cbn [bind] in H; try discriminate.
  destruct (searchChildModules relativeAddress moduleName xs) as [[found|]|] eqn:F;
    cbn [bind] in H; try discriminate.
  injection H as <-. apply (S _ _ F).
Qed.

(** [getConfigResourceWrapper] never throws the error of line 393:
    [getMatchingAddress] reports a miss by [null], and the test is
    [=== undefined]. *)
Lemma getConfigResourceWrapper_never_not_found (fullAddress : string)
    (fullJson : Plan) (tail : string) :
  getConfigResourceWrapper fullAddress fullJson
  <> Throw (Error ("Couldn't find change address [" ++ tail)).
Proof.
  assert (F : forall a xs e, findAddress a xs = Throw e -> e = TypeError).
  { induction xs as [|x rest IH]; simpl; intros e H; [discriminate|].
    destruct (get x "address") as [v|e'] eqn:G; simpl in H.
    - destruct (is_string a v); [discriminate | apply IH; assumption].
    - destruct x; simpl in G; congruence. }
  assert (G : forall v k e, get v k = Throw e -> e = TypeError).
  { intros v k e H. destruct v; simpl in H; congruence. }
  assert (Mu : forall a items r, getMatchingAddress a items = Ok r ->
                                 is_undefined r = false).
  { intros a items r H. destruct items; simpl in H; try discriminate.
    destruct (findAddress_not_undefined _ _ _ H) as [->|Hin]; [reflexivity|].
    destruct r; try reflexivity.
    exfalso. clear -H. revert H.
    induction xs as [|x rest IH]; simpl; [discriminate|].
    destruct (get x "address") as [v|] eqn:E; simpl; [|discriminate].
    destruct (is_string a v).
    - intros [= ->]. discriminate.
    - assumption. }
  assert (Mt : forall a items e, getMatchingAddress a items = Throw e ->
                 e = TypeError \/ e = Error "items not array data type as expected.").
  { intros a items e H. destruct items; simpl in H;
      try (right; congruence). left. eapply F; eassumption. }
  unfold getConfigResourceWrapper.
  set (tokens := split "." fullAddress).
  intros H.
  destruct (length tokens <=? 2)%nat.
  - destruct (get (configuration fullJson) "root_module") as [root|e] eqn:E1;
      simpl in H; [|apply G in E1; congruence].
    destruct (get root "resources") as [rs|e] eqn:E2;
      simpl in H; [|apply G in E2; congruence].
    destruct (getMatchingAddress fullAddress rs) as [r|e] eqn:E3; simpl in H.
    + rewrite (Mu _ _ _ E3) in H. discriminate.
    + destruct (Mt _ _ _ E3) as [->| ->]; discriminate.
  - destruct (get (configuration fullJson) "root_module") as [root|e] eqn:E1;
      simpl in H; [|apply G in E1; congruence].
    destruct (get root "module_calls") as [calls|e] eqn:E2;
      simpl in H; [|apply G in E2; congruence].
    destruct (get calls _) as [call|e] eqn:E3;
      simpl in H; [|apply G in E3; congruence].
    destruct (get call "module") as [m|e] eqn:E4;
      simpl in H; [|apply G in E4; congruence].
    destruct (get m "resources") as [rs|e] eqn:E5;
      simpl in H; [|apply G in E5; congruence].
    destruct (getMatchingAddress _ rs) as [r|e] eqn:E6; simpl in H.
    + rewrite (Mu _ _ _ E6) in H. discriminate.
    + destruct (Mt _ _ _ E6) as [->| ->]; discriminate.
Qed.

End Lookups.

(** C1.  With the owning module [app] and no child module of that name (or
    one that lacks the template resource), the claim has
    [getPlannedValuesModuleResource] search the root module's list for
    [module.app.data.template_file.policy] and return what it finds.  The
    code throws a [ReferenceError] instead: line 319 passes [fullAddress], a
    name that is not declared.  The search the claim describes would have
    found the resource. *)
Theorem getPlannedValuesModuleResource_fallback_throws :
  getPlannedValuesModuleResource "data.template_file.policy" "app"
    plannedNoChildModules = Throw (ReferenceError "fullAddress")
  /\ getPlannedValuesModuleResource "data.template_file.policy" "app"
       plannedEmptyChildModule = Throw (ReferenceError "fullAddress")
  /\ getMatchingAddress "module.app.data.template_file.policy"
       (VArr [templateInRoot]) = Ok templateInRoot.
Proof.
  repeat split; reflexivity.
Qed.

(** C3.  [aws_iam_role_policy.p] is not declared in the root module's
    resource list.  The claim has [getConfigResourceWrapper] fail with the
    "Couldn't find change address" error; the code returns a wrapper around
    [null], because [getMatchingAddress] reports a miss by [null] and line
    392 tests [=== undefined]. *)
Theorem getConfigResourceWrapper_miss_returns_null :
  getConfigResourceWrapper "aws_iam_role_policy.p" configOtherResource
  = Ok {| resource := VNull; moduleName := "root_module" |}.
Proof.
  reflexivity.
Qed.

(* ================================================================== *)
(** * Value Predictor: eligibility *)
(* ================================================================== *)

Section Prefixes.

Lemma starts_with_spec (p : string) :
  forall s, starts_with p s = true <-> beginsWith p s.
Proof.
  unfold beginsWith.
  induction p as [|c p IH]; intros s; cbn [starts_with append].
  - split; [intros _; exists s; reflexivity | reflexivity].
  - destruct s as [|d s].
    + split; [discriminate | intros [rest H]; discriminate].
    + rewrite andb_true_iff, IH. split.
      * intros [E [rest ->]]. apply Ascii.eqb_eq in E. subst d.
        exists rest. reflexivity.
      * intros [rest H]. injection H as -> ->.
        split; [apply Ascii.eqb_refl | exists rest; reflexivity].
Qed.

Lemma occurs_spec (p : string) :
  forall s, occurs p s = true <-> contains p s.
Proof.
  unfold contains. intros s. split.
  - induction s as [|c s IH].
    + cbn [occurs]. rewrite orb_false_r. intros H.
      apply starts_with_spec in H. destruct H as [rest H].
      exists EmptyString, rest. exact H.
    + cbn [occurs]. intros H. apply orb_true_iff in H. destruct H as [H|H].
      * apply starts_with_spec in H. destruct H as [rest H].
        exists EmptyString, rest. exact H.
      * destruct (IH H) as (a & b & ->).
        exists (String c a), b. reflexivity.
  - intros (a & b & ->). induction a as [|c a IH].
    + cbn [append].
      assert (S : starts_with p (p ++ b) = true).
      { apply starts_with_spec. exists b. reflexivity. }
      destruct (p ++ b); cbn [occurs]; rewrite S; reflexivity.
    + cbn [append occurs]. rewrite IH. apply orb_true_r.
Qed.

End Prefixes.

Section Eligibility.

Lemma eligibleType_false (t : string) :
  t <> "aws_iam_role_policy" -> t <> "aws_sfn_state_machine" ->
  eligibleType t = false.
Proof.
  intros H1 H2. unfold eligibleType. cbn [existsb].
  apply String.eqb_neq in H1, H2. rewrite H1, H2. reflexivity.
Qed.

Lemma eligible_attribute (t attribute : string) :
  eligible t attribute -> dynamicAttributeOf t = Ok attribute.
Proof.
  intros [[-> ->]|[-> ->]]; reflexivity.
Qed.

Lemma namesTemplateFile_false (r : string) :
  ~ beginsWith "data.template_file." r ->
  ~ contains ".data.template_file." r ->
  namesTemplateFile r = false.
Proof.
  intros B C. unfold namesTemplateFile. apply orb_false_iff. split.
  - destruct (starts_with _ r) eqn:S; [|reflexivity].
    exfalso. apply B, starts_with_spec, S.
  - destruct (occurs _ r) eqn:O; [|reflexivity].
    exfalso. apply C, occurs_spec, O.
Qed.

Lemma templateReference_none (configResource : value) (attribute : string)
    (refs : list string) :
  declaresReferences configResource attribute refs ->
  length refs <> 1 \/ (exists r, refs = [r] /\ namesTemplateFile r = false) ->
  templateReference configResource attribute = Ok None.
Proof.
  intros (expressions & expression & E1 & T1 & E2 & T2 & E3) H.
  unfold templateReference.
  rewrite E1. cbn [bind]. rewrite T1. cbn [negb].
  rewrite E2. cbn [bind]. rewrite T2. cbn [negb].
  rewrite E3. cbn [bind].
  destruct H as [H|(r & -> & H)].
  - destruct refs as [|r1 [|r2 rest]]; cbn [map]; try reflexivity.
    exfalso. apply H. reflexivity.
  - cbn [map]. rewrite H. reflexivity.
Qed.

Lemma templateReference_no_list (configResource : value) (attribute : string) :
  declaresNoReferenceList configResource attribute ->
  templateReference configResource attribute = Ok None.
Proof.
  unfold templateReference.
  intros [(expressions & E1 & T1)
         |[(expressions & expression & E1 & T1 & E2 & T2)
          |(expressions & expression & references & E1 & T1 & E2 & T2 & E3 & A)]];
    rewrite E1; cbn [bind]; rewrite T1; cbn [negb]; try reflexivity;
    rewrite E2; cbn [bind]; rewrite T2; cbn [negb]; try reflexivity.
  rewrite E3. cbn [bind]. destruct references; try reflexivity. discriminate.
Qed.

End Eligibility.

(** C4 as stated fails: the single reference
    [aws_s3_bucket.data.template_file.x] names a bucket, not a
    [data.template_file] resource, and the predictor does not return
    [null]: the reference passes the test of line 261, no such template is
    among the planned values, and line 268 throws. *)
Lemma getPredictedNewValue_accepts_other_reference :
  namesTemplateResource "aws_s3_bucket.data.template_file.x" = false
  /\ getPredictedNewValue Sample.regex unknownPolicy rolePolicy
       (planWithReferences [VStr "aws_s3_bucket.data.template_file.x"])
     = Throw (Error ("Couldn't find template resource ["
                     ++ "aws_s3_bucket.data.template_file.x"
                     ++ "] in fullJson")).
Proof.
  split; reflexivity.
Qed.

(** C4, amended.  The predictor returns [null] ("cannot predict") for every
    resource whose type is neither [aws_iam_role_policy] nor
    [aws_sfn_state_machine]; and, for a resource of one of these two types
    whose declaration was found, whenever the expression declared for the
    eligible attribute references no upstream resource or more than one, or
    a single one whose text neither begins with [data.template_file.] nor
    holds [.data.template_file.] (the test of line 261 is on the text of
    the reference, not on the kind of resource it names); likewise when the
    declaration has no list of references for that attribute at all. *)
Theorem getPredictedNewValue_cannot_predict :
  forall (regexReplace : string -> string -> string -> result string)
         (diff : Diff) (resource : Resource) (fullJson : Plan),
    (type resource <> "aws_iam_role_policy" ->
     type resource <> "aws_sfn_state_machine" ->
     getPredictedNewValue regexReplace diff resource fullJson = Ok VNull)
    /\ (forall wrapper attribute refs,
          newValue diff = VStr KNOWN_AFTER_APPLY ->
          eligible (type resource) attribute ->
          getConfigResourceWrapper (address resource) fullJson = Ok wrapper ->
          declaresReferences (Data.resource wrapper) attribute refs ->
          length refs <> 1 ->
          getPredictedNewValue regexReplace diff resource fullJson = Ok VNull)
    /\ (forall wrapper attribute reference,
          newValue diff = VStr KNOWN_AFTER_APPLY ->
          eligible (type resource) attribute ->
          getConfigResourceWrapper (address resource) fullJson = Ok wrapper ->
          declaresReferences (Data.resource wrapper) attribute [reference] ->
          ~ beginsWith "data.template_file." reference ->
          ~ contains ".data.template_file." reference ->
          getPredictedNewValue regexReplace diff resource fullJson = Ok VNull)
    /\ (forall wrapper attribute,
          newValue diff = VStr KNOWN_AFTER_APPLY ->
          eligible (type resource) attribute ->
          getConfigResourceWrapper (address resource) fullJson = Ok wrapper ->
          declaresNoReferenceList (Data.resource wrapper) attribute ->
          getPredictedNewValue regexReplace diff resource fullJson = Ok VNull).
Proof.
  intros regexReplace diff resource fullJson.
  assert (R : forall wrapper attribute refs,
             eligible (type resource) attribute ->
             getConfigResourceWrapper (address resource) fullJson = Ok wrapper ->
             declaresReferences (Data.resource wrapper) attribute refs ->
             (length refs <> 1
              \/ exists r, refs = [r] /\ namesTemplateFile r = false) ->
             getPredictedNewValue regexReplace diff resource fullJson
             = Ok VNull).
  { intros wrapper attribute refs He Hw Hd Hr.
    unfold getPredictedNewValue.
    destruct (negb (is_string KNOWN_AFTER_APPLY (newValue diff))
              || negb (eligibleType (type resource))); [reflexivity|].
    rewrite Hw. cbn [bind].
    rewrite (eligible_attribute _ _ He). cbn [bind].
    rewrite (templateReference_none _ _ _ Hd Hr). reflexivity. }
  split; [|split; [|split]].
  - intros H1 H2. unfold getPredictedNewValue.
    rewrite (eligibleType_false _ H1 H2). cbn [negb].
    rewrite orb_true_r. reflexivity.
  - intros wrapper attribute refs _ He Hw Hd Hr.
    apply (R wrapper attribute refs He Hw Hd). left. exact Hr.
  - intros wrapper attribute reference _ He Hw Hd Hb Hc.
    apply (R wrapper attribute [reference] He Hw Hd). right.
    exists reference. split; [reflexivity|].
    apply namesTemplateFile_false; assumption.
  - intros wrapper attribute _ He Hw Hd.
    unfold getPredictedNewValue.
    destruct (negb (is_string KNOWN_AFTER_APPLY (newValue diff))
              || negb (eligibleType (type resource))); [reflexivity|].
    rewrite Hw. cbn [bind].
    rewrite (eligible_attribute _ _ He). cbn [bind].
    rewrite (templateReference_no_list _ _ Hd). reflexivity.
Qed.

(** The predictor on a role policy whose [policy] expression has no
    reference, two references, and the single reference [aws_iam_role.r]. *)
Lemma getPredictedNewValue_cannot_predict_witness :
  getPredictedNewValue Sample.regex unknownPolicy rolePolicy
    (planWithReferences []) = Ok VNull
  /\ getPredictedNewValue Sample.regex unknownPolicy rolePolicy
       (planWithReferences [VStr "data.template_file.a";
                            VStr "data.template_file.b"]) = Ok VNull
  /\ getPredictedNewValue Sample.regex unknownPolicy rolePolicy
       (planWithReferences [VStr "aws_iam_role.r"]) = Ok VNull.
Proof.
  assert (D : forall refs,
             declaresReferences (rolePolicyConfig (map VStr refs)) "policy"
               refs).
  { intros refs.
    exists (VObj [("policy", VObj [("references", VArr (map VStr refs))])]),
           (VObj [("references", VArr (map VStr refs))]).
    repeat split; reflexivity. }
  split; [|split].
  - refine (proj1 (proj2 (getPredictedNewValue_cannot_predict Sample.regex
                            unknownPolicy rolePolicy (planWithReferences [])))
              {| Data.resource := rolePolicyConfig [];
                 moduleName := "root_module" |}
              "policy" [] eq_refl _ eq_refl (D []) _).
    + left. split; reflexivity.
    + cbn. lia.
  - refine (proj1 (proj2 (getPredictedNewValue_cannot_predict Sample.regex
                            unknownPolicy rolePolicy
                            (planWithReferences [VStr "data.template_file.a";
                                                 VStr "data.template_file.b"])))
              {| Data.resource :=
                   rolePolicyConfig [VStr "data.template_file.a";
                                     VStr "data.template_file.b"];
                 moduleName := "root_module" |}
              "policy" ["data.template_file.a"; "data.template_file.b"]
              eq_refl _ eq_refl
              (D ["data.template_file.a"; "data.template_file.b"]) _).
    + left. split; reflexivity.
    + cbn. lia.
  - refine (proj1 (proj2 (proj2 (getPredictedNewValue_cannot_predict
                                   Sample.regex unknownPolicy rolePolicy
                                   (planWithReferences [VStr "aws_iam_role.r"]))))
              {| Data.resource := rolePolicyConfig [VStr "aws_iam_role.r"];
                 moduleName := "root_module" |}
              "policy" "aws_iam_role.r" eq_refl _ eq_refl (D ["aws_iam_role.r"])
              _ _).
    + left. split; reflexivity.
    + intros B. apply starts_with_spec in B. discriminate.
    + intros C. apply occurs_spec in C. discriminate.
Defined.

(* ================================================================== *)
(** * Unknown-Value Merger: sequences *)
(* ================================================================== *)

Section ObjectKeys.

Lemma has_key_In (k : string) (o : obj) :
  has_key k o = true <-> In k (keys o).
Proof.
  induction o as [|[k' v] o IH]; cbn [has_key keys map fst In].
  - split; [discriminate | contradiction].
  - rewrite orb_true_iff, String.eqb_eq. unfold keys in IH. rewrite IH.
    reflexivity.
Qed.

Lemma keys_replace_prop (k : string) (v : value) (o : obj) :
  keys (replace_prop k v o) = keys o.
Proof.
  induction o as [|[k' v'] o IH]; cbn [replace_prop]; [reflexivity|].
  destruct (k' =? k); cbn [keys map fst]; [reflexivity|].
  unfold keys in IH. rewrite IH. reflexivity.
Qed.

Lemma keys_insert_index (n : N) (k : string) (v : value) (o : obj) :
  Permutation (keys (insert_index n k v o)) (k :: keys o).
Proof.
  induction o as [|[k' v'] o IH]; cbn [insert_index].
  - reflexivity.
  - destruct (array_index k') as [n'|]; [|reflexivity].
    destruct (n <? n')%N; [reflexivity|].
    cbn [keys map fst]. unfold keys in IH.
    rewrite IH. apply perm_swap.
Qed.

Lemma keys_set_prop_new (k : string) (v : value) (o : obj) :
  has_key k o = false -> Permutation (keys (set_prop k v o)) (k :: keys o).
Proof.
  intros H. unfold set_prop. rewrite H.
  destruct (array_index k).
  - apply keys_insert_index.
  - unfold keys. rewrite map_app. cbn [map fst].
    symmetry. apply Permutation_cons_append.
Qed.

Lemma keys_set_prop_old (k : string) (v : value) (o : obj) :
  has_key k o = true -> keys (set_prop k v o) = keys o.
Proof.
  intros H. unfold set_prop. rewrite H. apply keys_replace_prop.
Qed.

Lemma In_keys_set_prop (k k' : string) (v : value) (o : obj) :
  In k' (keys (set_prop k v o)) <-> k' = k \/ In k' (keys o).
Proof.
  destruct (has_key k o) eqn:H.
  - rewrite (keys_set_prop_old _ _ _ H). apply has_key_In in H.
    split; [auto|]. intros [->|]; assumption.
  - pose proof (keys_set_prop_new k v o H) as P. split.
    + intros Hin. apply (Permutation_in _ P) in Hin.
      destruct Hin as [<-|]; auto.
    + intros Hin. apply (Permutation_in _ (Permutation_sym P)).
      destruct Hin as [->|]; [left; reflexivity | right; assumption].
Qed.


Lemma addKeys_app (ks ks' : list string) (d : obj * bool) :
  addKeys ks' (addKeys ks d) = addKeys (ks ++ ks') d.
Proof.
  unfold addKeys. symmetry. apply fold_left_app.
Qed.




Lemma remove_prop_absent (x : string) (o : obj) :
  has_key x o = false -> remove_prop x o = o.
Proof.
  induction o as [|[k' v] o IH]; cbn [remove_prop has_key]; [reflexivity|].
  intros H. apply orb_false_iff in H. destruct H as [H1 H2].
  rewrite H1, (IH H2). reflexivity.
Qed.

End ObjectKeys.

Section MapM.

Context {A B : Type} (f : A -> result B).

Lemma mapM_returns (l : list A) :
  (forall a, In a l -> exists b, f a = Ok b) ->
  exists bs, mapM f l = Ok bs.
Proof.
  induction l as [|a l IH]; intros H; cbn [mapM].
  - eexists; reflexivity.
  - destruct (H a (or_introl eq_refl)) as [b ->]. cbn [bind].
    destruct IH as [bs ->]; [intros x Hx; apply H; right; exact Hx|].
    cbn [bind]. eexists; reflexivity.
Qed.

Lemma mapM_length (l : list A) :
  forall bs, mapM f l = Ok bs -> length bs = length l.
Proof.
  induction l as [|a l IH]; cbn [mapM]; intros bs H.
  - injection H as <-. reflexivity.
  - destruct (f a); cbn [bind] in H; [|discriminate].
    destruct (mapM f l) as [bs'|]; cbn [bind] in H; [|discriminate].
    injection H as <-. cbn [length]. rewrite (IH bs' eq_refl). reflexivity.
Qed.

Lemma mapM_nth (l : list A) :
  forall bs, mapM f l = Ok bs ->
    forall i a, nth_error l i = Some a ->
      exists b, nth_error bs i = Some b /\ f a = Ok b.
Proof.
  induction l as [|x l IH]; cbn [mapM]; intros bs H i a Hi.
  - destruct i; discriminate.
  - destruct (f x) as [y|] eqn:Fx; cbn [bind] in H; [|discriminate].
    destruct (mapM f l) as [bs'|]; cbn [bind] in H; [|discriminate].
    injection H as <-.
    destruct i as [|i]; cbn [nth_error] in *.
    + injection Hi as <-. exists y. split; [reflexivity | exact Fx].
    + apply (IH bs' eq_refl i a Hi).
Qed.

End MapM.

Section SequenceMerge.

Lemma isScalar_spec (v : value) : isScalar v = true <-> scalar v.
Proof.
  unfold scalar.
  destruct v; cbn; split; intros H; try discriminate; try reflexivity;
    try (destruct H as [[? H]|[[? H]|[? H]]]; discriminate).
  - right. right. eexists. reflexivity.
  - right. left. eexists. reflexivity.
  - left. eexists. reflexivity.
Qed.

Lemma lookup_replace_prop (k x : string) (v : value) (o : obj) :
  lookup k (replace_prop x v o)
  = if (x =? k) && has_key x o then v else lookup k o.
Proof.
  induction o as [|[k' v'] o IH]; cbn [replace_prop lookup has_key].
  - rewrite andb_false_r. reflexivity.
  - destruct (String.eqb_spec k' x) as [->|Hx]; cbn [lookup orb].
    + rewrite andb_true_r. destruct (x =? k); reflexivity.
    + rewrite IH.
      destruct (String.eqb_spec x k) as [->|Hk]; cbn [andb]; [|reflexivity].
      apply String.eqb_neq in Hx. rewrite Hx. reflexivity.
Qed.

Lemma lookup_insert_index (n : N) (k x : string) (v : value) (o : obj) :
  has_key x o = false ->
  lookup k (insert_index n x v o) = if x =? k then v else lookup k o.
Proof.
  induction o as [|[k' v'] o IH]; cbn [insert_index lookup has_key]; intros H.
  - reflexivity.
  - apply orb_false_iff in H. destruct H as [H1 H2].
    assert (E : forall w, (if x =? k then v
                           else if k' =? k then v' else w)
                          = if k' =? k then v'
                            else if x =? k then v else w).
    { intros w. destruct (String.eqb_spec x k) as [->|]; [|reflexivity].
      rewrite H1. reflexivity. }
    destruct (array_index k') as [n'|]; [destruct (n <? n')%N|];
      cbn [lookup]; try reflexivity.
    rewrite (IH H2). symmetry. apply E.
Qed.

Lemma lookup_app_new (k x : string) (v : value) (o : obj) :
  has_key x o = false ->
  lookup k (o ++ [(x, v)])%list = if x =? k then v else lookup k o.
Proof.
  induction o as [|[k' v'] o IH]; cbn [app lookup has_key]; intros H.
  - reflexivity.
  - apply orb_false_iff in H. destruct H as [H1 H2]. rewrite (IH H2).
    destruct (String.eqb_spec x k) as [->|]; [|reflexivity].
    rewrite H1. reflexivity.
Qed.

Lemma lookup_set_prop (k x : string) (v : value) (o : obj) :
  lookup k (set_prop x v o) = if x =? k then v else lookup k o.
Proof.
  unfold set_prop. destruct (has_key x o) eqn:H.
  - rewrite lookup_replace_prop, H, andb_true_r. reflexivity.
  - destruct (array_index x).
    + apply lookup_insert_index, H.
    + apply lookup_app_new, H.
Qed.

Lemma has_key_set_prop (k x : string) (v : value) (o : obj) :
  has_key k (set_prop x v o) = (x =? k) || has_key k o.
Proof.
  apply eq_true_iff_eq.
  rewrite orb_true_iff, !has_key_In, In_keys_set_prop, String.eqb_eq.
  split; (intros [H|H]; [left; congruence | right; exact H]).
Qed.

(** Writing the properties of [s] over [t]. *)
Lemma lookup_overwrite (s : obj) (k : string) :
  forall (ks : list string) (t : obj),
    In k ks ->
    has_key k (fold_left (fun d x => set_prop x (lookup x s) d) ks t) = true
    /\ lookup k (fold_left (fun d x => set_prop x (lookup x s) d) ks t)
       = lookup k s.
Proof.
  assert (Keep : forall ks t,
             (has_key k t = true /\ lookup k t = lookup k s) ->
             has_key k (fold_left (fun d x => set_prop x (lookup x s) d) ks t)
             = true
             /\ lookup k (fold_left (fun d x => set_prop x (lookup x s) d) ks t)
                = lookup k s).
  { induction ks as [|x ks IH]; intros t [H1 H2]; cbn [fold_left];
      [split; assumption|].
    apply IH. rewrite has_key_set_prop, lookup_set_prop, H1, orb_true_r.
    split; [reflexivity|].
    destruct (String.eqb_spec x k) as [->|]; [reflexivity | exact H2]. }
  induction ks as [|x ks IH]; intros t Hin; [destruct Hin|].
  cbn [fold_left].
  destruct (String.eqb_spec x k) as [->|Hne].
  - apply Keep. rewrite has_key_set_prop, lookup_set_prop, String.eqb_refl.
    split; reflexivity.
  - apply IH. destruct Hin as [H|H]; [congruence | exact H].
Qed.

End SequenceMerge.

(** The sample merge gives its source the precedence [deepmerge] gives. *)
Lemma sample_merge_sourceLeavesWin : sourceLeavesWin Sample.merge.
Proof.
  intros target source merged H k path l (o & -> & K & N & L).
  unfold Sample.merge in H.
  assert (Same : merged = VObj o -> leafAt (k :: path) merged l).
  { intros ->. exists o. repeat split; assumption. }
  destruct target as [| |b|n|s|xs|t|f]; injection H as <-;
    try (apply Same; reflexivity).
  destruct (lookup_overwrite o k (keys o) t (proj1 (has_key_In k o) K))
    as [H1 H2].
  eexists. split; [reflexivity|]. split; [exact H1|]. split; [exact N|].
  rewrite H2. exact L.
Qed.

(** C5.  When the marker and the current new value are both sequences and
    the deep merges of their structural elements return, the merge yields a
    sequence of length max(marker length, new-value length).  At each index
    (a missing element counting as the empty structure) a string, number or
    boolean marker element is the result, except that [false] over a
    non-null new element keeps the new element; any other marker element is
    deep-merged into the new element, the marker being the source: with the
    precedence [deepmerge] gives its source, every leaf the marker element
    holds under a path of keys is in the merged element under that path,
    whatever the new element holds there. *)
Theorem mergeUnknown_sequences :
  forall (DEEPMERGE : value -> value -> result value) (key : string)
         (newArr afterArr : list value) (st : store),
    sourceLeavesWin DEEPMERGE ->
    (forall j, j < Nat.max (length afterArr) (length newArr) ->
               ~ scalar (itemAt afterArr j) ->
               exists c, DEEPMERGE (itemAt newArr j) (itemAt afterArr j) = Ok c) ->
    exists items,
      mergeUnknown DEEPMERGE key (VArr newArr) (VArr afterArr) st
      = (Ok (VArr items), st)
      /\ length items = Nat.max (length afterArr) (length newArr)
      /\ forall j, j < Nat.max (length afterArr) (length newArr) ->
           (scalar (itemAt afterArr j) -> itemAt afterArr j <> VBool false ->
            nth j items VUndef = itemAt afterArr j)
           /\ (itemAt afterArr j = VBool false -> itemAt newArr j <> VNull ->
               nth j items VUndef = itemAt newArr j)
           /\ (itemAt afterArr j = VBool false -> itemAt newArr j = VNull ->
               nth j items VUndef = VBool false)
           /\ (~ scalar (itemAt afterArr j) ->
               DEEPMERGE (itemAt newArr j) (itemAt afterArr j)
               = Ok (nth j items VUndef)
               /\ forall k path l,
                    leafAt (k :: path) (itemAt afterArr j) l ->
                    leafAt (k :: path) (nth j items VUndef) l).
Proof.
  intros DEEPMERGE key newArr afterArr st Hwin Hm.
  set (n := Nat.max (length afterArr) (length newArr)) in *.
  assert (Hitem : forall j, combineItem DEEPMERGE newArr afterArr j
                            = if isScalar (itemAt afterArr j) then
                                Ok (if is_bool false (itemAt afterArr j)
                                       && negb (is_null (itemAt newArr j))
                                    then itemAt newArr j else itemAt afterArr j)
                              else DEEPMERGE (itemAt newArr j) (itemAt afterArr j)).
  { intros j. unfold combineItem, itemAt.
    destruct (isScalar _); [|reflexivity].
    destruct (is_bool false _ && negb (is_null _)); reflexivity. }
  assert (Hns : forall v, isScalar v = false <-> ~ scalar v).
  { intros v. rewrite <- isScalar_spec. destruct (isScalar v).
    - split; [discriminate | intros H; exfalso; apply H; reflexivity].
    - split; [intros _; discriminate | reflexivity]. }
  destruct (mapM_returns (combineItem DEEPMERGE newArr afterArr) (seq 0 n))
    as [items Hitems].
  { intros j Hj. apply in_seq in Hj. rewrite Hitem.
    destruct (isScalar (itemAt afterArr j)) eqn:Sc.
    - eexists; reflexivity.
    - apply Hm; [lia | apply Hns, Sc]. }
  exists items.
  pose proof (mapM_length _ _ _ Hitems) as Hlen. rewrite length_seq in Hlen.
  split; [|split; [exact Hlen|]].
  - unfold mergeUnknown, combineItems. fold n. rewrite Hitems. reflexivity.
  - intros j Hj.
    destruct (mapM_nth _ _ _ Hitems j j) as (b & Hb & Hf).
    { rewrite nth_error_seq.
      destruct (Nat.ltb_spec j n); [reflexivity | lia]. }
    rewrite (nth_error_nth _ _ VUndef Hb).
    rewrite Hitem in Hf.
    split; [|split; [|split]].
    + intros Sc Hf'. apply isScalar_spec in Sc. rewrite Sc in Hf.
      injection Hf as <-.
      destruct (itemAt afterArr j) as [| |[|]|t|s|xs|o|f];
        try reflexivity; congruence.
    + intros Ha Hn. rewrite Ha in Hf. cbn in Hf. injection Hf as <-.
      destruct (itemAt newArr j); try reflexivity. congruence.
    + intros Ha Hn. rewrite Ha, Hn in Hf. cbn in Hf. congruence.
    + intros Sc. apply Hns in Sc. rewrite Sc in Hf.
      split; [exact Hf|]. intros k path l. apply (Hwin _ _ _ Hf).
Qed.

(** The merge of [["a", {x: 1}, "b"]] with the marker
    [[false, {x: 2, y: true}, "s", 5, true]]: the string and the number of
    the marker replace, [false] keeps ["a"], and in the merged object the
    marker's [x] wins. *)
Lemma mergeUnknown_sequences_witness :
  exists items,
    mergeUnknown Sample.merge "tags"
      (VArr [VStr "a"; VObj [("x", VNum "1")]; VStr "b"])
      (VArr [VBool false; VObj [("x", VNum "2"); ("y", VBool true)];
             VStr "s"; VNum "5"; VBool true]) emptyStore
    = (Ok (VArr items), emptyStore)
    /\ length items = 5
    /\ nth 0 items VUndef = VStr "a"
    /\ nth 2 items VUndef = VStr "s"
    /\ nth 3 items VUndef = VNum "5"
    /\ nth 4 items VUndef = VBool true
    /\ Sample.merge (VObj [("x", VNum "1")])
         (VObj [("x", VNum "2"); ("y", VBool true)])
       = Ok (nth 1 items VUndef)
    /\ leafAt ["x"] (nth 1 items VUndef) (VNum "2").
Proof.
  destruct (mergeUnknown_sequences Sample.merge "tags"
              [VStr "a"; VObj [("x", VNum "1")]; VStr "b"]
              [VBool false; VObj [("x", VNum "2"); ("y", VBool true)];
               VStr "s"; VNum "5"; VBool true] emptyStore
              sample_merge_sourceLeavesWin)
    as (items & E & L & H).
  - intros j _ _. unfold Sample.merge.
    destruct (itemAt _ j), (itemAt _ j); eexists; reflexivity.
  - assert (N : ~ scalar (VObj [("x", VNum "2"); ("y", VBool true)])).
    { intros [[? X]|[[? X]|[? X]]]; discriminate. }
    exists items. split; [exact E|]. split; [exact L|].
    split; [exact (proj1 (proj2 (H 0 ltac:(simpl; lia))) eq_refl
                     ltac:(discriminate))|].
    split; [refine (proj1 (H 2 ltac:(simpl; lia)) _ ltac:(discriminate));
            left; eexists; reflexivity|].
    split; [refine (proj1 (H 3 ltac:(simpl; lia)) _ ltac:(discriminate));
            right; left; eexists; reflexivity|].
    split; [refine (proj1 (H 4 ltac:(simpl; lia)) _ ltac:(discriminate));
            right; right; eexists; reflexivity|].
    destruct (proj2 (proj2 (proj2 (H 1 ltac:(simpl; lia)))) N) as [M W].
    split; [exact M|].
    apply (W "x" [] (VNum "2")).
    exists [("x", VNum "2"); ("y", VBool true)].
    split; [reflexivity|]. split; [reflexivity|]. split.
    + cbn. intros X. repeat (destruct X as [X|X]; [discriminate|]). exact X.
    + split; [reflexivity|]. left. right. left. eexists. reflexivity.
Defined.

(** The same merge inside [getAttributeDiffs]. *)
Example getAttributeDiffs_merges_sequences :
  fst (getAttributeDiffs Sample.merge
         (VObj [("tags", VArr [VStr "a"; VObj [("x", VNum "1")]])])
         VNull
         (VObj [("tags", VArr [VBool false; VObj [("y", VBool true)];
                               VBool true])])
         bucket)
  = Ok [("tags",
         {| oldValue := VNull;
            newValue := VArr [VStr "a";
                              VObj [("x", VNum "1"); ("y", VBool true)];
                              VBool true] |})].
Proof. reflexivity. Qed.

(* ================================================================== *)
(** * Attribute Diff Builder *)
(* ================================================================== *)

Section StoreFrame.

Variable DEEPMERGE : value -> value -> result value.

Lemma sameMaps_refl (st : store) : sameMaps st st.
Proof. repeat split. Qed.

Lemma sameMaps_trans (a b c : store) :
  sameMaps a b -> sameMaps b c -> sameMaps a c.
Proof.
  unfold sameMaps. intros (H1 & H2 & H3) (H4 & H5 & H6).
  repeat split; congruence.
Qed.

Lemma keeps_ret {A} (a : A) : keeps (ret a).
Proof. intros st. apply sameMaps_refl. Qed.

Lemma keeps_lift {A} (r : result A) : keeps (lift r).
Proof. intros st. apply sameMaps_refl. Qed.

Lemma keeps_reads {A} (f : store -> A) : keeps (reads f).
Proof. intros st. apply sameMaps_refl. Qed.

Lemma keeps_log (l : line) : keeps (log store_log l).
Proof. intros st. repeat split. Qed.

Lemma keeps_mbind {A B} (m : M store A) (k : A -> M store B) :
  keeps m -> (forall a, keeps (k a)) -> keeps (mbind m k).
Proof.
  intros Hm Hk st. unfold mbind. specialize (Hm st).
  destruct (m st) as [[a|e] st1]; cbn [snd] in *.
  - eapply sameMaps_trans; [exact Hm | apply Hk].
  - exact Hm.
Qed.

Ltac keeps_tac :=
  repeat first
    [ apply keeps_ret | apply keeps_lift | apply keeps_reads | apply keeps_log
    | apply keeps_mbind; [|intros ?] ].

Lemma keeps_mergeUnknown (key : string) (newValue a : value) :
  keeps (mergeUnknown DEEPMERGE key newValue a).
Proof.
  unfold mergeUnknown.
  destruct (is_undefined a || is_null a); [apply keeps_ret|].
  apply keeps_mbind; [apply keeps_lift|]. intros e.
  destruct e; [apply keeps_ret|].
  destruct (is_bool true a); [apply keeps_ret|].
  destruct (is_bool false a); [apply keeps_ret|].
  destruct (is_null newValue); [apply keeps_ret|].
  destruct a, newValue;
    try (destruct (isObject _ && isObject _)); keeps_tac.
Qed.

Lemma keeps_diffFor (key : string) : keeps (diffFor DEEPMERGE key).
Proof.
  unfold diffFor. keeps_tac. apply keeps_mergeUnknown.
Qed.

Lemma keeps_diffsFor (allKeys : list string) : keeps (diffsFor DEEPMERGE allKeys).
Proof.
  induction allKeys as [|key rest IH]; cbn [diffsFor].
  - apply keeps_ret.
  - apply keeps_mbind; [apply keeps_diffFor|]. intros d.
    apply keeps_mbind; [exact IH|]. intros ds. apply keeps_ret.
Qed.

Lemma keeps_combinedKeys : keeps combinedKeys.
Proof.
  unfold combinedKeys. keeps_tac.
Qed.

(** The deletions of lines 498-501: they throw on a missing map, and
    otherwise leave [dropped resource afterState] in the store. *)
Lemma dropDerived_run (resource : Resource) (st : store) :
  (dropDerived resource st
   = (Ok tt, set_afterState (dropped resource (afterState st)) st))
  \/ (dropDerived resource st = (Throw TypeError, st)
      /\ isTemplateFile resource = true
      /\ is_nullish (afterState st) = true).
Proof.
  unfold dropDerived, dropped, isTemplateFile.
  destruct ((mode resource =? "data") && (type resource =? "template_file")).
  - destruct st as [n o a c]. cbn [afterState].
    destruct a; try (left; reflexivity); right; repeat split.
  - left. destruct st; reflexivity.
Qed.


Lemma combinedKeys_run (st : store) (allKeys : list string) (st' : store) :
  combinedKeys st = (Ok allKeys, st') ->
  st' = st
  /\ is_nullish (afterState st) = false
  /\ allKeys = keys (fst (addKeys (mapKeys (oldState st)
                                     ++ mapKeys (newState st)
                                     ++ mapKeys (afterState st))
                            ([], true))).
Proof.
  unfold combinedKeys, mbind, reads, lift, ret, mapKeys.
  destruct (keysOrEmpty (oldState st)) as [oldKeys|]; [|discriminate].
  destruct (keysOrEmpty (newState st)) as [newKeys|]; [|discriminate].
  destruct (afterState st) as [| |b|n|s|xs|o|f]; cbn [Object_keys];
    try discriminate;
    intros [= <- <-]; (split; [|split]); try reflexivity;
    rewrite ?addKeys_app; cbn -[addKeys];
    rewrite ?addKeys_app, ?app_nil_r; reflexivity.
Qed.

(** What the whole call leaves in the store. *)
Lemma getAttributeDiffs_store (new old after : value) (resource : Resource) :
  let st' := snd (getAttributeDiffs DEEPMERGE new old after resource) in
  newState st' = new /\ oldState st' = old
  /\ afterState st' = dropped resource after.
Proof.
  intros st'. subst st'. unfold getAttributeDiffs.
  set (st0 := {| newState := new; oldState := old; afterState := after;
                 console := [] |}).
  assert (H : sameMaps (set_afterState (dropped resource after) st0)
                (snd (getAttributeDiffsM DEEPMERGE resource st0))).
  { unfold getAttributeDiffsM. unfold mbind at 1.
    destruct (dropDerived_run resource st0) as [E|(E & T & N)]; rewrite E.
    - apply (keeps_mbind combinedKeys (diffsFor DEEPMERGE)).
      + apply keeps_combinedKeys.
      + intros ks. apply keeps_diffsFor.
    - cbn [snd]. unfold sameMaps, dropped. rewrite T.
      cbn [st0 afterState] in N.
      destruct after; try discriminate; repeat split. }
  destruct H as (H1 & H2 & H3). rewrite H1, H2, H3. repeat split.
Qed.

(** *** When the call returns *)






Lemma printable_inherited (constructor : string) (methods : list string)
    (prototype : value) (k : string) :
  printable prototype -> printable (inherited constructor methods prototype k).
Proof.
  intros H. unfold inherited.
  destruct (k =? "__proto__"); [exact H|].
  destruct (k =? "constructor"); [eexists; reflexivity|].
  destruct (existsb _ methods); [eexists; reflexivity|].
  destruct (existsb _ objectMethods); eexists; reflexivity.
Qed.

Lemma has_key_lookup_In (k : string) (o : obj) :
  has_key k o = true -> In (k, lookup k o) o.
Proof.
  induction o as [|[k' v] o IH]; cbn [has_key lookup]; [discriminate|].
  destruct (String.eqb_spec k' k) as [->|Hne]; cbn [orb].
  - intros _. left. reflexivity.
  - intros H. right. apply IH, H.
Qed.

(** An object whose own values can be converted is a printable map: what
    it inherits always can. *)
Lemma printableMap_obj (o : obj) :
  (forall k v, In (k, v) o -> printable v) -> printableMap (VObj o).
Proof.
  intros H k v. cbn [get]. intros [= <-].
  destruct (has_key k o) eqn:K.
  - apply (H k), has_key_lookup_In, K.
  - apply printable_inherited. eexists; reflexivity.
Qed.


Hypothesis DEEPMERGE_returns : forall a b, exists c, DEEPMERGE a b = Ok c.





End StoreFrame.




(** C9 as stated fails: the call deletes [id] and [rendered] from the
    [after_unknown] map of a template-file data source. *)
Lemma getAttributeDiffs_mutates_after_unknown :
  afterState (snd (getAttributeDiffs Sample.merge (after (change templateFile))
                     (before (change templateFile))
                     (after_unknown (change templateFile)) templateFile))
  = VObj []
  /\ after_unknown (change templateFile)
     = VObj [("id", VBool true); ("rendered", VBool true)].
Proof.
  split; reflexivity.
Qed.

(** C9, amended.  A call of [getAttributeDiffs] leaves the old map and the
    new map as they were, whatever its completion.  It leaves the
    unknown-marker map as it was for every resource that is not a
    template-file data source, and for every marker map that has neither
    [id] nor [rendered]; from the marker map of a template-file data source
    it deletes these two keys and nothing else. *)
Theorem getAttributeDiffs_frame :
  forall (DEEPMERGE : value -> value -> result value)
         (new old after : value) (resource : Resource),
    let st' := snd (getAttributeDiffs DEEPMERGE new old after resource) in
    newState st' = new
    /\ oldState st' = old
    /\ (isTemplateFile resource = false -> afterState st' = after)
    /\ (forall o, after = VObj o ->
          has_key "id" o = false -> has_key "rendered" o = false ->
          afterState st' = after)
    /\ (forall o, after = VObj o -> isTemplateFile resource = true ->
          afterState st'
          = VObj (remove_prop "rendered" (remove_prop "id" o))).
Proof.
  intros DEEPMERGE new old after resource st'.
  destruct (getAttributeDiffs_store DEEPMERGE new old after resource)
    as (H1 & H2 & H3).
  fold st' in H1, H2, H3. rewrite H1, H2, H3.
  split; [reflexivity|]. split; [reflexivity|].
  unfold dropped. split; [|split].
  - intros ->. reflexivity.
  - intros o -> Hid Hr.
    rewrite (remove_prop_absent "id" o Hid), (remove_prop_absent _ o Hr).
    destruct (isTemplateFile resource); reflexivity.
  - intros o -> ->. reflexivity.
Qed.

(** The frame of a call on a managed resource. *)
Lemma getAttributeDiffs_frame_witness :
  afterState (snd (getAttributeDiffs Sample.merge (after (change bucket))
                     (before (change bucket)) (after_unknown (change bucket))
                     bucket))
  = after_unknown (change bucket).
Proof.
  exact (proj1 (proj2 (proj2 (getAttributeDiffs_frame Sample.merge
                                (after (change bucket)) (before (change bucket))
                                (after_unknown (change bucket)) bucket)))
           eq_refl).
Defined.

(** C10.  With the old map [{a: "x"}] and an empty marker map, a [null] new
    map is treated as empty and the call returns; an [undefined] new map
    makes it throw a [TypeError]: line 538 tests [newState === null] only
    and goes on to read [newState[key]], where line 504 (and line 527 for
    the old map) also accepts [undefined].  A [null] or [undefined] old map
    is treated as empty; a [null] or [undefined] marker map makes the call
    throw, as the claim says. *)
Theorem getAttributeDiffs_undefined_newState_throws :
  fst (getAttributeDiffs Sample.merge VUndef (VObj [("a", VStr "x")])
         (VObj []) bucket)
  = Throw TypeError
  /\ fst (getAttributeDiffs Sample.merge VNull (VObj [("a", VStr "x")])
            (VObj []) bucket)
     = Ok [("a", {| oldValue := VStr "x"; newValue := VNull |})]
  /\ fst (getAttributeDiffs Sample.merge (VObj [("a", VStr "x")]) VUndef
            (VObj []) bucket)
     = Ok [("a", {| oldValue := VNull; newValue := VStr "x" |})]
  /\ fst (getAttributeDiffs Sample.merge (VObj [("a", VStr "x")]) VNull
            (VObj []) bucket)
     = Ok [("a", {| oldValue := VNull; newValue := VStr "x" |})]
  /\ fst (getAttributeDiffs Sample.merge (VObj []) (VObj []) VNull bucket)
     = Throw TypeError
  /\ fst (getAttributeDiffs Sample.merge (VObj []) (VObj []) VUndef bucket)
     = Throw TypeError.
Proof.
  repeat split; reflexivity.
Qed.

(* ================================================================== *)
(** * Value Predictor: rendering *)
(* ================================================================== *)

Section Strings.

Lemma append_nil_r (s : string) : s ++ "" = s.
Proof. induction s as [|c s IH]; cbn [append]; [|rewrite IH]; reflexivity. Qed.

Lemma append_assoc (a b c : string) : (a ++ b) ++ c = a ++ (b ++ c).
Proof. induction a as [|x a IH]; cbn [append]; [|rewrite IH]; reflexivity. Qed.

Lemma starts_with_append (p s : string) : starts_with p (p ++ s) = true.
Proof.
  induction p as [|c p IH]; cbn [starts_with append]; [reflexivity|].
  rewrite Ascii.eqb_refl. exact IH.
Qed.

Lemma drop_append (p s : string) : drop (String.length p) (p ++ s) = s.
Proof. induction p as [|c p IH]; cbn [drop String.length append]; auto. Qed.

End Strings.

Section Replace.

Variables pat replacement : string.

Lemma expand_literal (matched before after : string) :
  forall r, noPattern r = true -> expand matched before after r = r.
Proof.
  induction r as [|c rest IH]; cbn [noPattern expand]; [reflexivity|].
  intros H. apply andb_true_iff in H. destruct H as [H1 H2].
  destruct (Ascii.eqb c "$").
  - destruct rest as [|d rest']; [reflexivity|].
    cbn [existsb] in H1.
    destruct (Ascii.eqb d "$"); [discriminate|].
    destruct (Ascii.eqb d "&"); [discriminate|].
    destruct (Ascii.eqb d "`"); [discriminate|].
    destruct (Ascii.eqb d "'"); [discriminate|].
    rewrite (IH H2). reflexivity.
  - rewrite (IH H2). reflexivity.
Qed.

(** Passing over the rest of a match. *)
Lemma replaceFrom_skip (p : string) :
  forall before s,
    replaceFrom pat replacement before (String.length p) (p ++ s)
    = replaceFrom pat replacement (before ++ p) 0 s.
Proof.
  induction p as [|c p IH]; intros before s; cbn [String.length append].
  - rewrite append_nil_r. destruct s; reflexivity.
  - cbn [replaceFrom]. rewrite IH, append_assoc. reflexivity.
Qed.

(** At a match, the expansion of the replacement is written and the scan
    resumes behind the match. *)
Lemma replaceFrom_match (before b : string) :
  pat <> "" ->
  replaceFrom pat replacement before 0 (pat ++ b)
  = expand pat before b replacement
    ++ replaceFrom pat replacement (before ++ pat) 0 b.
Proof.
  intros Hne.
  pose proof (starts_with_append pat b) as S.
  pose proof (drop_append pat b) as D.
  pose proof (replaceFrom_skip) as K.
  destruct pat as [|c0 pat']; [congruence|].
  cbn [append] in S, D |- *. cbn [replaceFrom]. rewrite S, D. f_equal.
  cbn [String.length Nat.sub]. rewrite Nat.sub_0_r, K, append_assoc.
  reflexivity.
Qed.

(** Text in which no match starts is copied. *)
Lemma replaceFrom_prefix (a : string) :
  forall before s,
    noMatchBefore pat (String.length a) (a ++ s) ->
    replaceFrom pat replacement before 0 (a ++ s)
    = a ++ replaceFrom pat replacement (before ++ a) 0 s.
Proof.
  induction a as [|c a IH]; intros before s H; cbn [append].
  - rewrite append_nil_r. reflexivity.
  - cbn [replaceFrom].
    pose proof (H 0 ltac:(cbn; lia)) as H0. cbn [drop append] in H0.
    rewrite H0. f_equal. rewrite IH, append_assoc; [reflexivity|].
    intros i Hi. apply (H (S i)). cbn [String.length]. lia.
Qed.

Lemma replaceFrom_no_match :
  forall s before,
    occurs pat s = false -> replaceFrom pat replacement before 0 s = s.
Proof.
  induction s as [|c s IH]; intros before H; [reflexivity|].
  cbn [occurs] in H. apply orb_false_iff in H. destruct H as [H1 H2].
  cbn [replaceFrom]. rewrite H1, (IH _ H2). reflexivity.
Qed.

(** Without patterns in the replacement, the text already scanned plays no
    part. *)
Lemma replaceFrom_before :
  noPattern replacement = true ->
  forall s before before' skip,
    replaceFrom pat replacement before skip s
    = replaceFrom pat replacement before' skip s.
Proof.
  intros Hr. induction s as [|c s IH]; intros before before' skip;
    [reflexivity|].
  cbn [replaceFrom]. destruct skip as [|k]; [|apply IH].
  destruct (starts_with pat (String c s)).
  - rewrite !(expand_literal _ _ _ _ Hr). f_equal. apply IH.
  - f_equal. apply IH.
Qed.

End Replace.

Section Rendering.

Variable regexReplace : string -> string -> string -> result string.

Lemma renderVars_other (k : string) (v : value) (vars : obj) :
  forall ks t,
    ~ In k ks ->
    renderVars regexReplace ks (VObj ((k, v) :: vars)) t
    = renderVars regexReplace ks (VObj vars) t.
Proof.
  induction ks as [|x ks IH]; intros t H; [reflexivity|].
  cbn [renderVars get lookup has_key bind].
  destruct (String.eqb_spec k x) as [->|Hne].
  - exfalso. apply H. left. reflexivity.
  - cbn [orb].
    destruct (replaceVar regexReplace x t _) as [t'|];
      cbn [bind]; [|reflexivity].
    apply IH. intros Hin. apply H. right. exact Hin.
Qed.

(** One step of the rendering: the first variable is substituted in the
    whole text, and the text so obtained is rendered with the others. *)
Lemma render_step (k : string) (v : value) (vars : obj) (t s : string) :
  plainName k = true -> has_key k vars = false ->
  ToString v = Ok s ->
  render regexReplace t (VObj ((k, v) :: vars))
  = render regexReplace (replaceAll (placeholder k) s t) (VObj vars).
Proof.
  intros Hp Hk Hs. unfold render.
  cbn [Object_keys keys map fst bind renderVars get lookup has_key].
  rewrite String.eqb_refl. cbn [orb].
  unfold replaceVar at 1. rewrite Hp, Hs. cbn [bind].
  apply renderVars_other.
  intros Hin. apply has_key_In in Hin. congruence.
Qed.

(** A value that cannot be converted to a string stops the rendering. *)
Lemma render_step_throw (k : string) (v : value) (vars : obj) (t : string)
    (e : error) :
  plainName k = true ->
  ToString v = Throw e ->
  render regexReplace t (VObj ((k, v) :: vars)) = Throw e.
Proof.
  intros Hp Hs. unfold render.
  cbn [Object_keys keys map fst bind renderVars get lookup has_key].
  rewrite String.eqb_refl. cbn [orb].
  unfold replaceVar at 1. rewrite Hp, Hs. reflexivity.
Qed.

Lemma eligible_type (t attribute : string) :
  eligible t attribute -> eligibleType t = true.
Proof.
  intros [[-> _]|[-> _]]; reflexivity.
Qed.

(** The predictor returns the rendering of the template it located. *)
Lemma getPredictedNewValue_renders (diff : Diff) (resource : Resource)
    (fullJson : Plan) (wrapper : ConfigResourceWrapper)
    (attribute reference : string) (templateResource values templateVars : value)
    (template : string) :
  newValue diff = VStr KNOWN_AFTER_APPLY ->
  eligible (type resource) attribute ->
  getConfigResourceWrapper (address resource) fullJson = Ok wrapper ->
  declaresReferences (Data.resource wrapper) attribute [reference] ->
  namesTemplateFile reference = true ->
  getPlannedValuesModuleResource reference (moduleName wrapper) fullJson
  = Ok templateResource ->
  is_nullish templateResource = false ->
  get templateResource "values" = Ok values ->
  get values "template" = Ok (VStr template) ->
  get values "vars" = Ok templateVars ->
  isObjectType templateVars = true ->
  getPredictedNewValue regexReplace diff resource fullJson
  = (rendered <- render regexReplace template templateVars ;;
     Ok (VStr rendered)).
Proof.
  intros Hn He Hw (expressions & expression & E1 & T1 & E2 & T2 & E3)
    Hr Hp Hnn Hv Ht Hvars Hobj.
  unfold getPredictedNewValue.
  rewrite Hn. cbn [is_string]. rewrite String.eqb_refl.
  rewrite (eligible_type _ _ He). cbn [negb orb].
  rewrite Hw. cbn [bind].
  rewrite (eligible_attribute _ _ He). cbn [bind].
  unfold templateReference.
  rewrite E1. cbn [bind]. rewrite T1. cbn [negb].
  rewrite E2. cbn [bind]. rewrite T2. cbn [negb].
  rewrite E3. cbn [bind map]. rewrite Hr. cbn [bind].
  rewrite Hp. cbn [bind]. rewrite Hnn.
  rewrite Hv. cbn [bind]. rewrite Ht. cbn [bind]. rewrite Hvars. cbn [bind].
  rewrite Hobj. reflexivity.
Qed.

End Rendering.

(** C6 as stated fails: the value substituted for [a] holds the placeholder
    of [b], and the step of [b] substitutes it again.  One pass without
    re-substitution yields the placeholder. *)
Lemma render_resubstitutes :
  render Sample.regex "${a}" (VObj [("a", VStr "${b}"); ("b", VStr "x")])
  = Ok "x"
  /\ renderOnePass [("a", "${b}"); ("b", "x")] 0 "${a}" = "${b}".
Proof.
  split; reflexivity.
Qed.

(** C6, amended.  Rendering takes the variables in the order of
    [Object.keys], each step working on the text the step before produced:
    so a placeholder that stands in a substituted value, or that a
    substituted value completes, is substituted by the step of a later
    variable.  For a name without regular-expression syntax characters one
    step converts the value to a string (a string is itself, a number its
    text, an object that has no own [toString] is ["[object Object]"]; an
    object with an own [toString] property cannot be converted, and the
    rendering throws a [TypeError]) and replaces every occurrence of
    [${name}], found from left to right without overlap, by that string (a
    string without the patterns [$$], [$&], [$`], [$'] is copied as it is),
    and does not scan the text it inserts; the match is exact in the case of
    its letters; a text without the placeholder is left as it is.
    Rendering ["arn:${region}:${name}"] with
    [{region: "us-east-1", name: "svc"}] yields ["arn:us-east-1:svc"].  The
    predictor returns this rendering of the template body it located, with
    the variables of that template. *)
Theorem render_sequential_substitution :
  forall regexReplace : string -> string -> string -> result string,
    (forall t, render regexReplace t (VObj []) = Ok t)
    /\ (forall k v vars t s,
          plainName k = true -> has_key k vars = false ->
          typeof v <> TFunction ->
          ToString v = Ok s ->
          render regexReplace t (VObj ((k, v) :: vars))
          = render regexReplace (replaceAll (placeholder k) s t) (VObj vars))
    /\ (forall k v vars t e,
          plainName k = true ->
          ToString v = Throw e ->
          render regexReplace t (VObj ((k, v) :: vars)) = Throw e)
    /\ (forall s, ToString (VStr s) = Ok s)
    /\ (forall text, ToString (VNum text) = Ok text)
    /\ (forall o, ToString (VObj o)
                  = if has_key "toString" o then Throw TypeError
                    else Ok "[object Object]")
    /\ (forall k v a b,
          noPattern v = true ->
          noMatchBefore (placeholder k) (String.length a)
            (a ++ placeholder k ++ b) ->
          replaceAll (placeholder k) v (a ++ placeholder k ++ b)
          = a ++ v ++ replaceAll (placeholder k) v b)
    /\ (forall k v t,
          occurs (placeholder k) t = false ->
          replaceAll (placeholder k) v t = t)
    /\ render regexReplace "${Name}" (VObj [("name", VStr "svc")])
       = Ok "${Name}"
    /\ render regexReplace "arn:${region}:${name}"
         (VObj [("region", VStr "us-east-1"); ("name", VStr "svc")])
       = Ok "arn:us-east-1:svc"
    /\ (forall diff resource fullJson wrapper attribute reference
               templateResource values templateVars template,
          newValue diff = VStr KNOWN_AFTER_APPLY ->
          eligible (type resource) attribute ->
          getConfigResourceWrapper (address resource) fullJson = Ok wrapper ->
          declaresReferences (Data.resource wrapper) attribute [reference] ->
          beginsWith "data.template_file." reference
          \/ contains ".data.template_file." reference ->
          getPlannedValuesModuleResource reference (moduleName wrapper)
            fullJson = Ok templateResource ->
          is_nullish templateResource = false ->
          get templateResource "values" = Ok values ->
          get values "template" = Ok (VStr template) ->
          get values "vars" = Ok templateVars ->
          isObjectType templateVars = true ->
          getPredictedNewValue regexReplace diff resource fullJson
          = (rendered <- render regexReplace template templateVars ;;
             Ok (VStr rendered))).
Proof.
  intros regexReplace.
  split; [reflexivity|].
  split; [intros; apply render_step; assumption|].
  split; [intros; apply render_step_throw; assumption|].
  split; [reflexivity|]. split; [reflexivity|]. split; [reflexivity|].
  split; [|split; [|split; [reflexivity|split; [reflexivity|]]]].
  - intros k v a b Hv Hn. unfold replaceAll.
    rewrite replaceFrom_prefix by exact Hn.
    rewrite replaceFrom_match by discriminate.
    rewrite (expand_literal _ _ _ _ Hv).
    rewrite (replaceFrom_before _ _ Hv b _ EmptyString 0). reflexivity.
  - intros k v t H. apply replaceFrom_no_match. exact H.
  - intros diff resource fullJson wrapper attribute reference
      templateResource values templateVars template Hn He Hw Hd Hr.
    intros. eapply getPredictedNewValue_renders; try eassumption.
    unfold namesTemplateFile. apply orb_true_iff.
    destruct Hr as [Hr|Hr]; [left; apply starts_with_spec
                            | right; apply occurs_spec]; exact Hr.
Qed.

(** Two steps of a rendering, a value that cannot be converted, and one
    step on a text with two occurrences. *)
Lemma render_sequential_substitution_witness :
  render Sample.regex "${a}${b}" (VObj [("a", VStr "${b}"); ("b", VStr "x")])
  = render Sample.regex (replaceAll "${a}" "${b}" "${a}${b}")
      (VObj [("b", VStr "x")])
  /\ render Sample.regex "${a}" (VObj [("a", VNum "1e+21")])
     = render Sample.regex (replaceAll "${a}" "1e+21" "${a}") (VObj [])
  /\ render Sample.regex "${a}" (VObj [("a", VObj [("toString", VStr "x")])])
     = Throw TypeError
  /\ replaceAll "${a}" "v" "[${a}|${a}]" = "[" ++ "v" ++ replaceAll "${a}" "v" "|${a}]".
Proof.
  pose proof (render_sequential_substitution Sample.regex)
    as (_ & Hstep & Hthrow & _ & _ & _ & Hocc & _).
  split; [|split; [|split]].
  - apply (Hstep "a" (VStr "${b}") [("b", VStr "x")] "${a}${b}");
      [reflexivity | reflexivity | discriminate | reflexivity].
  - apply (Hstep "a" (VNum "1e+21") [] "${a}");
      [reflexivity | reflexivity | discriminate | reflexivity].
  - apply (Hthrow "a" (VObj [("toString", VStr "x")]) [] "${a}");
      reflexivity.
  - apply (Hocc "a" "v" "[" "|${a}]"); [reflexivity|].
    intros i Hi. cbn in Hi.
    destruct i as [|i]; [reflexivity | lia].
Defined.

(** The predictor on a role policy whose single reference is a template
    with the body ["allow ${who}"] and the variables [{who: "app"}]. *)
Example getPredictedNewValue_scenario :
  getPredictedNewValue Sample.regex unknownPolicy rolePolicy
    (planWithTemplate [plainTextTemplate] [rolePolicy])
  = Ok (VStr "allow app").
Proof. reflexivity. Qed.

(* ================================================================== *)
(** * process: what a failure stops *)
(* ================================================================== *)

Section Failures.

Variable DEEPMERGE : value -> value -> result value.
Variable regexReplace : string -> string -> string -> result string.
Variable DEEPEQUAL : value -> value -> bool.
Variable JSON_parse : value -> result value.


(** A throw in one turn of the loop ends the loop: the resources behind it
    play no part. *)
Lemma processResources_throw (json : Plan) (done : list Resource) :
  forall (resource : Resource) (rest : list Resource) (s s1 s2 : run) (e : error),
    processResources DEEPMERGE regexReplace DEEPEQUAL JSON_parse
      json done s = (Ok tt, s1) ->
    processResource DEEPMERGE regexReplace DEEPEQUAL JSON_parse
      json resource s1 = (Throw e, s2) ->
    processResources DEEPMERGE regexReplace DEEPEQUAL JSON_parse
      json (done ++ resource :: rest)%list s = (Throw e, s2).
Proof.
  induction done as [|r done IH]; intros resource rest s s1 s2 e Hd Hr;
    cbn [processResources app].
  - injection Hd as <-. unfold mbind. rewrite Hr. reflexivity.
  - cbn [processResources] in Hd. unfold mbind in Hd |- *.
    destruct (processResource _ _ _ _ json r s) as [[[]|e'] s']; [|discriminate].
    apply (IH _ _ _ _ _ _ Hd Hr).
Qed.

Lemma process_completes (loaded : result Plan) :
  fst (process DEEPMERGE regexReplace DEEPEQUAL JSON_parse loaded) = Ok tt.
Proof.
  unfold process, try_catch.
  destruct (processBody _ _ _ _ loaded _) as [[[]|e] s]; reflexivity.
Qed.

Lemma process_throw (json : Plan) (done : list Resource) (resource : Resource)
    (rest : list Resource) (s1 s2 : run) (e : error) :
  resource_changes json = Some (done ++ resource :: rest)%list ->
  processResources DEEPMERGE regexReplace DEEPEQUAL JSON_parse
    json done startRun = (Ok tt, s1) ->
  processResource DEEPMERGE regexReplace DEEPEQUAL JSON_parse
    json resource s1 = (Throw e, s2) ->
  snd (process DEEPMERGE regexReplace DEEPEQUAL JSON_parse (Ok json))
  = (output s2 ++ [ErrorLine e; StackLine e])%list.
Proof.
  intros Hrc Hd Hr.
  pose proof (processResources_throw json done resource rest _ _ _ _ Hd Hr) as H.
  unfold process, try_catch, processBody.
  unfold mbind at 1. cbn [lift]. rewrite Hrc.
  unfold mbind at 1. cbn [say log modify].
  unfold mbind at 1. cbn [modify].
  unfold mbind at 1.
  change (set_changeCount zeroCount (run_log (Text NEWLINE) _)) with startRun.
  rewrite H. cbn. rewrite <- app_assoc. reflexivity.
Qed.

(** The inner [try] of lines 135-145: a throw of the comparison is answered
    by a line of its own, and the attribute is printed as usual. *)
Lemma processAttribute_compare_error (json : Plan) (resource : Resource)
    (attribute : string) (diff : Diff) (predicted : value) (e : error)
    (s : run) :
  shouldSkipDiffKnownAfter resource diff attribute
  || shouldSkipAlways resource attribute = false ->
  DEEPEQUAL (oldValue diff) (newValue diff) = false ->
  is_null (oldValue diff) = false ->
  newValue diff = VStr KNOWN_AFTER_APPLY ->
  getPredictedNewValue regexReplace diff resource json = Ok predicted ->
  is_null predicted = false ->
  predictsNoChange DEEPEQUAL JSON_parse diff predicted = Throw e ->
  processAttribute regexReplace DEEPEQUAL JSON_parse json resource attribute
    diff s
  = (Ok tt,
     run_log (AttributeLine (attributeMarker diff) attribute
                (Some (oldValue diff)) (newValue diff))
       (run_log CompareError s)).
Proof.
  intros Hs He Ho Hn Hp Hnp Hc. unfold processAttribute.
  rewrite Hs, He, Ho. cbn [negb].
  unfold mbind at 1. rewrite Hp. cbn [lift].
  rewrite Hn at 1. cbn [is_string]. rewrite String.eqb_refl, Hnp. cbn [negb andb].
  unfold mbind at 1. unfold try_catch. unfold mbind at 1. rewrite Hc.
  cbn [lift]. reflexivity.
Qed.

(** A throw of the predictor (line 133) leaves the attribute's turn: no
    handler stands around the call. *)
Lemma processAttribute_predictor_throw (json : Plan) (resource : Resource)
    (attribute : string) (diff : Diff) (e : error) (s : run) :
  reachesPredictor DEEPEQUAL resource attribute diff ->
  getPredictedNewValue regexReplace diff resource json = Throw e ->
  processAttribute regexReplace DEEPEQUAL JSON_parse json resource attribute
    diff s
  = (Throw e, s).
Proof.
  intros (Hs & He & Ho) Hp. unfold processAttribute.
  rewrite Hs, He, Ho. cbn [negb].
  unfold mbind at 1. rewrite Hp. reflexivity.
Qed.

(** A throw in the turn of one attribute ends the loop over the
    attributes. *)
Lemma processAttributes_throw (json : Plan) (resource : Resource)
    (done : list (string * Diff)) :
  forall attribute diff rest s s1 s2 e,
    processAttributes regexReplace DEEPEQUAL JSON_parse json resource done s
    = (Ok tt, s1) ->
    processAttribute regexReplace DEEPEQUAL JSON_parse json resource attribute
      diff s1 = (Throw e, s2) ->
    processAttributes regexReplace DEEPEQUAL JSON_parse json resource
      (done ++ (attribute, diff) :: rest)%list s
    = (Throw e, s2).
Proof.
  induction done as [|[a d] done IH]; intros attribute diff rest s s1 s2 e Hd Ha;
    cbn [processAttributes app].
  - injection Hd as <-. unfold mbind. rewrite Ha. reflexivity.
  - cbn [processAttributes] in Hd. unfold mbind in Hd |- *.
    destruct (processAttribute _ _ _ json resource a d s) as [[[]|e'] s'];
      [|discriminate].
    apply (IH _ _ _ _ _ _ _ Hd Ha).
Qed.

(** The turn of a resource up to the call of line 97. *)
Lemma processResource_details (json : Plan) (resource : Resource) (s : run)
    (changeInfo : ChangeInfo) (count : ChangeCount)
    (r : result (list (string * Diff))) (st : store) :
  getResourceChangeInfo (actions (change resource)) (changeCount s)
  = (Some changeInfo, count) ->
  onlyChange CHANGES.DELETE changeInfo = false ->
  onlyChange CHANGES.READ changeInfo = false ->
  getAttributeDiffs DEEPMERGE (after (change resource))
    (before (change resource)) (after_unknown (change resource)) resource
  = (r, st) ->
  processResource DEEPMERGE regexReplace DEEPEQUAL JSON_parse json resource s
  = match r with
    | Ok diffs =>
        (processAttributes regexReplace DEEPEQUAL JSON_parse json resource
           diffs ;;;
         say (Text CLOSE_RESOURCE))
          (afterDiffs s changeInfo resource (console st) count)
    | Throw e =>
        (Throw e, afterDiffs s changeInfo resource (console st) count)
    end.
Proof.
  intros Hi Hd Hr Hg. unfold processResource.
  unfold mbind at 1. cbn [reads]. rewrite Hi.
  unfold mbind at 1. cbn [modify].
  unfold mbind at 1. cbn [say log modify]. rewrite Hd, Hr.
  unfold mbind at 1. unfold callGetAttributeDiffs. rewrite Hg.
  unfold mbind at 1. cbn [modify lift].
  unfold afterDiffs, run_log, set_changeCount. cbn [output changeCount].
  rewrite <- app_assoc. destruct r; reflexivity.
Qed.

End Failures.

(** C2 as stated fails: the predictor throws on the first resource (its
    template is not among the planned values), the outer handler prints the
    error, and the second resource, which [process] reports when it comes
    first, is not processed; no summary is printed. *)
Lemma process_stops_at_first_failure :
  process Sample.merge Sample.regex Sample.equal Sample.parse
    (Ok (planWithTemplate [] [rolePolicy; bucket]))
  = (Ok tt, [Text NEWLINE; updateHeader rolePolicy;
             ErrorLine templateNotFound; StackLine templateNotFound])
  /\ In (updateHeader bucket)
       (snd (process Sample.merge Sample.regex Sample.equal Sample.parse
               (Ok (planWithTemplate [] [bucket; rolePolicy]))))
  /\ ~ In (updateHeader bucket)
         [Text NEWLINE; updateHeader rolePolicy;
          ErrorLine templateNotFound; StackLine templateNotFound].
Proof.
  split; [reflexivity|]. split.
  - right. left. reflexivity.
  - intros [H|[H|[H|[H|[]]]]]; discriminate.
Qed.

(** C2, amended.  [process] never lets an exception out: whatever fails, the
    run completes normally.  A failure raised while a resource is processed
    is caught by the one handler around the whole run, as is a failure to
    load the plan: what was printed stays, the error is printed, and nothing
    behind it is processed or printed, neither the remaining attributes and
    resources nor the summary.  This is what a throw of the diff builder
    (line 97) does, after the header of its resource, and what a throw of
    the predictor (line 133) does, after the attributes before its own.
    Only a failure of the comparison of the old value with the predicted
    one (line 136) is confined to its attribute, which is then printed as
    usual. *)
Theorem process_failure_handling :
  forall (DEEPMERGE : value -> value -> result value)
         (regexReplace : string -> string -> string -> result string)
         (DEEPEQUAL : value -> value -> bool)
         (JSON_parse : value -> result value),
    (forall loaded,
        fst (process DEEPMERGE regexReplace DEEPEQUAL JSON_parse loaded) = Ok tt)
    /\ (forall e,
          snd (process DEEPMERGE regexReplace DEEPEQUAL JSON_parse (Throw e))
          = [ErrorLine e; StackLine e])
    /\ (forall json done resource rest s1 s2 e,
          resource_changes json = Some (done ++ resource :: rest)%list ->
          processResources DEEPMERGE regexReplace DEEPEQUAL JSON_parse
            json done startRun = (Ok tt, s1) ->
          processResource DEEPMERGE regexReplace DEEPEQUAL JSON_parse
            json resource s1 = (Throw e, s2) ->
          snd (process DEEPMERGE regexReplace DEEPEQUAL JSON_parse (Ok json))
          = (output s2 ++ [ErrorLine e; StackLine e])%list)
    /\ (forall json done resource rest s1 changeInfo count e st,
          resource_changes json = Some (done ++ resource :: rest)%list ->
          processResources DEEPMERGE regexReplace DEEPEQUAL JSON_parse
            json done startRun = (Ok tt, s1) ->
          getResourceChangeInfo (actions (change resource)) (changeCount s1)
          = (Some changeInfo, count) ->
          onlyChange CHANGES.DELETE changeInfo = false ->
          onlyChange CHANGES.READ changeInfo = false ->
          getAttributeDiffs DEEPMERGE (after (change resource))
            (before (change resource)) (after_unknown (change resource))
            resource
          = (Throw e, st) ->
          snd (process DEEPMERGE regexReplace DEEPEQUAL JSON_parse (Ok json))
          = (output s1 ++ [Text (header changeInfo resource)] ++ console st
             ++ [ErrorLine e; StackLine e])%list)
    /\ (forall json done resource rest s1 changeInfo count st
               earlier attribute diff behind s2 e,
          resource_changes json = Some (done ++ resource :: rest)%list ->
          processResources DEEPMERGE regexReplace DEEPEQUAL JSON_parse
            json done startRun = (Ok tt, s1) ->
          getResourceChangeInfo (actions (change resource)) (changeCount s1)
          = (Some changeInfo, count) ->
          onlyChange CHANGES.DELETE changeInfo = false ->
          onlyChange CHANGES.READ changeInfo = false ->
          getAttributeDiffs DEEPMERGE (after (change resource))
            (before (change resource)) (after_unknown (change resource))
            resource
          = (Ok (earlier ++ (attribute, diff) :: behind)%list, st) ->
          processAttributes regexReplace DEEPEQUAL JSON_parse json resource
            earlier (afterDiffs s1 changeInfo resource (console st) count)
          = (Ok tt, s2) ->
          reachesPredictor DEEPEQUAL resource attribute diff ->
          getPredictedNewValue regexReplace diff resource json = Throw e ->
          snd (process DEEPMERGE regexReplace DEEPEQUAL JSON_parse (Ok json))
          = (output s2 ++ [ErrorLine e; StackLine e])%list)
    /\ (forall json resource attribute diff predicted e s,
          reachesPredictor DEEPEQUAL resource attribute diff ->
          newValue diff = VStr KNOWN_AFTER_APPLY ->
          getPredictedNewValue regexReplace diff resource json = Ok predicted ->
          is_null predicted = false ->
          predictsNoChange DEEPEQUAL JSON_parse diff predicted = Throw e ->
          processAttribute regexReplace DEEPEQUAL JSON_parse json resource
            attribute diff s
          = (Ok tt,
             run_log (AttributeLine (attributeMarker diff) attribute
                        (Some (oldValue diff)) (newValue diff))
               (run_log CompareError s))).
Proof.
  intros DEEPMERGE regexReplace DEEPEQUAL JSON_parse.
  split; [apply process_completes|].
  split; [reflexivity|].
  split; [apply process_throw|].
  split; [|split].
  - intros json done resource rest s1 changeInfo count e st
      Hrc Hdone Hi Hd Hr Hg.
    rewrite (process_throw _ _ _ _ json done resource rest s1
               (afterDiffs s1 changeInfo resource (console st) count) e
               Hrc Hdone).
    + cbn [afterDiffs output]. rewrite <- !app_assoc. reflexivity.
    + rewrite (processResource_details _ _ _ _ json resource s1 changeInfo
                 count (Throw e) st Hi Hd Hr Hg).
      reflexivity.
  - intros json done resource rest s1 changeInfo count st
      earlier attribute diff behind s2 e Hrc Hdone Hi Hd Hr Hg Hb Hp He.
    apply (process_throw _ _ _ _ json done resource rest s1 s2 e Hrc Hdone).
    rewrite (processResource_details _ _ _ _ json resource s1 changeInfo
               count _ st Hi Hd Hr Hg).
    unfold mbind.
    rewrite (processAttributes_throw _ _ _ json resource earlier attribute diff
               behind _ s2 s2 e Hb
               (processAttribute_predictor_throw _ _ _ json resource attribute
                  diff e s2 Hp He)).
    reflexivity.
  - intros json resource attribute diff predicted e s (Hs & He & Ho).
    apply processAttribute_compare_error; assumption.
Qed.

(** A predictor that throws in the second of three resources; a diff
    builder that throws in the second of three; and a failed comparison. *)
Lemma process_failure_handling_witness :
  snd (process Sample.merge Sample.regex Sample.equal Sample.parse
         (Ok (planWithTemplate [] [bucket; rolePolicy; bucket])))
  = [Text NEWLINE; updateHeader bucket;
     AttributeLine (Some (COLOR.YELLOW ++ "~" ++ COLOR.RESET)) "acl"
       (Some (VStr "private")) (VStr "public-read");
     AttributeLine (Some (COLOR.GREEN ++ "+" ++ COLOR.RESET)) "arn" None
       (VStr KNOWN_AFTER_APPLY);
     Text CLOSE_RESOURCE; updateHeader rolePolicy;
     ErrorLine templateNotFound; StackLine templateNotFound]
  /\ snd (process Sample.merge Sample.regex Sample.equal Sample.parse
            (Ok (planOf [bucket; noMarkers; bucket])))
     = [Text NEWLINE; updateHeader bucket;
        AttributeLine (Some (COLOR.YELLOW ++ "~" ++ COLOR.RESET)) "acl"
          (Some (VStr "private")) (VStr "public-read");
        AttributeLine (Some (COLOR.GREEN ++ "+" ++ COLOR.RESET)) "arn" None
          (VStr KNOWN_AFTER_APPLY);
        Text CLOSE_RESOURCE; updateHeader noMarkers;
        ErrorLine TypeError; StackLine TypeError]
  /\ processAttribute Sample.regex Sample.equal Sample.parse
       (planWithTemplate [plainTextTemplate] [rolePolicy]) rolePolicy
       "policy" unknownPolicy startRun
     = (Ok tt,
        {| output :=
             [Text NEWLINE; CompareError;
              AttributeLine (Some (COLOR.YELLOW ++ "~" ++ COLOR.RESET))
                "policy" (Some (VStr "{}")) (VStr KNOWN_AFTER_APPLY)];
           changeCount := zeroCount |}).
Proof.
  pose proof (process_failure_handling Sample.merge Sample.regex Sample.equal
                Sample.parse) as (_ & _ & _ & Hdiffs & Hpredict & Hcompare).
  split; [|split].
  - refine (Hpredict (planWithTemplate [] [bucket; rolePolicy; bucket])
              [bucket] rolePolicy [bucket] _
              {| symbols := [symbol_of KUpdate]; changes := ["update"] |}
              _ _ [] "policy" unknownPolicy [] _ templateNotFound
              eq_refl eq_refl eq_refl eq_refl eq_refl eq_refl eq_refl _
              eq_refl).
    repeat split.
  - exact (Hdiffs (planOf [bucket; noMarkers; bucket])
             [bucket] noMarkers [bucket] _
             {| symbols := [symbol_of KUpdate]; changes := ["update"] |}
             _ TypeError _ eq_refl eq_refl eq_refl eq_refl eq_refl eq_refl).
  - refine (Hcompare (planWithTemplate [plainTextTemplate] [rolePolicy])
              rolePolicy "policy" unknownPolicy (VStr "allow app") SyntaxError
              startRun _ eq_refl eq_refl eq_refl eq_refl).
    repeat split.
Defined.

(* ================================================================== *)
(** * Further properties: the lookups *)
(* ================================================================== *)

Section LookupResults.

Lemma findAddress_result (address : string) (items : list value) :
  forall r, findAddress address items = Ok r ->
    (r = VNull /\ Forall (otherAddress address) items)
    \/ (exists pre post,
          items = (pre ++ r :: post)%list
          /\ get r "address" = Ok (VStr address)
          /\ Forall (otherAddress address) pre).
Proof.
  induction items as [|item rest IH]; cbn [findAddress]; intros r H.
  - left. split; [congruence | constructor].
  - destruct (get item "address") as [a|e] eqn:G; cbn [bind] in H;
      [|discriminate].
    destruct (is_string address a) eqn:E.
    + injection H as <-. right. exists [], rest.
      split; [reflexivity|]. split; [|constructor].
      destruct a; cbn [is_string] in E; try discriminate.
      apply String.eqb_eq in E. subst. exact G.
    + assert (O : otherAddress address item) by (exists a; split; assumption).
      destruct (IH r H) as [[-> F]|(pre & post & -> & A & F)].
      * left. split; [reflexivity | constructor; assumption].
      * right. exists (item :: pre), post.
        split; [reflexivity|]. split; [exact A | constructor; assumption].
Qed.

Lemma findAddress_throw (address : string) (items : list value) :
  forall e, findAddress address items = Throw e ->
    e = TypeError
    /\ exists pre x post,
         items = (pre ++ x :: post)%list
         /\ is_nullish x = true
         /\ Forall (otherAddress address) pre.
Proof.
  induction items as [|item rest IH]; cbn [findAddress]; intros e H;
    [discriminate|].
  destruct (get item "address") as [a|e'] eqn:G; cbn [bind] in H.
  - destruct (is_string address a) eqn:E; [discriminate|].
    destruct (IH e H) as (-> & pre & x & post & -> & N & F).
    split; [reflexivity|].
    exists (item :: pre), x, post.
    split; [reflexivity|]. split; [exact N|].
    constructor; [exists a; split; assumption | exact F].
  - injection H as <-.
    destruct item; cbn [get] in G; try discriminate;
      injection G as <-; (split; [reflexivity|]);
      [exists [], VUndef, rest | exists [], VNull, rest];
      repeat split; constructor.
Qed.

End LookupResults.

(** X1.  When [getMatchingAddress] returns on an array, the result is the
    first item whose [address] is the target, every item before it carrying
    another address; or it is [null], and then every item of the array
    carries another address. *)
Theorem getMatchingAddress_first_match :
  forall (address : string) (items : list value) (r : value),
    getMatchingAddress address (VArr items) = Ok r ->
    (r = VNull /\ Forall (otherAddress address) items)
    \/ (exists pre post,
          items = (pre ++ r :: post)%list
          /\ get r "address" = Ok (VStr address)
          /\ Forall (otherAddress address) pre).
Proof.
  intros address items r H. apply findAddress_result. exact H.
Qed.

(** The second of two declarations with the same address is never
    returned. *)
Lemma getMatchingAddress_first_match_witness :
  (VObj [("address", VStr "a.b"); ("n", VNum "1")] = VNull
   /\ Forall (otherAddress "a.b")
        [bucketDeclaration; VObj [("address", VStr "a.b"); ("n", VNum "1")];
         VObj [("address", VStr "a.b"); ("n", VNum "2")]])
  \/ (exists pre post,
        [bucketDeclaration; VObj [("address", VStr "a.b"); ("n", VNum "1")];
         VObj [("address", VStr "a.b"); ("n", VNum "2")]]
        = (pre ++ VObj [("address", VStr "a.b"); ("n", VNum "1")] :: post)%list
        /\ get (VObj [("address", VStr "a.b"); ("n", VNum "1")]) "address"
           = Ok (VStr "a.b")
        /\ Forall (otherAddress "a.b") pre).
Proof.
  exact (getMatchingAddress_first_match "a.b"
           [bucketDeclaration; VObj [("address", VStr "a.b"); ("n", VNum "1")];
            VObj [("address", VStr "a.b"); ("n", VNum "2")]]
           (VObj [("address", VStr "a.b"); ("n", VNum "1")]) eq_refl).
Defined.

(** X2.  [getMatchingAddress] throws in two cases only: the error "items
    not array data type as expected." when the items are not an array, and
    a [TypeError] when the scan meets a [null] or [undefined] item before
    any item with the target address. *)
Theorem getMatchingAddress_throws :
  forall (address : string) (items : value) (e : error),
    getMatchingAddress address items = Throw e ->
    (Array_isArray items = false
     /\ e = Error "items not array data type as expected.")
    \/ (e = TypeError
        /\ exists pre x post,
             items = VArr (pre ++ x :: post)
             /\ is_nullish x = true
             /\ Forall (otherAddress address) pre).
Proof.
  intros address items e H.
  destruct items; cbn [getMatchingAddress] in H;
    try (left; split; [reflexivity | congruence]).
  right. destruct (findAddress_throw _ _ _ H) as (-> & pre & x & post & -> & N & F).
  split; [reflexivity|]. exists pre, x, post. repeat split; assumption.
Qed.

(** A resource list that is missing ([undefined]) and one with a [null]
    entry. *)
Lemma getMatchingAddress_throws_witness :
  ((Array_isArray VUndef = false
    /\ Error "items not array data type as expected."
       = Error "items not array data type as expected.")
   \/ (Error "items not array data type as expected." = TypeError
       /\ exists pre x post,
            VUndef = VArr (pre ++ x :: post)
            /\ is_nullish x = true
            /\ Forall (otherAddress "a.b") pre))
  /\ ((Array_isArray (VArr [bucketDeclaration; VNull]) = false
       /\ TypeError = Error "items not array data type as expected.")
      \/ (TypeError = TypeError
          /\ exists pre x post,
               VArr [bucketDeclaration; VNull] = VArr (pre ++ x :: post)
               /\ is_nullish x = true
               /\ Forall (otherAddress "a.b") pre)).
Proof.
  split.
  - exact (getMatchingAddress_throws "a.b" VUndef _ eq_refl).
  - exact (getMatchingAddress_throws "a.b" (VArr [bucketDeclaration; VNull])
             _ eq_refl).
Defined.

Section WrapperResults.

Lemma getMatchingAddress_result (address : string) (items r : value) :
  getMatchingAddress address items = Ok r ->
  r = VNull \/ get r "address" = Ok (VStr address).
Proof.
  destruct items; cbn [getMatchingAddress]; try discriminate.
  intros H. destruct (findAddress_result _ _ _ H) as [[-> _]|(_ & _ & _ & A & _)];
    [left; reflexivity | right; exact A].
Qed.

(** A name that is no member of [Object.prototype] and no own property
    reads as [undefined]. *)
Lemma get_absent (k : string) (o : obj) :
  has_key k o = false -> ~ In k objectPrototypeNames ->
  get (VObj o) k = Ok VUndef.
Proof.
  intros K N. cbn [get]. rewrite K. unfold inherited.
  assert (E : forall x, In x objectPrototypeNames -> (k =? x) = false).
  { intros x Hx. apply String.eqb_neq. intros ->. exact (N Hx). }
  rewrite (E "__proto__"), (E "constructor")
    by (cbn; auto 15).
  cbn [existsb objectMethods].
  rewrite !E by (cbn; auto 15). reflexivity.
Qed.

Lemma get_own (k : string) (o : obj) :
  has_key k o = true -> get (VObj o) k = Ok (lookup k o).
Proof.
  intros K. cbn [get]. rewrite K. reflexivity.
Qed.

Lemma lookup_absent (k : string) (o : obj) :
  has_key k o = false -> lookup k o = VUndef.
Proof.
  induction o as [|[k' v] o IH]; cbn [has_key lookup]; [reflexivity|].
  intros H. apply orb_false_iff in H. destruct H as [-> H]. exact (IH H).
Qed.

End WrapperResults.

(** X3.  When [getConfigResourceWrapper] returns, the module name is
    "root_module" for an address of at most two dot-separated tokens and the
    third token from the end otherwise; the resource is never [undefined]:
    it is [null], or a declaration whose [address] is the full address
    (root module) or the last two tokens joined by a dot (module call). *)
Theorem getConfigResourceWrapper_result :
  forall (fullAddress : string) (fullJson : Plan) (w : ConfigResourceWrapper),
    getConfigResourceWrapper fullAddress fullJson = Ok w ->
    let tokens := split "." fullAddress in
    let n := length tokens in
    is_undefined (Data.resource w) = false
    /\ (n <= 2 ->
        moduleName w = "root_module"
        /\ (Data.resource w = VNull
            \/ get (Data.resource w) "address" = Ok (VStr fullAddress)))
    /\ (2 < n ->
        moduleName w = nth (n - 3) tokens EmptyString
        /\ (Data.resource w = VNull
            \/ get (Data.resource w) "address"
               = Ok (VStr (nth (n - 2) tokens EmptyString ++ "."
                           ++ nth (n - 1) tokens EmptyString)))).
Proof.
  intros fullAddress fullJson w H tokens n.
  unfold getConfigResourceWrapper in H. fold tokens in H. fold n in H.
  destruct (Nat.leb_spec n 2) as [Hn|Hn].
  - destruct (get (configuration fullJson) "root_module") as [root|];
      cbn [bind] in H; [|discriminate].
    destruct (get root "resources") as [rs|]; cbn [bind] in H; [|discriminate].
    destruct (getMatchingAddress fullAddress rs) as [r|] eqn:G;
      cbn [bind] in H; [|discriminate].
    destruct (is_undefined r) eqn:U; [discriminate|].
    injection H as <-. cbn [Data.resource moduleName].
    split; [exact U|]. split; [|lia].
    intros _. split; [reflexivity|].
    apply (getMatchingAddress_result _ _ _ G).
  - destruct (get (configuration fullJson) "root_module") as [root|];
      cbn [bind] in H; [|discriminate].
    destruct (get root "module_calls") as [calls|]; cbn [bind] in H;
      [|discriminate].
    destruct (get calls _) as [call|]; cbn [bind] in H; [|discriminate].
    destruct (get call "module") as [m|]; cbn [bind] in H; [|discriminate].
    destruct (get m "resources") as [rs|]; cbn [bind] in H; [|discriminate].
    destruct (getMatchingAddress _ rs) as [r|] eqn:G;
      cbn [bind] in H; [|discriminate].
    destruct (is_undefined r) eqn:U; [discriminate|].
    injection H as <-. cbn [Data.resource moduleName].
    split; [exact U|]. split; [lia|].
    intros _. split; [reflexivity|].
    apply (getMatchingAddress_result _ _ _ G).
Qed.

(** The declaration of [module.app.aws_s3_bucket.logs]. *)
Lemma getConfigResourceWrapper_result_witness :
  "app" = "app"
  /\ (bucketDeclaration = VNull
      \/ get bucketDeclaration "address" = Ok (VStr "aws_s3_bucket.logs")).
Proof.
  refine (proj2 (proj2 (getConfigResourceWrapper_result
                          "module.app.aws_s3_bucket.logs" configWithModule
                          {| Data.resource := bucketDeclaration;
                             moduleName := "app" |} eq_refl)) _).
  cbn. lia.
Defined.

(** X4.  For an address of more than two tokens whose module (the third
    token from the end) is not among the configuration's [module_calls], or
    when the root module has no [module_calls] at all,
    [getConfigResourceWrapper] throws a [TypeError]. *)
Theorem getConfigResourceWrapper_missing_module :
  forall (fullAddress : string) (fullJson : Plan) (root calls : value),
    let tokens := split "." fullAddress in
    let n := length tokens in
    2 < n ->
    get (configuration fullJson) "root_module" = Ok root ->
    get root "module_calls" = Ok calls ->
    (is_nullish calls = true
     \/ exists o, calls = VObj o
                  /\ has_key (nth (n - 3) tokens EmptyString) o = false) ->
    getConfigResourceWrapper fullAddress fullJson = Throw TypeError.
Proof.
  intros fullAddress fullJson root calls tokens n Hn Hr Hc Hm.
  unfold getConfigResourceWrapper. fold tokens. fold n.
  destruct (Nat.leb_spec n 2) as [Hle|_]; [lia|].
  rewrite Hr. cbn [bind]. rewrite Hc. cbn [bind].
  destruct Hm as [N|(o & -> & K)].
  - destruct calls; try discriminate; reflexivity.
  - cbn [get]. rewrite K. unfold inherited.
    destruct (_ =? "__proto__"); [reflexivity|].
    destruct (_ =? "constructor"); [reflexivity|].
    cbn [existsb].
    destruct (existsb _ objectMethods); reflexivity.
Qed.

(** The module [db] is not called by the configuration. *)
Lemma getConfigResourceWrapper_missing_module_witness :
  getConfigResourceWrapper "module.db.aws_s3_bucket.logs" configWithModule
  = Throw TypeError.
Proof.
  refine (getConfigResourceWrapper_missing_module
            "module.db.aws_s3_bucket.logs" configWithModule _ _ _
            eq_refl eq_refl _).
  - cbn. lia.
  - right. eexists. split; reflexivity.
Defined.

(* ================================================================== *)
(** * Further properties: the records of the diff set *)
(* ================================================================== *)

Section DiffRecords.

Variable DEEPMERGE : value -> value -> result value.

Lemma isEmptyObject_collapse (v : value) :
  is_undefined v = false -> is_null v = false ->
  exists b, isEmptyObject v = Ok b
            /\ (if b then VNull else v) = collapse v.
Proof.
  destruct v as [| |b|n|s|xs|[|p o]|f]; cbn; intros U N; try discriminate;
    eexists; split; reflexivity.
Qed.

Lemma resolveOld_collapse (o : value) (key : string) :
  resolveOld o key
  = if is_nullish o then Ok VNull else (v <- get o key ;; Ok (collapse v)).
Proof.
  unfold resolveOld. destruct (is_nullish o); [reflexivity|].
  destruct (get o key) as [v|]; cbn [bind]; [|reflexivity].
  destruct (is_undefined v) eqn:U; [destruct v; try discriminate; reflexivity|].
  destruct (is_null v) eqn:N; [destruct v; try discriminate; reflexivity|].
  cbn [orb].
  destruct (isEmptyObject_collapse v U N) as (b & -> & E). cbn [bind].
  rewrite <- E. destruct b; reflexivity.
Qed.

Lemma resolveNew_collapse (n : value) (key : string) :
  resolveNew n key
  = if is_null n then Ok VNull else (v <- get n key ;; Ok (collapse v)).
Proof.
  unfold resolveNew. destruct (is_null n); [reflexivity|].
  destruct (get n key) as [v|]; cbn [bind]; [|reflexivity].
  destruct (is_undefined v) eqn:U; [destruct v; try discriminate; reflexivity|].
  destruct (is_null v) eqn:N; [destruct v; try discriminate; reflexivity|].
  cbn [orb].
  destruct (isEmptyObject_collapse v U N) as (b & -> & E). cbn [bind].
  rewrite <- E. destruct b; reflexivity.
Qed.

Lemma mergeUnknown_noMerge (key : string) (newValue a : value) (st : store) :
  noMerge a -> mergeUnknown DEEPMERGE key newValue a st = (Ok newValue, st).
Proof.
  intros [->|[->|[->| ->]]]; reflexivity.
Qed.

Lemma mergeUnknown_true (key : string) (newValue : value) (st : store) :
  mergeUnknown DEEPMERGE key newValue (VBool true) st
  = (Ok (VStr KNOWN_AFTER_APPLY), st).
Proof. reflexivity. Qed.

Lemma mergeUnknown_adopts (key : string) (a : value) (st : store) :
  ~ noMerge a -> a <> VBool true ->
  mergeUnknown DEEPMERGE key VNull a st = (Ok a, st).
Proof.
  unfold noMerge. intros Hn Ht.
  destruct a as [| |[|]|n|s|xs|[|p o]|f]; try reflexivity;
    exfalso; tauto.
Qed.

Lemma diffFor_inv (key : string) (st st2 : store) (d : Diff) :
  diffFor DEEPMERGE key st = (Ok d, st2) ->
  exists nv marker,
    resolveOld (oldState st) key = Ok (oldValue d)
    /\ resolveNew (newState st) key = Ok nv
    /\ get (afterState st) key = Ok marker
    /\ mergeUnknown DEEPMERGE key nv marker st = (Ok (newValue d), st2).
Proof.
  unfold diffFor. unfold mbind at 1. cbn [reads].
  unfold mbind at 1. cbn [lift].
  destruct (resolveOld (oldState st) key) as [old|] eqn:E1; [|discriminate].
  unfold mbind at 1. cbn [reads]. unfold mbind at 1. cbn [lift].
  destruct (resolveNew (newState st) key) as [nv|] eqn:E2; [|discriminate].
  unfold mbind at 1. cbn [reads]. unfold mbind at 1. cbn [lift].
  destruct (get (afterState st) key) as [marker|] eqn:E3; [|discriminate].
  unfold mbind.
  destruct (mergeUnknown DEEPMERGE key nv marker st) as [[v|] st3] eqn:E4;
    [|discriminate].
  intros [= <- <-]. exists nv, marker.
  split; [reflexivity|]. split; [reflexivity|]. split; [reflexivity|].
  exact E4.
Qed.

Lemma diffsFor_member (allKeys : list string) :
  forall st diffs st',
    diffsFor DEEPMERGE allKeys st = (Ok diffs, st') ->
    forall key d, In (key, d) diffs ->
      exists st1 st2,
        sameMaps st st1 /\ diffFor DEEPMERGE key st1 = (Ok d, st2).
Proof.
  induction allKeys as [|k rest IH]; cbn [diffsFor]; intros st diffs st' H key d Hin.
  - injection H as <- _. destruct Hin.
  - unfold mbind at 1 in H.
    destruct (diffFor DEEPMERGE k st) as [[d0|] st1] eqn:E; [|discriminate].
    unfold mbind in H.
    destruct (diffsFor DEEPMERGE rest st1) as [[ds|] st2] eqn:E2; [|discriminate].
    injection H as <- _.
    destruct Hin as [[= <- <-]|Hin].
    + exists st, st1. split; [apply sameMaps_refl | exact E].
    + destruct (IH _ _ _ E2 _ _ Hin) as (sa & sb & S & F).
      exists sa, sb. split; [|exact F].
      eapply sameMaps_trans; [|exact S].
      pose proof (keeps_diffFor DEEPMERGE k st) as K. rewrite E in K. exact K.
Qed.

(** How one record of a returned diff set comes about. *)
Lemma getAttributeDiffs_record (new old after : value) (resource : Resource)
    (diffs : list (string * Diff)) (st' : store) (key : string) (d : Diff) :
  getAttributeDiffs DEEPMERGE new old after resource = (Ok diffs, st') ->
  In (key, d) diffs ->
  exists nv marker sa sb,
    resolveOld old key = Ok (oldValue d)
    /\ resolveNew new key = Ok nv
    /\ get (dropped resource after) key = Ok marker
    /\ mergeUnknown DEEPMERGE key nv marker sa = (Ok (newValue d), sb).
Proof.
  intros H Hin. unfold getAttributeDiffs, getAttributeDiffsM in H.
  unfold mbind at 1 in H.
  destruct (dropDerived_run resource
              {| newState := new; oldState := old; afterState := after;
                 console := [] |}) as [E|(E & _)];
    rewrite E in H; [|discriminate].
  unfold mbind in H.
  destruct (combinedKeys _) as [[allKeys|e] st1] eqn:C; [|discriminate].
  apply combinedKeys_run in C. destruct C as (-> & _ & _).
  destruct (diffsFor_member _ _ _ _ H _ _ Hin) as (sa & sb & (S1 & S2 & S3) & F).
  cbn [set_afterState newState oldState afterState] in S1, S2, S3.
  destruct (diffFor_inv _ _ _ _ F) as (nv & marker & R1 & R2 & R3 & R4).
  rewrite S1 in R2. rewrite S2 in R1. rewrite S3 in R3.
  exists nv, marker, sa, sb. repeat split; assumption.
Qed.

End DiffRecords.

(** X6.  In every diff set [getAttributeDiffs] returns, an attribute whose
    marker is [true] has the new value "(known after apply)", whatever the
    new map holds for it. *)
Theorem getAttributeDiffs_marker_true :
  forall (DEEPMERGE : value -> value -> result value)
         (new old after : value) (resource : Resource)
         (diffs : list (string * Diff)) (st' : store) (key : string) (d : Diff),
    getAttributeDiffs DEEPMERGE new old after resource = (Ok diffs, st') ->
    In (key, d) diffs ->
    get (dropped resource after) key = Ok (VBool true) ->
    newValue d = VStr KNOWN_AFTER_APPLY.
Proof.
  intros DEEPMERGE new old after resource diffs st' key d H Hin Hm.
  destruct (getAttributeDiffs_record _ _ _ _ _ _ _ _ _ H Hin)
    as (nv & marker & sa & sb & _ & _ & G & M).
  rewrite Hm in G. injection G as <-.
  rewrite mergeUnknown_true in M. congruence.
Qed.

(** [last_modified] of the Lambda function. *)
Lemma getAttributeDiffs_marker_true_witness :
  newValue {| oldValue := VNull; newValue := VStr KNOWN_AFTER_APPLY |}
  = VStr KNOWN_AFTER_APPLY.
Proof.
  refine (getAttributeDiffs_marker_true Sample.merge
            (after (change lambda)) (before (change lambda))
            (after_unknown (change lambda)) lambda lambdaDiffs _
            "last_modified" _ eq_refl _ eq_refl).
  right. right. right. left. reflexivity.
Defined.

(** X7.  In every diff set [getAttributeDiffs] returns for a marker map
    that is a plain object, an attribute whose marker (own, or inherited
    from [Object.prototype]) is absent, [null], [false] or the empty object
    has as its new value what the new map gives for the key: its own
    property, or for a key it does not have the member of
    [Object.prototype] of that name, if there is one; a missing value,
    [null] and the empty object are collapsed to [null]; a [null] new map
    gives [null]. *)
Theorem getAttributeDiffs_marker_no_merge :
  forall (DEEPMERGE : value -> value -> result value)
         (new old after : value) (resource : Resource)
         (diffs : list (string * Diff)) (st' : store) (key : string) (d : Diff)
         (markers : obj) (marker : value),
    getAttributeDiffs DEEPMERGE new old after resource = (Ok diffs, st') ->
    In (key, d) diffs ->
    dropped resource after = VObj markers ->
    get (VObj markers) key = Ok marker ->
    noMerge marker ->
    (new = VNull -> newValue d = VNull)
    /\ (forall o v, new = VObj o -> get (VObj o) key = Ok v ->
          newValue d = collapse v)
    /\ (forall o, new = VObj o -> has_key key o = true ->
          newValue d = collapse (lookup key o))
    /\ (forall o, new = VObj o -> has_key key o = false ->
          ~ In key objectPrototypeNames -> newValue d = VNull).
Proof.
  intros DEEPMERGE new old after resource diffs st' key d markers marker
    H Hin Ha Hm Hn.
  destruct (getAttributeDiffs_record _ _ _ _ _ _ _ _ _ H Hin)
    as (nv & marker' & sa & sb & _ & R & G & M).
  rewrite Ha, Hm in G. injection G as <-.
  rewrite (mergeUnknown_noMerge _ _ _ _ _ Hn) in M. injection M as <- _.
  rewrite resolveNew_collapse in R.
  assert (A : forall o v, new = VObj o -> get (VObj o) key = Ok v ->
                          nv = collapse v).
  { intros o v -> G. cbn [is_null] in R. rewrite G in R. cbn [bind] in R.
    congruence. }
  split; [|split; [exact A|split]].
  - intros ->. cbn in R. congruence.
  - intros o E K. apply (A o _ E), get_own, K.
  - intros o E K N. rewrite (A o _ E (get_absent _ _ K N)). reflexivity.
Qed.

(** [memory_size] (marker [false]) and [tags] (marker and value [{}]) of the
    Lambda function; and a key [constructor] with the marker [false], which
    the new map does not have: its new value is the inherited function. *)
Lemma getAttributeDiffs_marker_no_merge_witness :
  VNum "256" = collapse (VNum "256") /\ VNull = collapse (VObj [])
  /\ VFun "Object" = collapse (VFun "Object").
Proof.
  split; [|split].
  - refine (proj1 (proj2 (proj2 (getAttributeDiffs_marker_no_merge Sample.merge
              (after (change lambda)) (before (change lambda))
              (after_unknown (change lambda)) lambda lambdaDiffs _
              "memory_size" {| oldValue := VNum "128"; newValue := VNum "256" |}
              _ (VBool false) eq_refl _ eq_refl eq_refl _))) _ eq_refl eq_refl).
    + left. reflexivity.
    + right. right. left. reflexivity.
  - refine (proj1 (proj2 (proj2 (getAttributeDiffs_marker_no_merge Sample.merge
              (after (change lambda)) (before (change lambda))
              (after_unknown (change lambda)) lambda lambdaDiffs _
              "tags" {| oldValue := VNull; newValue := VNull |}
              _ (VObj []) eq_refl _ eq_refl eq_refl _))) _ eq_refl eq_refl).
    + right. left. reflexivity.
    + right. right. right. reflexivity.
  - refine (proj1 (proj2 (getAttributeDiffs_marker_no_merge Sample.merge
              (VObj []) (VObj []) (VObj [("constructor", VBool false)]) bucket
              [("constructor", {| oldValue := VFun "Object";
                                  newValue := VFun "Object" |})] _
              "constructor" {| oldValue := VFun "Object";
                               newValue := VFun "Object" |}
              _ (VBool false) eq_refl _ eq_refl eq_refl _))
              [] (VFun "Object") eq_refl eq_refl).
    + left. reflexivity.
    + right. right. left. reflexivity.
Defined.

(** X8.  In every diff set [getAttributeDiffs] returns, the old value of a
    record never is [undefined] and never is the empty object; it is [null]
    when the old map is [null] or [undefined]; and for an old map that is a
    plain object it is what the map gives for the key (its own property, or
    the member of [Object.prototype] of that name for a key it does not
    have), with a missing value, [null] and the empty object collapsed to
    [null].  The marker map plays no part in it. *)
Theorem getAttributeDiffs_old_value :
  forall (DEEPMERGE : value -> value -> result value)
         (new old after : value) (resource : Resource)
         (diffs : list (string * Diff)) (st' : store) (key : string) (d : Diff),
    getAttributeDiffs DEEPMERGE new old after resource = (Ok diffs, st') ->
    In (key, d) diffs ->
    is_undefined (oldValue d) = false
    /\ oldValue d <> VObj []
    /\ (is_nullish old = true -> oldValue d = VNull)
    /\ (forall o v, old = VObj o -> get (VObj o) key = Ok v ->
          oldValue d = collapse v)
    /\ (forall o, old = VObj o -> has_key key o = true ->
          oldValue d = collapse (lookup key o))
    /\ (forall o, old = VObj o -> has_key key o = false ->
          ~ In key objectPrototypeNames -> oldValue d = VNull).
Proof.
  intros DEEPMERGE new old after resource diffs st' key d H Hin.
  destruct (getAttributeDiffs_record _ _ _ _ _ _ _ _ _ H Hin)
    as (nv & marker & sa & sb & R & _).
  rewrite resolveOld_collapse in R.
  assert (C : forall v, is_undefined (collapse v) = false
                        /\ collapse v <> VObj []).
  { intros v. destruct v as [| |b|n|s|xs|[|p o]|f]; split; cbn;
      try reflexivity; discriminate. }
  destruct (is_nullish old) eqn:N.
  - injection R as <-. split; [reflexivity|]. split; [discriminate|].
    split; [reflexivity|].
    split; [|split]; intros o; intros; subst; discriminate.
  - destruct (get old key) as [v|] eqn:G; cbn [bind] in R; [|discriminate].
    injection R as <-. destruct (C v) as [C1 C2].
    split; [exact C1|]. split; [exact C2|]. split; [discriminate|].
    split; [|split].
    + intros o v' -> G'. rewrite G' in G. injection G as <-. reflexivity.
    + intros o -> K. rewrite (get_own _ _ K) in G. congruence.
    + intros o -> K M. rewrite (get_absent _ _ K M) in G.
      injection G as <-. reflexivity.
Qed.

(** The old [tags] of the Lambda function, an empty object; and the key
    [constructor], which the old map does not have. *)
Lemma getAttributeDiffs_old_value_witness :
  VNull = collapse (VObj []) /\ VFun "Object" = collapse (VFun "Object").
Proof.
  split.
  - refine (proj1 (proj2 (proj2 (proj2 (proj2 (getAttributeDiffs_old_value
              Sample.merge
              (after (change lambda)) (before (change lambda))
              (after_unknown (change lambda)) lambda lambdaDiffs _
              "tags" {| oldValue := VNull; newValue := VNull |} eq_refl _)))))
              _ eq_refl eq_refl).
    right. left. reflexivity.
  - refine (proj1 (proj2 (proj2 (proj2 (getAttributeDiffs_old_value
              Sample.merge
              (VObj []) (VObj []) (VObj [("constructor", VBool false)]) bucket
              [("constructor", {| oldValue := VFun "Object";
                                  newValue := VFun "Object" |})] _
              "constructor" {| oldValue := VFun "Object";
                               newValue := VFun "Object" |} eq_refl _))))
              [] (VFun "Object") eq_refl eq_refl).
    left. reflexivity.
Defined.

(** X9.  In every diff set [getAttributeDiffs] returns for a marker map
    that is a plain object, an attribute that has no new value (the new map
    is [null], or it is a plain object and what it gives for the key, own
    or inherited, is missing, [null] or the empty object) and whose marker
    is a structure or any value other than [true], [false], [null] and the
    empty object, has the marker itself as its new value. *)
Theorem getAttributeDiffs_marker_adopted :
  forall (DEEPMERGE : value -> value -> result value)
         (new old after : value) (resource : Resource)
         (diffs : list (string * Diff)) (st' : store) (key : string) (d : Diff)
         (markers : obj) (marker : value),
    getAttributeDiffs DEEPMERGE new old after resource = (Ok diffs, st') ->
    In (key, d) diffs ->
    dropped resource after = VObj markers ->
    get (VObj markers) key = Ok marker ->
    ~ noMerge marker -> marker <> VBool true ->
    (new = VNull
     \/ exists o v, new = VObj o /\ get (VObj o) key = Ok v
                    /\ collapse v = VNull) ->
    newValue d = marker.
Proof.
  intros DEEPMERGE new old after resource diffs st' key d markers marker
    H Hin Ha Hm Hn Ht Hnew.
  destruct (getAttributeDiffs_record _ _ _ _ _ _ _ _ _ H Hin)
    as (nv & marker' & sa & sb & _ & R & G & M).
  rewrite Ha, Hm in G. injection G as <-.
  rewrite resolveNew_collapse in R.
  assert (nv = VNull) as ->.
  { destruct Hnew as [->|(o & v & -> & Gv & C)]; [cbn in R; congruence|].
    cbn [is_null] in R. rewrite Gv in R. cbn [bind] in R. congruence. }
  rewrite (mergeUnknown_adopts _ _ _ _ Hn Ht) in M. congruence.
Qed.

(** [layers] of the Lambda function: no new value, marker [[true]]. *)
Lemma getAttributeDiffs_marker_adopted_witness :
  newValue {| oldValue := VNull; newValue := VArr [VBool true] |}
  = VArr [VBool true].
Proof.
  refine (getAttributeDiffs_marker_adopted Sample.merge
            (after (change lambda)) (before (change lambda))
            (after_unknown (change lambda)) lambda lambdaDiffs _
            "layers" _ _ (VArr [VBool true]) eq_refl _ eq_refl eq_refl _ _ _).
  - right. right. right. right. left. reflexivity.
  - unfold noMerge. intros [H|[H|[H|H]]]; discriminate.
  - discriminate.
  - right. do 2 eexists. split; [reflexivity|]. split; reflexivity.
Defined.

(* ================================================================== *)
(** * Further properties: when the diff builder throws *)
(* ================================================================== *)

Section DiffFailures.

Variable DEEPMERGE : value -> value -> result value.







End DiffFailures.



(* ================================================================== *)
(** * Further properties: isObject, isEmptyObject *)
(* ================================================================== *)

(** X11.  [isObject] holds of [null] as well as of every plain object, and
    of nothing else (arrays are excluded).  [isEmptyObject] answers [true]
    for the empty object only, and throws a [TypeError], instead of
    answering, exactly on [null]. *)
Theorem isEmptyObject_cases :
  forall x : value,
    (isObject x = true <-> x = VNull \/ exists o, x = VObj o)
    /\ (isEmptyObject x = Ok true <-> x = VObj [])
    /\ (isEmptyObject x = Throw TypeError <-> x = VNull)
    /\ (x <> VNull -> x <> VObj [] -> isEmptyObject x = Ok false).
Proof.
  intros x.
  destruct x as [| |b|n|s|xs|[|p o]|f]; cbn;
    repeat split; intros; try discriminate; try reflexivity; try congruence;
    try (right; eexists; reflexivity); try (left; reflexivity);
    try match goal with
        | H : _ \/ _ |- _ => destruct H as [H|[? H]]; discriminate
        end.
Qed.

(* ================================================================== *)
(** * Further properties: the predictor *)
(* ================================================================== *)

Section PredictorResults.

Variable regexReplace : string -> string -> string -> result string.

Lemma getPredictedNewValue_shape (diff : Diff) (resource : Resource)
    (fullJson : Plan) (v : value) :
  getPredictedNewValue regexReplace diff resource fullJson = Ok v ->
  v = VNull \/ exists s, v = VStr s.
Proof.
  unfold getPredictedNewValue.
  destruct (_ || _); [intros [= <-]; left; reflexivity|].
  destruct (getConfigResourceWrapper _ _) as [w|]; cbn [bind]; [|discriminate].
  destruct (dynamicAttributeOf _) as [attribute|]; cbn [bind]; [|discriminate].
  destruct (templateReference _ _) as [[reference|]|]; cbn [bind];
    [|intros [= <-]; left; reflexivity|discriminate].
  destruct (getPlannedValuesModuleResource _ _ _) as [t|]; cbn [bind];
    [|discriminate].
  destruct (is_nullish t); [discriminate|].
  destruct (get t "values") as [values|]; cbn [bind]; [|discriminate].
  destruct (get values "template") as [template|]; cbn [bind]; [|discriminate].
  destruct (get values "vars") as [vars|]; cbn [bind]; [|discriminate].
  destruct template; try (intros [= <-]; left; reflexivity).
  destruct (isObjectType vars); [|intros [= <-]; left; reflexivity].
  destruct (render _ _ _) as [rendered|]; cbn [bind]; [|discriminate].
  intros [= <-]. right. eexists. reflexivity.
Qed.

End PredictorResults.

(** X12.  Whatever [getPredictedNewValue] returns is [null] or a string.
    For a diff whose new value is not "(known after apply)" it returns
    [null] without reading the plan: no shape of the configuration or of the
    planned values makes it throw then. *)
Theorem getPredictedNewValue_result :
  forall (regexReplace : string -> string -> string -> result string)
         (diff : Diff) (resource : Resource) (fullJson : Plan),
    (forall v, getPredictedNewValue regexReplace diff resource fullJson = Ok v ->
               v = VNull \/ exists s, v = VStr s)
    /\ (is_string KNOWN_AFTER_APPLY (newValue diff) = false ->
        getPredictedNewValue regexReplace diff resource fullJson = Ok VNull).
Proof.
  intros regexReplace diff resource fullJson. split.
  - intros v H. eapply getPredictedNewValue_shape. exact H.
  - intros H. unfold getPredictedNewValue. rewrite H. reflexivity.
Qed.

(** A rendered prediction, and a known new value on a plan without
    configuration. *)
Lemma getPredictedNewValue_result_witness :
  (VStr "allow app" = VNull \/ exists s, VStr "allow app" = VStr s)
  /\ getPredictedNewValue Sample.regex
       {| oldValue := VStr "{}"; newValue := VStr "[]" |} rolePolicy
       plannedNoChildModules
     = Ok VNull.
Proof.
  split.
  - exact (proj1 (getPredictedNewValue_result Sample.regex unknownPolicy
                    rolePolicy (planWithTemplate [plainTextTemplate]
                                  [rolePolicy]))
             (VStr "allow app") eq_refl).
  - exact (proj2 (getPredictedNewValue_result Sample.regex
                    {| oldValue := VStr "{}"; newValue := VStr "[]" |}
                    rolePolicy plannedNoChildModules) eq_refl).
Defined.

(** X13.  For an eligible resource whose declaration references one
    template resource, the predictor throws the error "Couldn't find
    template resource [<address>] in fullJson" when the lookup in the
    planned values comes back with [null]. *)
Theorem getPredictedNewValue_template_missing :
  forall (regexReplace : string -> string -> string -> result string)
         (diff : Diff) (resource : Resource) (fullJson : Plan)
         (wrapper : ConfigResourceWrapper) (attribute reference : string),
    newValue diff = VStr KNOWN_AFTER_APPLY ->
    eligible (type resource) attribute ->
    getConfigResourceWrapper (address resource) fullJson = Ok wrapper ->
    declaresReferences (Data.resource wrapper) attribute [reference] ->
    namesTemplateFile reference = true ->
    getPlannedValuesModuleResource reference (moduleName wrapper) fullJson
    = Ok VNull ->
    getPredictedNewValue regexReplace diff resource fullJson
    = Throw (Error ("Couldn't find template resource [" ++ reference
                    ++ "] in fullJson")).
Proof.
  intros regexReplace diff resource fullJson wrapper attribute reference
    Hn He Hw (expressions & expression & E1 & T1 & E2 & T2 & E3) Hr Hp.
  unfold getPredictedNewValue.
  rewrite Hn. cbn [is_string]. rewrite String.eqb_refl.
  rewrite (eligible_type _ _ He). cbn [negb orb].
  rewrite Hw. cbn [bind].
  rewrite (eligible_attribute _ _ He). cbn [bind].
  unfold templateReference.
  rewrite E1. cbn [bind]. rewrite T1. cbn [negb].
  rewrite E2. cbn [bind]. rewrite T2. cbn [negb].
  rewrite E3. cbn [bind map]. rewrite Hr. cbn [bind].
  rewrite Hp. reflexivity.
Qed.

(** The role policy whose template is not among the planned values. *)
Lemma getPredictedNewValue_template_missing_witness :
  getPredictedNewValue Sample.regex unknownPolicy rolePolicy
    (planWithTemplate [] [rolePolicy])
  = Throw (Error ("Couldn't find template resource [" ++ "data.template_file.t"
                  ++ "] in fullJson")).
Proof.
  refine (getPredictedNewValue_template_missing Sample.regex unknownPolicy
            rolePolicy (planWithTemplate [] [rolePolicy])
            {| Data.resource := rolePolicyConfig [VStr "data.template_file.t"];
               moduleName := "root_module" |}
            "policy" "data.template_file.t" eq_refl _ eq_refl _ eq_refl eq_refl).
  - left. split; reflexivity.
  - exists (VObj [("policy",
                   VObj [("references", VArr [VStr "data.template_file.t"])])]),
           (VObj [("references", VArr [VStr "data.template_file.t"])]).
    repeat split; reflexivity.
Defined.

(* ================================================================== *)
(** * Further properties: rendering *)
(* ================================================================== *)

Section RenderResults.

Variable regexReplace : string -> string -> string -> result string.

Lemma noDollar_no_placeholder (varKey : string) :
  forall t, noDollar t = true -> occurs (placeholder varKey) t = false.
Proof.
  induction t as [|c t IH]; [reflexivity|].
  cbn [noDollar]. intros H. apply andb_true_iff in H. destruct H as [H1 H2].
  cbn [occurs]. rewrite (IH H2), orb_false_r.
  unfold placeholder. cbn [append starts_with].
  rewrite Ascii.eqb_sym. apply negb_true_iff in H1. rewrite H1. reflexivity.
Qed.

Lemma renderVars_without_dollar (o : obj) :
  printableMap (VObj o) ->
  forall (varKeys : list string) (t : string),
    noDollar t = true ->
    forallb plainName varKeys = true ->
    renderVars regexReplace varKeys (VObj o) t = Ok t.
Proof.
  intros P.
  induction varKeys as [|k ks IH]; intros t Ht Hk; [reflexivity|].
  cbn [forallb] in Hk. apply andb_true_iff in Hk. destruct Hk as [Hp Hks].
  cbn [renderVars].
  destruct (get (VObj o) k) as [v|] eqn:G; [|discriminate].
  destruct (P k v G) as [s Hs].
  cbn [bind]. unfold replaceVar. rewrite Hp, Hs. cbn [bind].
  unfold replaceAll.
  rewrite (replaceFrom_no_match _ _ _ _ (noDollar_no_placeholder k t Ht)).
  apply IH; assumption.
Qed.

Lemma plainName_noPattern (k : string) :
  forall tail, plainName k = true -> noPattern tail = true ->
               noPattern (k ++ tail) = true.
Proof.
  induction k as [|c k IH]; intros tail Hp Ht; [exact Ht|].
  cbn [plainName] in Hp. apply andb_true_iff in Hp. destruct Hp as [Hc Hk].
  cbn [append noPattern]. rewrite (IH tail Hk Ht), andb_true_r.
  destruct (Ascii.eqb_spec c "$") as [->|]; [discriminate | reflexivity].
Qed.

Lemma starts_with_split (p : string) :
  forall s, starts_with p s = true -> s = p ++ drop (String.length p) s.
Proof.
  induction p as [|c p IH]; intros s H; [reflexivity|].
  destruct s as [|d s]; cbn [starts_with] in H; [discriminate|].
  apply andb_true_iff in H. destruct H as [H1 H2].
  apply Ascii.eqb_eq in H1. subst d.
  cbn [String.length drop append]. f_equal. apply IH, H2.
Qed.

(** Replacing a text by itself: what is behind a match is passed over, not
    scanned. *)
Lemma replaceFrom_self (pat : string) :
  pat <> EmptyString -> noPattern pat = true ->
  forall s before skip,
    replaceFrom pat pat before skip s = drop skip s.
Proof.
  intros Hne Hp. induction s as [|c s IH]; intros before skip.
  - destruct skip; reflexivity.
  - cbn [replaceFrom]. destruct skip as [|k]; [|rewrite IH; reflexivity].
    cbn [drop].
    destruct (starts_with pat (String c s)) eqn:S.
    + rewrite (expand_literal _ _ _ _ Hp), IH.
      pose proof (starts_with_split _ _ S) as E.
      destruct pat as [|c0 pat']; [congruence|].
      cbn [String.length drop append Nat.sub] in E |- *.
      rewrite Nat.sub_0_r. injection E as -> E. f_equal. symmetry. exact E.
    + rewrite IH. reflexivity.
Qed.

End RenderResults.

(** X14.  A template body without any [$] is rendered to itself by every
    variable map whose names have no regular-expression syntax character and
    whose values can be converted to strings (a value that is an object
    with an own [toString] property cannot: line 279 throws a [TypeError]
    on it, whatever the template is). *)
Theorem render_without_dollar :
  forall (regexReplace : string -> string -> string -> result string)
         (template : string) (vars : obj),
    noDollar template = true ->
    forallb plainName (keys vars) = true ->
    (forall k v, In (k, v) vars -> printable v) ->
    render regexReplace template (VObj vars) = Ok template.
Proof.
  intros regexReplace template vars Ht Hk Hv. unfold render.
  cbn [Object_keys bind].
  apply renderVars_without_dollar;
    [apply printableMap_obj, Hv | assumption | assumption].
Qed.

(** A body without placeholders. *)
Lemma render_without_dollar_witness :
  render Sample.regex "Version 2012-10-17"
    (VObj [("region", VStr "$&"); ("name", VNum "7")])
  = Ok "Version 2012-10-17".
Proof.
  refine (render_without_dollar Sample.regex "Version 2012-10-17"
            [("region", VStr "$&"); ("name", VNum "7")] eq_refl eq_refl _).
  intros k v [[= <- <-]|[[= <- <-]|[]]]; eexists; reflexivity.
Defined.

(** X15.  A variable whose value is its own placeholder leaves every
    template as it is: the text a step inserts is not scanned again by that
    step, so the rendering ends. *)
Theorem render_own_placeholder :
  forall (regexReplace : string -> string -> string -> result string)
         (varKey template : string),
    plainName varKey = true ->
    render regexReplace template (VObj [(varKey, VStr (placeholder varKey))])
    = Ok template.
Proof.
  intros regexReplace varKey template Hp. unfold render.
  cbn [Object_keys keys map fst bind renderVars get lookup has_key].
  rewrite String.eqb_refl. cbn [orb]. unfold replaceVar. rewrite Hp.
  cbn [bind ToString]. unfold replaceAll.
  rewrite replaceFrom_self; [reflexivity | discriminate |].
  unfold placeholder. cbn [append noPattern Ascii.eqb existsb].
  cbn. apply plainName_noPattern; [exact Hp | reflexivity].
Qed.

(** The variable [a] with the value ["${a}"]. *)
Lemma render_own_placeholder_witness :
  render Sample.regex "x${a}y${a}" (VObj [("a", VStr "${a}")])
  = Ok "x${a}y${a}".
Proof.
  exact (render_own_placeholder Sample.regex "a" "x${a}y${a}" eq_refl).
Defined.

(* ================================================================== *)
(** * Further properties: what process prints and counts *)
(* ================================================================== *)

Section Appending.

Context {P : line -> Prop}.

Lemma appends_ret {A} (a : A) : appends P (ret a).
Proof.
  intros s. split; [reflexivity|]. exists [].
  split; [symmetry; apply app_nil_r | constructor].
Qed.

Lemma appends_lift {A} (r : result A) : appends P (lift r).
Proof.
  intros s. split; [reflexivity|]. exists [].
  split; [symmetry; apply app_nil_r | constructor].
Qed.

Lemma appends_say (l : line) : P l -> appends P (say l).
Proof.
  intros H s. split; [reflexivity|]. exists [l].
  split; [reflexivity | repeat constructor; exact H].
Qed.

Lemma appends_mbind {A B} (m : M run A) (k : A -> M run B) :
  appends P m -> (forall a, appends P (k a)) -> appends P (mbind m k).
Proof.
  intros Hm Hk s. unfold mbind.
  destruct (Hm s) as (C & lines & O & F).
  destruct (m s) as [[a|e] s1]; cbn [snd] in *.
  - destruct (Hk a s1) as (C' & lines' & O' & F').
    split; [congruence|]. exists (lines ++ lines')%list.
    split; [rewrite O', O, app_assoc; reflexivity|].
    apply Forall_app. split; assumption.
  - split; [exact C|]. exists lines. split; assumption.
Qed.

Lemma appends_try_catch {A} (body : M run A) (handler : error -> M run A) :
  appends P body -> (forall e, appends P (handler e)) ->
  appends P (try_catch body handler).
Proof.
  intros Hb Hh s. unfold try_catch.
  destruct (Hb s) as (C & lines & O & F).
  destruct (body s) as [[a|e] s1]; cbn [snd] in *.
  - split; [exact C|]. exists lines. split; assumption.
  - destruct (Hh e s1) as (C' & lines' & O' & F').
    split; [congruence|]. exists (lines ++ lines')%list.
    split; [rewrite O', O, app_assoc; reflexivity|].
    apply Forall_app. split; assumption.
Qed.

End Appending.

Lemma appends_weaken {A} (P Q : line -> Prop) (m : M run A) :
  (forall l, P l -> Q l) -> appends P m -> appends Q m.
Proof.
  intros H Hm s. destruct (Hm s) as (C & lines & O & F).
  split; [exact C|]. exists lines. split; [exact O|].
  eapply Forall_impl; eassumption.
Qed.

Section Printing.

Variable DEEPMERGE : value -> value -> result value.
Variable regexReplace : string -> string -> string -> result string.
Variable DEEPEQUAL : value -> value -> bool.
Variable JSON_parse : value -> result value.

(** What the turn of one attribute may print, and when. *)
Lemma processAttribute_appends (json : Plan) (resource : Resource)
    (attribute : string) (diff : Diff) :
  appends
    (fun l =>
       attributeLineOf attribute diff l
       /\ shouldSkipDiffKnownAfter resource diff attribute
          || shouldSkipAlways resource attribute = false
       /\ DEEPEQUAL (oldValue diff) (newValue diff) = false)
    (processAttribute regexReplace DEEPEQUAL JSON_parse json resource
       attribute diff).
Proof.
  unfold processAttribute.
  destruct (_ || _) eqn:Hs; [apply appends_ret|].
  destruct (DEEPEQUAL _ _) eqn:He; [apply appends_ret|].
  assert (L1 : forall marker old,
             attributeLineOf attribute diff
               (AttributeLine marker attribute old (newValue diff))).
  { intros. right. right. do 2 eexists. reflexivity. }
  assert (L2 : forall marker,
             attributeLineOf attribute diff (PredictedNoChange marker attribute)).
  { intros. right. left. eexists. reflexivity. }
  assert (L3 : attributeLineOf attribute diff CompareError) by (left; reflexivity).
  destruct (negb (is_null (oldValue diff)));
    [|apply appends_say; auto].
  apply appends_mbind; [apply appends_lift|]. intros predicted.
  apply appends_mbind.
  - destruct (_ && _); [|apply appends_ret].
    apply appends_try_catch.
    + apply appends_mbind; [apply appends_lift|]. intros same.
      destruct same; [|apply appends_ret].
      apply appends_mbind; [apply appends_say; auto|].
      intros _. apply appends_ret.
    + intros e. apply appends_mbind; [apply appends_say; auto|].
      intros _. apply appends_ret.
  - intros skip. destruct skip; [apply appends_ret | apply appends_say; auto].
Qed.

Lemma processAttributes_appends (json : Plan) (resource : Resource)
    (diffs : list (string * Diff)) :
  appends
    (fun l =>
       exists attribute diff,
         In (attribute, diff) diffs
         /\ attributeLineOf attribute diff l
         /\ shouldSkipDiffKnownAfter resource diff attribute
            || shouldSkipAlways resource attribute = false
         /\ DEEPEQUAL (oldValue diff) (newValue diff) = false)
    (processAttributes regexReplace DEEPEQUAL JSON_parse json resource diffs).
Proof.
  induction diffs as [|[attribute diff] rest IH]; cbn [processAttributes].
  - apply appends_ret.
  - apply appends_mbind.
    + eapply appends_weaken; [|apply processAttribute_appends].
      intros l (H1 & H2 & H3). exists attribute, diff.
      split; [left; reflexivity|]. repeat split; assumption.
    + intros _. eapply appends_weaken; [|exact IH].
      intros l (a & d & Hin & H). exists a, d.
      split; [right; exact Hin | exact H].
Qed.

Lemma callGetAttributeDiffs_appends (resource : Resource) :
  appends (fun _ => True) (callGetAttributeDiffs DEEPMERGE resource).
Proof.
  unfold callGetAttributeDiffs.
  destruct (getAttributeDiffs _ _ _ _ _) as [r st].
  apply appends_mbind; [|intros; apply appends_lift].
  intros s. split; [reflexivity|]. exists (console st).
  split; [reflexivity|]. apply Forall_forall. trivial.
Qed.

(** The tally after the turn of one resource, whatever its completion. *)
Lemma processResource_count (json : Plan) (resource : Resource) (s : run) :
  changeCount
    (snd (processResource DEEPMERGE regexReplace DEEPEQUAL JSON_parse
            json resource s))
  = tallied (if isNoOp (actions (change resource)) then []
             else actions (change resource))
      (changeCount s).
Proof.
  unfold processResource. unfold mbind at 1. cbn [reads].
  destruct (getResourceChangeInfo_cases (actions (change resource))
              (changeCount s)) as [[Ha E]|[Ha E]]; rewrite E.
  - rewrite Ha. unfold mbind. cbn. destruct s; reflexivity.
  - assert (N : isNoOp (actions (change resource)) = false).
    { unfold isNoOp. destruct (actions (change resource)) as [|a [|b l]];
        try reflexivity.
      apply String.eqb_neq. intros ->. apply Ha. reflexivity. }
    rewrite N. unfold mbind at 1. cbn [modify].
    set (s1 := set_changeCount _ s).
    set (rest := mbind _ _).
    assert (K : appends (fun _ => True) rest).
    { subst rest. apply appends_mbind; [apply appends_say; trivial|].
      intros _.
      destruct (onlyChange CHANGES.DELETE _); [apply appends_say; trivial|].
      destruct (onlyChange CHANGES.READ _); [apply appends_say; trivial|].
      apply appends_mbind; [apply callGetAttributeDiffs_appends|].
      intros diffs. apply appends_mbind; [|intros; apply appends_say; trivial].
      eapply appends_weaken; [|apply processAttributes_appends]. trivial. }
    destruct (K s1) as [C _]. rewrite C. reflexivity.
Qed.

Lemma tallied_app (a b : list string) (c : ChangeCount) :
  tallied (a ++ b) c = tallied b (tallied a c).
Proof. unfold tallied. apply fold_left_app. Qed.

Lemma processResources_count (json : Plan) (resources : list Resource) :
  forall s s',
    processResources DEEPMERGE regexReplace DEEPEQUAL JSON_parse
      json resources s = (Ok tt, s') ->
    changeCount s' = tallied (reportedActions resources) (changeCount s).
Proof.
  induction resources as [|r rest IH]; cbn [processResources]; intros s s' H.
  - injection H as <-. reflexivity.
  - unfold mbind in H.
    pose proof (processResource_count json r s) as C.
    destruct (processResource _ _ _ _ json r s) as [[[]|e] s1];
      [|discriminate].
    cbn [snd] in C. rewrite (IH _ _ H), C.
    cbn [reportedActions flat_map]. rewrite tallied_app. reflexivity.
Qed.

End Printing.

(** X16.  The loop over the attributes of a resource never touches the
    tally and only adds lines to the console, whatever its completion; every
    line it adds belongs to an attribute of the diff set that is not
    skipped ([shouldSkipDiffKnownAfter], [shouldSkipAlways]) and whose old
    and new values are not deep-equal, and is that attribute's line with
    its new value, its "predicting no change" line, or the diagnostic of a
    failed comparison. *)
Theorem processAttributes_prints :
  forall (regexReplace : string -> string -> string -> result string)
         (DEEPEQUAL : value -> value -> bool)
         (JSON_parse : value -> result value)
         (json : Plan) (resource : Resource) (diffs : list (string * Diff))
         (s : run),
    let s' := snd (processAttributes regexReplace DEEPEQUAL JSON_parse json
                     resource diffs s) in
    changeCount s' = changeCount s
    /\ exists lines,
         output s' = (output s ++ lines)%list
         /\ Forall
              (fun l =>
                 exists attribute diff,
                   In (attribute, diff) diffs
                   /\ attributeLineOf attribute diff l
                   /\ shouldSkipDiffKnownAfter resource diff attribute
                      || shouldSkipAlways resource attribute = false
                   /\ DEEPEQUAL (oldValue diff) (newValue diff) = false)
              lines.
Proof.
  intros regexReplace DEEPEQUAL JSON_parse json resource diffs s.
  apply (processAttributes_appends regexReplace DEEPEQUAL JSON_parse json
           resource diffs s).
Qed.

(** X17.  When the loop over the resource changes completes, [process]
    prints the summary and a closing line behind what the loop printed, and
    the counts of the summary are the numbers of "create", "update" and
    "delete" actions among the resources whose action list is not the
    single "no-op". *)
Theorem process_summary :
  forall (DEEPMERGE : value -> value -> result value)
         (regexReplace : string -> string -> string -> result string)
         (DEEPEQUAL : value -> value -> bool)
         (JSON_parse : value -> result value)
         (json : Plan) (resources : list Resource) (s' : run),
    resource_changes json = Some resources ->
    processResources DEEPMERGE regexReplace DEEPEQUAL JSON_parse
      json resources startRun = (Ok tt, s') ->
    process DEEPMERGE regexReplace DEEPEQUAL JSON_parse (Ok json)
    = (Ok tt,
       (output s' ++ [Text (changeSummary (changeCount s'));
                      Text (NEWLINE ++ NEWLINE)])%list)
    /\ count_create (changeCount s') = countOf "create" (reportedActions resources)
    /\ count_update (changeCount s') = countOf "update" (reportedActions resources)
    /\ count_delete (changeCount s') = countOf "delete" (reportedActions resources).
Proof.
  intros DEEPMERGE regexReplace DEEPEQUAL JSON_parse json resources s' Hrc H.
  split.
  - unfold process, try_catch, processBody.
    unfold mbind at 1. cbn [lift]. rewrite Hrc.
    unfold mbind at 1. cbn [say log modify].
    unfold mbind at 1. cbn [modify].
    unfold mbind at 1.
    change (set_changeCount zeroCount (run_log (Text NEWLINE) _)) with startRun.
    rewrite H. cbn. rewrite <- app_assoc. reflexivity.
  - rewrite (processResources_count _ _ _ _ _ _ _ _ H).
    destruct (tallied_counts (reportedActions resources) (changeCount startRun))
      as (_ & Hc & Hu & Hd & _).
    rewrite Hc, Hu, Hd. cbn. repeat split.
Qed.

(** A plan with an unchanged, a deleted and an updated resource. *)
Lemma process_summary_witness :
  snd (process Sample.merge Sample.regex Sample.equal Sample.parse
         (Ok (planOf [unchanged; deleted; bucket])))
  = [Text NEWLINE;
     Text (header {| symbols := [symbol_of KDelete]; changes := ["delete"] |}
             deleted);
     Text CLOSE_RESOURCE;
     updateHeader bucket;
     AttributeLine (Some (COLOR.YELLOW ++ "~" ++ COLOR.RESET)) "acl"
       (Some (VStr "private")) (VStr "public-read");
     AttributeLine (Some (COLOR.GREEN ++ "+" ++ COLOR.RESET)) "arn" None
       (VStr KNOWN_AFTER_APPLY);
     Text CLOSE_RESOURCE;
     Text (changeSummary {| count_read := 0; count_create := 0;
                            count_update := 1; count_delete := 1;
                            count_unknown := 0 |});
     Text (NEWLINE ++ NEWLINE)].
Proof.
  exact (f_equal snd
           (proj1 (process_summary Sample.merge Sample.regex Sample.equal
                     Sample.parse (planOf [unchanged; deleted; bucket])
                     [unchanged; deleted; bucket] _ eq_refl eq_refl))).
Defined.

(** X18.  For a resource whose only action is "delete", or whose only
    action is "read", [process] prints the header and the closing line,
    counts the action, and does nothing else: the attribute maps are not
    read, so no shape of them makes the turn fail. *)
Theorem processResource_delete_or_read_only :
  forall (DEEPMERGE : value -> value -> result value)
         (regexReplace : string -> string -> string -> result string)
         (DEEPEQUAL : value -> value -> bool)
         (JSON_parse : value -> result value)
         (json : Plan) (resource : Resource) (s : run) (k : kind),
    k = KDelete \/ k = KRead ->
    actions (change resource) = [change_of k] ->
    processResource DEEPMERGE regexReplace DEEPEQUAL JSON_parse json resource s
    = (Ok tt,
       {| output :=
            (output s
             ++ [Text (header {| symbols := [symbol_of k];
                                 changes := [change_of k] |} resource);
                 Text CLOSE_RESOURCE])%list;
          changeCount := increment k (changeCount s) |}).
Proof.
  intros DEEPMERGE regexReplace DEEPEQUAL JSON_parse json resource s k Hk Ha.
  unfold processResource. unfold mbind at 1. cbn [reads]. rewrite Ha.
  destruct Hk as [-> | ->]; cbn;
    unfold say, log, modify, run_log, set_changeCount; cbn;
    rewrite <- app_assoc; reflexivity.
Qed.

(** A deleted resource whose maps are missing. *)
Lemma processResource_delete_or_read_only_witness :
  processResource Sample.merge Sample.regex Sample.equal Sample.parse
    (planOf [deleted]) deleted startRun
  = (Ok tt,
     {| output :=
          [Text NEWLINE;
           Text (header {| symbols := [symbol_of KDelete];
                           changes := ["delete"] |} deleted);
           Text CLOSE_RESOURCE];
        changeCount := increment KDelete zeroCount |}).
Proof.
  exact (processResource_delete_or_read_only Sample.merge Sample.regex
           Sample.equal Sample.parse (planOf [deleted]) deleted startRun
           KDelete (or_introl eq_refl) eq_refl).
Defined.

Section NoOp.

Variable DEEPMERGE : value -> value -> result value.
Variable regexReplace : string -> string -> string -> result string.
Variable DEEPEQUAL : value -> value -> bool.
Variable JSON_parse : value -> result value.

Lemma processResources_no_op (json : Plan) (resources : list Resource) :
  Forall (fun r => actions (change r) = ["no-op"]) resources ->
  forall s,
    processResources DEEPMERGE regexReplace DEEPEQUAL JSON_parse
      json resources s = (Ok tt, s).
Proof.
  induction 1 as [|r rest Hr _ IH]; intros s; cbn [processResources];
    [reflexivity|].
  unfold mbind at 1. unfold processResource. unfold mbind at 1. cbn [reads].
  rewrite Hr. cbn [getResourceChangeInfo String.eqb Ascii.eqb Bool.eqb].
  unfold mbind at 1. cbn [modify].
  replace (set_changeCount (changeCount s) s) with s by (destruct s; reflexivity).
  cbn [ret]. apply IH.
Qed.

End NoOp.

(** X19.  A plan whose resources all have the single action "no-op" makes
    [process] print the opening line, a summary of zeros and the closing
    line, and nothing for any resource. *)
Theorem process_all_no_op :
  forall (DEEPMERGE : value -> value -> result value)
         (regexReplace : string -> string -> string -> result string)
         (DEEPEQUAL : value -> value -> bool)
         (JSON_parse : value -> result value)
         (json : Plan) (resources : list Resource),
    resource_changes json = Some resources ->
    Forall (fun r => actions (change r) = ["no-op"]) resources ->
    process DEEPMERGE regexReplace DEEPEQUAL JSON_parse (Ok json)
    = (Ok tt, [Text NEWLINE; Text (changeSummary zeroCount);
               Text (NEWLINE ++ NEWLINE)]).
Proof.
  intros DEEPMERGE regexReplace DEEPEQUAL JSON_parse json resources Hrc Hn.
  unfold process, try_catch, processBody.
  unfold mbind at 1. cbn [lift]. rewrite Hrc.
  unfold mbind at 1. cbn [say log modify].
  unfold mbind at 1. cbn [modify].
  unfold mbind at 1.
  rewrite (processResources_no_op _ _ _ _ json resources Hn). reflexivity.
Qed.

(** Two unchanged resources. *)
Lemma process_all_no_op_witness :
  process Sample.merge Sample.regex Sample.equal Sample.parse
    (Ok (planOf [unchanged; unchanged]))
  = (Ok tt, [Text NEWLINE; Text (changeSummary zeroCount);
             Text (NEWLINE ++ NEWLINE)]).
Proof.
  refine (process_all_no_op Sample.merge Sample.regex Sample.equal
            Sample.parse (planOf [unchanged; unchanged])
            [unchanged; unchanged] eq_refl _).
  repeat constructor.
Defined.

(* ================================================================== *)
(** * Further properties: markers that are structures *)
(* ================================================================== *)

Section StructuredMarkers.

Variable DEEPMERGE : value -> value -> result value.

Lemma mergeUnknown_objects (key : string) (p q : string * value)
    (m o : obj) (st : store) :
  mergeUnknown DEEPMERGE key (VObj (q :: o)) (VObj (p :: m)) st
  = (DEEPMERGE (VObj (q :: o)) (VObj (p :: m)), st).
Proof. reflexivity. Qed.

(** The branch of line 605 changes nothing but the console, when the two
    conversions to string succeed. *)
Lemma mergeUnknown_unexpected (key : string) (nv a : value) (st : store) :
  ~ noMerge a -> a <> VBool true -> is_null nv = false ->
  Array_isArray a && Array_isArray nv = false ->
  isObject a && isObject nv = false ->
  forall v sb, mergeUnknown DEEPMERGE key nv a st = (Ok v, sb) -> v = nv.
Proof.
  unfold noMerge. intros Hn Ht Hnull Harr Hobj v sb.
  assert (F : (lift (ToString nv) ;;;
               lift (ToString a) ;;;
               log store_log (UnexpectedCondition key nv a) ;;;
               ret nv) st = (Ok v, sb) -> v = nv).
  { unfold mbind, lift, log, modify, ret.
    destruct (ToString nv); [|discriminate].
    destruct (ToString a); [|discriminate].
    intros [= <- _]. reflexivity. }
  destruct a as [| |[|]|n|s|xs|[|p o]|f];
    try (exfalso; tauto);
    destruct nv as [| |b'|n'|s'|xs'|o'|f']; try discriminate; exact F.
Qed.

Lemma lookup_has_key (k : string) (o : obj) :
  lookup k o <> VUndef -> has_key k o = true.
Proof.
  intros H. destruct (has_key k o) eqn:K; [reflexivity|].
  exfalso. apply H, lookup_absent, K.
Qed.

End StructuredMarkers.

(** X20.  In every diff set [getAttributeDiffs] returns, an attribute whose
    marker and whose value in the new map are both non-empty plain objects
    has as its new value what [deepmerge] returns for the new value as
    target and the marker as source. *)
Theorem getAttributeDiffs_merges_objects :
  forall (DEEPMERGE : value -> value -> result value)
         (new : obj) (old after : value) (resource : Resource)
         (diffs : list (string * Diff)) (st' : store) (key : string) (d : Diff)
         (p q : string * value) (m o : obj),
    getAttributeDiffs DEEPMERGE (VObj new) old after resource
    = (Ok diffs, st') ->
    In (key, d) diffs ->
    get (dropped resource after) key = Ok (VObj (p :: m)) ->
    lookup key new = VObj (q :: o) ->
    DEEPMERGE (VObj (q :: o)) (VObj (p :: m)) = Ok (newValue d).
Proof.
  intros DEEPMERGE new old after resource diffs st' key d p q m o
    H Hin Hm Hv.
  destruct (getAttributeDiffs_record _ _ _ _ _ _ _ _ _ H Hin)
    as (nv & marker & sa & sb & _ & R & G & M).
  rewrite Hm in G. injection G as <-.
  rewrite resolveNew_collapse in R. cbn [is_null] in R.
  rewrite get_own in R by (apply lookup_has_key; rewrite Hv; discriminate).
  cbn [bind] in R. rewrite Hv in R. injection R as <-.
  rewrite mergeUnknown_objects in M. congruence.
Qed.

(** The [environment] of a function, with one unknown variable. *)
Lemma getAttributeDiffs_merges_objects_witness :
  Sample.merge (VObj [("stage", VStr "prod")]) (VObj [("token", VBool true)])
  = Ok (VObj [("stage", VStr "prod"); ("token", VBool true)]).
Proof.
  exact (getAttributeDiffs_merges_objects Sample.merge
           [("environment", VObj [("stage", VStr "prod")])] VNull
           (VObj [("environment", VObj [("token", VBool true)])]) bucket
           [("environment",
             {| oldValue := VNull;
                newValue := VObj [("stage", VStr "prod");
                                  ("token", VBool true)] |})]
           _ "environment"
           {| oldValue := VNull;
              newValue := VObj [("stage", VStr "prod");
                                ("token", VBool true)] |}
           ("token", VBool true) ("stage", VStr "prod") [] []
           eq_refl (or_introl eq_refl) eq_refl eq_refl).
Defined.

(** X21.  In every diff set [getAttributeDiffs] returns, an attribute that
    has a new value, and whose marker neither asks for no merge nor is
    [true], keeps its new value unchanged when marker and new value are not
    both arrays and not both plain objects (the "unexpected condition" of
    line 605). *)
Theorem getAttributeDiffs_unexpected_shape :
  forall (DEEPMERGE : value -> value -> result value)
         (new : obj) (old after : value) (resource : Resource)
         (diffs : list (string * Diff)) (st' : store) (key : string) (d : Diff)
         (marker : value),
    getAttributeDiffs DEEPMERGE (VObj new) old after resource
    = (Ok diffs, st') ->
    In (key, d) diffs ->
    get (dropped resource after) key = Ok marker ->
    ~ noMerge marker -> marker <> VBool true ->
    collapse (lookup key new) <> VNull ->
    Array_isArray marker && Array_isArray (lookup key new) = false ->
    isObject marker && isObject (lookup key new) = false ->
    newValue d = lookup key new.
Proof.
  intros DEEPMERGE new old after resource diffs st' key d marker
    H Hin Hm Hn Ht Hc Harr Hobj.
  destruct (getAttributeDiffs_record _ _ _ _ _ _ _ _ _ H Hin)
    as (nv & marker' & sa & sb & _ & R & G & M).
  rewrite Hm in G. injection G as <-.
  rewrite resolveNew_collapse in R. cbn [is_null] in R.
  rewrite get_own in R
    by (apply lookup_has_key; intros E; rewrite E in Hc; apply Hc; reflexivity).
  cbn [bind] in R. injection R as <-.
  assert (E : collapse (lookup key new) = lookup key new).
  { destruct (lookup key new) as [| |b|n|s|xs|[|x o]|f]; try reflexivity;
      exfalso; apply Hc; reflexivity. }
  rewrite E in M.
  apply (mergeUnknown_unexpected _ _ _ _ _ Hn Ht) in M; try assumption.
  destruct (lookup key new); try reflexivity. exfalso. apply Hc. reflexivity.
Qed.

(** A marker that is a list over a new value that is a string. *)
Lemma getAttributeDiffs_unexpected_shape_witness :
  newValue {| oldValue := VNull; newValue := VStr "eu-west-1" |}
  = lookup "zone" [("zone", VStr "eu-west-1")].
Proof.
  refine (getAttributeDiffs_unexpected_shape Sample.merge
            [("zone", VStr "eu-west-1")] VNull
            (VObj [("zone", VArr [VBool true])]) bucket
            [("zone", {| oldValue := VNull; newValue := VStr "eu-west-1" |})]
            _ "zone" _ (VArr [VBool true])
            eq_refl (or_introl eq_refl) eq_refl _ _ _ eq_refl eq_refl).
  - unfold noMerge. intros [H|[H|[H|H]]]; discriminate.
  - discriminate.
  - discriminate.
Defined.

(* ================================================================== *)
(** * Further properties: the classifier's tally *)
(* ================================================================== *)

Section TallyTotal.

Lemma counts_partition (actions : list string) :
  countOf "read" actions + countOf "create" actions
  + countOf "update" actions + countOf "delete" actions
  + countUnknown actions
  = length actions.
Proof.
  unfold countOf, countUnknown, knownAction.
  induction actions as [|a rest IH]; [reflexivity|].
  cbn [filter existsb length].
  destruct (String.eqb_spec a "read") as [->|]; [cbn in *; lia|].
  destruct (String.eqb_spec a "create") as [->|]; [cbn in *; lia|].
  destruct (String.eqb_spec a "update") as [->|]; [cbn in *; lia|].
  destruct (String.eqb_spec a "delete") as [->|]; [cbn in *; lia|].
  cbn in *. lia.
Qed.

End TallyTotal.

(** X22.  Unless the action list is the single "no-op",
    [getResourceChangeInfo] counts every action exactly once: the five
    counters of the tally together grow by the number of actions. *)
Theorem getResourceChangeInfo_counts_each_action :
  forall (actions : list string) (c : ChangeCount),
    isNoOp actions = false ->
    let c' := snd (getResourceChangeInfo actions c) in
    count_read c' + count_create c' + count_update c' + count_delete c'
    + count_unknown c'
    = count_read c + count_create c + count_update c + count_delete c
      + count_unknown c + length actions.
Proof.
  intros actions c Hn c'. subst c'.
  destruct (getResourceChangeInfo_cases actions c) as [[Ha E]|[Ha E]].
  - rewrite Ha in Hn. discriminate.
  - rewrite E. cbn [snd].
    destruct (tallied_counts actions c) as (H1 & H2 & H3 & H4 & H5).
    rewrite H1, H2, H3, H4, H5.
    pose proof (counts_partition actions). lia.
Qed.

(** A replacement with an action the classifier does not know. *)
Lemma getResourceChangeInfo_counts_each_action_witness :
  0 + 1 + 0 + 1 + 1 = 0 + 0 + 0 + 0 + 0 + 3.
Proof.
  exact (getResourceChangeInfo_counts_each_action
           ["delete"; "create"; "forget"] zeroCount eq_refl).
Defined.

Section ChildModules.

(** Where the loop over [child_modules] finds what it returns. *)
Lemma searchChildModules_result (relativeAddress moduleName : string) :
  forall xs found,
    searchChildModules relativeAddress moduleName xs = Ok (Some found) ->
    exists before childModule after pre post,
      xs = (before ++ childModule :: after)%list
      /\ Forall (otherAddress ("module." ++ moduleName)) before
      /\ get childModule "address" = Ok (VStr ("module." ++ moduleName))
      /\ get childModule "resources" = Ok (VArr (pre ++ found :: post)%list)
      /\ Forall (otherAddress ("module." ++ moduleName ++ "."
                               ++ relativeAddress)) pre.
Proof.
  induction xs as [|cm rest IH]; cbn [searchChildModules]; intros found F;
    [discriminate|].
  destruct (get cm "address") as [a|] eqn:A; cbn [bind] in F; [|discriminate].
  destruct (is_string ("module." ++ moduleName) a) eqn:E.
  - destruct (get cm "resources") as [rs|] eqn:R; cbn [bind] in F;
      [|discriminate].
    destruct (getMatchingAddress _ rs) as [x|] eqn:G; cbn [bind] in F;
      [|discriminate].
    destruct (is_null x) eqn:N; cbn [negb] in F; [discriminate|].
    injection F as <-.
    destruct rs as [| | | | |items| |]; cbn [getMatchingAddress] in G;
      try discriminate.
    destruct (findAddress_result _ _ _ G) as [[-> _]|(pre & post & -> & _ & P)];
      [discriminate|].
    exists [], cm, rest, pre, post.
    split; [reflexivity|]. split; [constructor|].
    split; [|split; [exact R | exact P]].
    destruct a; cbn [is_string] in E; try discriminate.
    apply String.eqb_eq in E. subst. exact A.
  - destruct (IH found F) as (before & c & after & pre & post
                              & -> & B & Ca & Cr & P).
    exists (cm :: before), c, after, pre, post.
    split; [reflexivity|].
    split; [constructor; [exists a; split; assumption | exact B]|].
    split; [exact Ca|]. split; [exact Cr | exact P].
Qed.

End ChildModules.

(** X5.  For a module name other than "root_module", whatever
    [getPlannedValuesModuleResource] returns is a resource of a child module
    of the planned values: the first child module whose [address] is
    [module.<name>], and in its [resources] the first one whose [address] is
    the fully qualified [module.<name>.<relative address>].  It never
    returns [null], and never searches the root module's list. *)
Theorem getPlannedValuesModuleResource_named_module :
  forall (relativeAddress moduleName : string) (fullJson : Plan) (r : value),
    (moduleName =? "root_module") = false ->
    getPlannedValuesModuleResource relativeAddress moduleName fullJson = Ok r ->
    r <> VNull
    /\ get r "address"
       = Ok (VStr ("module." ++ moduleName ++ "." ++ relativeAddress))
    /\ inChildModule relativeAddress moduleName fullJson r.
Proof.
  intros relativeAddress moduleName fullJson r Hm H.
  destruct (getPlannedValuesModuleResource_child _ _ _ _ Hm H) as [N A].
  split; [exact N|]. split; [exact A|].
  unfold getPlannedValuesModuleResource in H. rewrite Hm in H.
  destruct (get (planned_values fullJson) "root_module") as [root|] eqn:R;
    cbn [bind] in H; [|discriminate].
  destruct (get root "child_modules") as [cms|] eqn:C; cbn [bind] in H;
    [|discriminate].
  destruct cms as [| | | | |xs| |]; cbn [bind] in H; try discriminate.
  destruct (searchChildModules relativeAddress moduleName xs)
    as [[found|]|] eqn:F; cbn [bind] in H; try discriminate.
  injection H as <-.
  destruct (searchChildModules_result _ _ _ _ F)
    as (before & c & after & pre & post & -> & B & Ca & Cr & P).
  exists root, before, c, after, pre, post.
  repeat split; assumption.
Qed.

(** The template resource of the child module [module.app]. *)
Lemma getPlannedValuesModuleResource_named_module_witness :
  templateInRoot <> VNull
  /\ get templateInRoot "address"
     = Ok (VStr ("module." ++ "app" ++ "." ++ "data.template_file.policy"))
  /\ inChildModule "data.template_file.policy" "app" plannedInChildModule
       templateInRoot.
Proof.
  exact (getPlannedValuesModuleResource_named_module
           "data.template_file.policy" "app" plannedInChildModule
           templateInRoot eq_refl eq_refl).
Defined.

(** [isEmptyObject] on an empty array. *)
Lemma isEmptyObject_cases_witness :
  isEmptyObject (VArr []) = Ok false.
Proof.
  refine (proj2 (proj2 (proj2 (isEmptyObject_cases (VArr [])))) _ _);
    discriminate.
Defined.
